(** * Segment pipeline of [surya/scripts/pipeline.py]

    A shallow embedding of the coordinate reconciliation and segment
    aggregation code: the two croppers ([crop_clean_segments_with_margin],
    [crop_segments_from_image]), the recogniser loop ([ocr_segments]) and
    the pipeline of one image ([run_layout_on_image_file]); and, of
    [surya/scripts/streamlit_app.py], the call of that pipeline on a page
    and the text quality check ([ocr_errors]).

    Conventions of the embedding.
    - A Python [float] is an IEEE 754 binary64 value, written as the
      Standard Library's [spec_float] with [prec = 53] and [emax = 1024];
      arithmetic is [SFmul], [SFadd], [SFsub], [SFdiv] at that format, so
      rounding, infinities and NaN are those of the interpreter.
    - A Python [int] is a [Z].  The values handed to [max], [min] and [int]
      are either, hence the sum type [pynum].
    - Exceptions are values of [exn]; a computation that prints or saves and
      may raise is a [run]: the trace of what it did, then its result.
    - A Python [str] is a [string] whose characters are the code points
      below 256.
    - A box is its four coordinates as floats: in document mode what line
      78 yields once [map(float, ...)] has converted the numbers of the
      JSON file, in direct mode the [bbox] of a layout box.  The
      exceptions of that conversion, and those of the file system other
      than the one of line 180, are outside the embedding. *)

From Stdlib Require Import ZArith List Bool Lia String Ascii.
From Stdlib Require Import Sorted Permutation.
From Stdlib Require Import DecimalString DecimalPos.
From Stdlib Require Import Floats.SpecFloat.
Import ListNotations.
Local Open Scope Z_scope.

(** ** Exceptions and results *)

Inductive exn : Type :=
| ValueError (msg : string)
| OverflowError (msg : string)
| IndexError (msg : string)
| ZeroDivisionError (msg : string)
| FileNotFoundError (msg : string).

Inductive result (A : Type) : Type :=
| Ok (a : A)
| Raise (e : exn).
Arguments Ok {A} a.
Arguments Raise {A} e.

Definition result_bind {A B} (r : result A) (k : A -> result B) : result B :=
  match r with
  | Ok a => k a
  | Raise e => Raise e
  end.

Declare Scope result_scope.
Delimit Scope result_scope with result.
Notation "x <- r ;; k" := (result_bind r (fun x => k))
  (at level 61, r at next level, right associativity) : result_scope.

(** ** Python numbers *)

Module Float64.

Definition prec : Z := 53.
Definition emax : Z := 1024.

Definition float : Type := spec_float.

Definition mul : float -> float -> float := SFmul prec emax.
Definition add : float -> float -> float := SFadd prec emax.
Definition sub : float -> float -> float := SFsub prec emax.
Definition div : float -> float -> float := SFdiv prec emax.

(** [float(z)] for an integer that binary64 holds exactly, and the
    round-to-nearest-even value otherwise. *)
Definition of_Z (z : Z) : float := binary_normalize prec emax z 0 false.

Definition valid (f : float) : Prop := valid_binary prec emax f = true.

Definition one : float := S754_finite false 4503599627370496 (-52).

(** The literal [0.05]: the binary64 value nearest to 1/20. *)
Definition lit_0_05 : float := S754_finite false 7205759403792794 (-57).

End Float64.

Declare Scope float64_scope.
Delimit Scope float64_scope with f64.
Infix "*" := Float64.mul : float64_scope.
Infix "+" := Float64.add : float64_scope.
Infix "-" := Float64.sub : float64_scope.

Inductive pynum : Type :=
| PyInt (z : Z)
| PyFloat (f : Float64.float).

(** The exact value of a number: not a number, an infinity, or the dyadic
    rational [n * 2 ^ e]. *)
Inductive xreal : Type :=
| XNaN
| XInf (negative : bool)
| XFin (n e : Z).

Definition float_value (f : Float64.float) : xreal :=
  match f with
  | S754_nan => XNaN
  | S754_infinity s => XInf s
  | S754_zero _ => XFin 0 0
  | S754_finite s m e => XFin (cond_Zopp s (Zpos m)) e
  end.

Definition num_value (x : pynum) : xreal :=
  match x with
  | PyInt z => XFin z 0
  | PyFloat f => float_value f
  end.

(** [align n e k] is the numerator of [n * 2 ^ e] over the denominator
    [2 ^ k], for [- e <= k]. *)
Definition align (n e k : Z) : Z := n * 2 ^ (e + k).

Definition fin_compare (n1 e1 n2 e2 : Z) : comparison :=
  let k := Z.max 0 (Z.max (- e1) (- e2)) in
  align n1 e1 k ?= align n2 e2 k.

(** Comparison of two numbers; the interpreter compares an [int] with a
    [float] by value, without rounding the [int], and a NaN with nothing. *)
Definition xcompare (a b : xreal) : option comparison :=
  match a, b with
  | XNaN, _ | _, XNaN => None
  | XInf s1, XInf s2 =>
      Some (match s1, s2 with
            | true, false => Lt
            | false, true => Gt
            | _, _ => Eq
            end)
  | XInf s, XFin _ _ => Some (if s then Lt else Gt)
  | XFin _ _, XInf s => Some (if s then Gt else Lt)
  | XFin n1 e1, XFin n2 e2 => Some (fin_compare n1 e1 n2 e2)
  end.

Definition py_compare (a b : pynum) : option comparison :=
  xcompare (num_value a) (num_value b).

Definition py_lt (a b : pynum) : bool :=
  match py_compare a b with Some Lt => true | _ => false end.

Definition py_gt (a b : pynum) : bool :=
  match py_compare a b with Some Gt => true | _ => false end.

Definition py_le (a b : pynum) : bool :=
  match py_compare a b with Some (Lt | Eq) => true | _ => false end.

(** [max(a, b)] and [min(a, b)]: the builtins keep the first argument unless
    the second compares strictly beyond it. *)
Definition py_max (a b : pynum) : pynum := if py_gt b a then b else a.
Definition py_min (a b : pynum) : pynum := if py_lt b a then b else a.

(** Truncation toward zero of [n * 2 ^ e]. *)
Definition trunc (n e : Z) : Z :=
  let k := Z.max 0 (- e) in
  Z.quot (align n e k) (2 ^ k).

(** [int(x)]. *)
Definition py_int (x : pynum) : result Z :=
  match num_value x with
  | XNaN => Raise (ValueError "cannot convert float NaN to integer")
  | XInf _ => Raise (OverflowError "cannot convert float infinity to integer")
  | XFin n e => Ok (trunc n e)
  end.

(** [a / b] on two [int]s.  Both are image dimensions, which binary64 holds
    exactly, so the quotient of the converted operands is the correctly
    rounded quotient the interpreter returns. *)
Definition py_truediv (a b : Z) : result Float64.float :=
  if b =? 0 then Raise (ZeroDivisionError "division by zero")
  else Ok (Float64.div (Float64.of_Z a) (Float64.of_Z b)).

(** [l[i]] on a list, negative indices counting from the end. *)
Definition py_index {A} (l : list A) (i : Z) : result A :=
  let n := Z.of_nat (List.length l) in
  let j := if i <? 0 then i + n else i in
  if (j <? 0) || (n <=? j) then Raise (IndexError "list index out of range")
  else match nth_error l (Z.to_nat j) with
       | Some a => Ok a
       | None => Raise (IndexError "list index out of range")
       end.

(** ** Python strings *)

Module PyStr.
Local Open Scope string_scope.

Definition LF : string := String "010"%char EmptyString.

(** [s.endswith(suffix)]: some tail of [s] is [suffix]. *)
Fixpoint endswith (s suffix : string) : bool :=
  String.eqb s suffix
  || match s with
     | EmptyString => false
     | String _ s' => endswith s' suffix
     end.

(** [sub in s]: [sub] starts at some position of [s]. *)
Fixpoint contains (sub s : string) : bool :=
  String.prefix sub s
  || match s with
     | EmptyString => false
     | String _ s' => contains sub s'
     end.

(** [str(z)], also what an f-string prints for an [int]. *)
Definition str_of_Z (z : Z) : string := NilZero.string_of_int (Z.to_int z).

(** The white space of [str.strip()] among the code points below 256. *)
Definition is_space (c : ascii) : bool :=
  let n := nat_of_ascii c in
  ((9 <=? n) && (n <=? 13) || (28 <=? n) && (n <=? 32)
   || (n =? 133) || (n =? 160))%nat.

Section Strip.
Variable drop : ascii -> bool.

Fixpoint lstrip_with (s : string) : string :=
  match s with
  | EmptyString => EmptyString
  | String c s' => if drop c then lstrip_with s' else s
  end.

Fixpoint rstrip_with (s : string) : string :=
  match s with
  | EmptyString => EmptyString
  | String c s' =>
      match rstrip_with s' with
      | EmptyString => if drop c then EmptyString else String c EmptyString
      | r => String c r
      end
  end.

Definition strip_with (s : string) : string := rstrip_with (lstrip_with s).

Fixpoint all_chars (s : string) : bool :=
  match s with
  | EmptyString => true
  | String c s' => drop c && all_chars s'
  end.
End Strip.

(** [s.strip()] and [s.strip("/")]. *)
Definition strip : string -> string := strip_with is_space.
Definition strip_slash : string -> string := strip_with (Ascii.eqb "/").

(** A string that is empty or white space only. *)
Definition blank : string -> bool := all_chars is_space.

Definition is_empty (s : string) : bool :=
  match s with EmptyString => true | String _ _ => false end.

(** [os.path.basename(p)]: what follows the last slash. *)
Fixpoint basename_from (acc p : string) : string :=
  match p with
  | EmptyString => acc
  | String c p' =>
      if Ascii.eqb c "/" then basename_from EmptyString p'
      else basename_from (acc ++ String c EmptyString) p'
  end.
Definition basename (p : string) : string := basename_from EmptyString p.

(** [os.path.join(a, b)]. *)
Definition path_join (a b : string) : string :=
  if String.prefix "/" b then b
  else if is_empty a || endswith a "/" then a ++ b
  else a ++ "/" ++ b.

(** *** The box number of a file name: [re.search(r"box_(\d+)", fname)] *)

Definition is_digit (c : ascii) : bool :=
  let n := nat_of_ascii c in ((48 <=? n) && (n <=? 57))%nat.

Definition digit_value (c : ascii) : Z := Z.of_nat (nat_of_ascii c) - 48.

(** The longest run of digits at the head of [s]: what a greedy [\d+]
    takes. *)
Fixpoint digits_prefix (s : string) : list ascii :=
  match s with
  | EmptyString => []
  | String c s' => if is_digit c then c :: digits_prefix s' else []
  end.

(** [int] of a string of digits. *)
Definition int_of_digits (ds : list ascii) : Z :=
  fold_left (fun acc c => 10 * acc + digit_value c)%Z ds 0%Z.

(** The pattern tried at the head of [s]. *)
Definition match_box_at (s : string) : option Z :=
  match s with
  | String "b" (String "o" (String "x" (String "_" rest))) =>
      match digits_prefix rest with
      | [] => None
      | ds => Some (int_of_digits ds)
      end
  | _ => None
  end.

(** The sort key: the number of the leftmost match, or [float('inf')]. *)
Inductive sort_key : Type :=
| KInt (n : Z)
| KInf.

Fixpoint extract_box_number (fname : string) : sort_key :=
  match match_box_at fname with
  | Some n => KInt n
  | None =>
      match fname with
      | EmptyString => KInf
      | String _ rest => extract_box_number rest
      end
  end.

(** [a < b] on keys: an [int] against an [int], or against the infinity. *)
Definition key_lt (a b : sort_key) : bool :=
  match a, b with
  | KInt m, KInt n => (m <? n)%Z
  | KInt _, KInf => true
  | KInf, _ => false
  end.

Definition key_le (a b : sort_key) : bool := negb (key_lt b a).

Definition key_eqb (a b : sort_key) : bool :=
  match a, b with
  | KInt m, KInt n => (m =? n)%Z
  | KInf, KInf => true
  | _, _ => false
  end.

End PyStr.

(** ** [list.sort(key = ...)]

    The sort of the interpreter is stable: its result is the one list that
    is ordered by key and keeps elements of equal key in their input order.
    Insertion from the right computes that list. *)

Section PySort.
Context {A : Type}.
Variable key : A -> PyStr.sort_key.

Fixpoint insert_by (x : A) (l : list A) : list A :=
  match l with
  | [] => [x]
  | y :: l' =>
      if PyStr.key_lt (key y) (key x) then y :: insert_by x l'
      else x :: l
  end.

Definition py_sort (l : list A) : list A := fold_right insert_by [] l.
End PySort.

(** ** What a cropper does: saves and prints, possibly ending in an exception *)

Record image : Type := { width : Z; height : Z }.

Definition rect : Type := (Z * Z * Z * Z)%type.

(** [Saved name src crop]: [src.crop(crop).save(<output_dir>/name)] and its
    log line; [LayoutNotFound p]: the log line of a page without layout
    image. *)
Inductive event : Type :=
| Saved (out_name : string) (src : image) (crop : rect)
| LayoutNotFound (page_index : Z).

Definition run (A : Type) : Type := (list event * result A)%type.

Definition ret {A} (a : A) : run A := ([], Ok a).
Definition raise {A} (e : exn) : run A := ([], Raise e).
Definition lift {A} (r : result A) : run A := ([], r).
Definition emit (ev : event) : run unit := ([ev], Ok tt).

Definition bind {A B} (m : run A) (k : A -> run B) : run B :=
  match m with
  | (t, Ok a) => let (t', r) := k a in (t ++ t', r)
  | (t, Raise e) => (t, Raise e)
  end.

Declare Scope run_scope.
Delimit Scope run_scope with run.
Notation "x <- m ;; k" := (bind m (fun x => k))
  (at level 61, m at next level, right associativity) : run_scope.

(** [for a in l: body(a)]; [continue] is [ret tt] in the body. *)
Fixpoint for_each {A} (l : list A) (body : A -> run unit) : run unit :=
  match l with
  | [] => ret tt
  | a :: l' => bind (body a) (fun _ => for_each l' body)
  end.

Fixpoint enumerate {A} (start : Z) (l : list A) : list (Z * A) :=
  match l with
  | [] => []
  | a :: l' => (start, a) :: enumerate (start + 1) l'
  end.

(** ** The croppers *)

Module Pipeline.
Import PyStr.

Definition box : Type :=
  (Float64.float * Float64.float * Float64.float * Float64.float)%type.

Definition clamped : Type := (pynum * pynum * pynum * pynum)%type.

(** Lines 85-94 and 124-133, up to the calls of [int]: the margins, and
    the four coordinates expanded and clamped to the page. *)
Definition expand_clamp (orig_w orig_h : Z)
    (margin_x_ratio margin_y_ratio : Float64.float) (b : box) : clamped :=
  let '(x1, y1, x2, y2) := b in
  let width := (x2 - x1)%f64 in
  let height := (y2 - y1)%f64 in
  let margin_x := (margin_x_ratio * width)%f64 in
  let margin_y := (margin_y_ratio * height)%f64 in
  (py_max (PyInt 0) (PyFloat (x1 - margin_x)%f64),
   py_max (PyInt 0) (PyFloat (y1 - margin_y)%f64),
   py_min (PyInt orig_w) (PyFloat (x2 + margin_x)%f64),
   py_min (PyInt orig_h) (PyFloat (y2 + margin_y)%f64)).

(** The four calls of [int], in the order of the source. *)
Definition truncate (c : clamped) : result rect :=
  let '(cx1, cy1, cx2, cy2) := c in
  (new_x1 <- py_int cx1 ;;
   new_y1 <- py_int cy1 ;;
   new_x2 <- py_int cx2 ;;
   new_y2 <- py_int cy2 ;;
   Ok (new_x1, new_y1, new_x2, new_y2))%result.

(** The test of lines 96 and 135. *)
Definition degenerate (r : rect) : bool :=
  let '(new_x1, new_y1, new_x2, new_y2) := r in
  (new_x2 <=? new_x1) || (new_y2 <=? new_y1).

(** Lines 80-83: the box in the coordinates of the page render. *)
Definition scale_box (scale_x scale_y : Float64.float) (b : box) : box :=
  let '(x1, y1, x2, y2) := b in
  ((x1 * scale_x)%f64, (y1 * scale_y)%f64,
   (x2 * scale_x)%f64, (y2 * scale_y)%f64).

(** *** Document mode *)

Record page_data : Type := { page : Z; bboxes : list box }.

Definition page_tag (page_num : Z) : string :=
  ("_" ++ str_of_Z (page_num - 1) ++ "_")%string.

(** The test of line 63. *)
Definition page_matches (page_num : Z) (fname : string) : bool :=
  contains (page_tag page_num) fname
  || endswith fname (page_tag page_num ++ "layout.png")%string.

Definition document_box_name (doc_key : string) (page_num idx : Z) : string :=
  (doc_key ++ "_page_" ++ str_of_Z page_num
     ++ "_box_" ++ str_of_Z (idx + 1) ++ ".png")%string.

Section Document.
(** [convert_from_path(pdf_path, dpi)], [os.listdir(layout_image_dir)]
    and [Image.open] on a file of that directory. *)
Variable original_images : list image.
Variable listing : list string.
Variable open_layout : string -> image.
Variables margin_x_ratio margin_y_ratio : Float64.float.

Definition layout_images : list string :=
  filter (fun f => endswith f "_layout.png") listing.

(** Lines 62-65. *)
Definition match_layout (page_num : Z) : option string :=
  find (page_matches page_num) layout_images.

(** Lines 78-103: the body of the loop over the boxes of a page. *)
Definition crop_page_box (doc_key : string) (page_num : Z)
    (original_img : image) (scale_x scale_y : Float64.float)
    (ib : Z * box) : run unit :=
  let '(idx, b) := ib in
  (r <- lift (truncate
                (expand_clamp (width original_img) (height original_img)
                   margin_x_ratio margin_y_ratio
                   (scale_box scale_x scale_y b))) ;;
   if degenerate r then ret tt
   else emit (Saved (document_box_name doc_key page_num idx)
                original_img r))%run.

(** Lines 57-103: the body of the loop over the pages. *)
Definition crop_page (doc_key : string) (pd : page_data) : run unit :=
  let page_num := page pd in
  (original_img <- lift (py_index original_images (page_num - 1)) ;;
   match match_layout page_num with
   | None => emit (LayoutNotFound (page_num - 1))
   | Some matched_layout_file =>
       let layout_img := open_layout matched_layout_file in
       scale_x <- lift (py_truediv (width original_img) (width layout_img)) ;;
       scale_y <- lift (py_truediv (height original_img) (height layout_img)) ;;
       for_each (enumerate 0 (bboxes pd))
         (crop_page_box doc_key page_num original_img scale_x scale_y)
   end)%run.

(** [layout_data] is the parsed JSON object, as its items in order. *)
Definition crop_clean_segments_with_margin
    (layout_data : list (string * list page_data)) : run unit :=
  if negb (Nat.eqb (List.length layout_data) 1) then
    raise (ValueError "Expected one document in JSON.")
  else
    (doc <- lift (py_index layout_data 0) ;;
     let '(doc_key, page_data_list) := doc in
     for_each page_data_list (crop_page doc_key))%run.
End Document.

(** *** Direct mode *)

Definition image_box_name (idx : Z) : string :=
  ("image_box_" ++ str_of_Z (idx + 1) ++ ".png")%string.

Definition crop_image_box (img : image) (margin_ratio : Float64.float)
    (ib : Z * box) : run unit :=
  let '(idx, b) := ib in
  (r <- lift (truncate
                (expand_clamp (width img) (height img)
                   margin_ratio margin_ratio b)) ;;
   if degenerate r then ret tt
   else emit (Saved (image_box_name idx) img r))%run.

Definition crop_segments_from_image (img : image) (layout_bboxes : list box)
    (margin_ratio : Float64.float) : run unit :=
  for_each (enumerate 0 layout_bboxes) (crop_image_box img margin_ratio).

(** *** The recogniser *)

Section Recogniser.
(** [os.listdir] and the recognition capability: for the image at a
    path, its predictions, each the texts of its lines. *)
Variable listdir : string -> list string.
Variable recognition : string -> list (list string).

(** Lines 155-161. *)
Definition sorted_files (folder_path : string) : list string :=
  py_sort extract_box_number
    (filter (fun f => endswith f ".png") (listdir folder_path)).

(** Lines 170-173. *)
Definition segment_text_of (preds : list (list string)) : string :=
  fold_left
    (fun segment_text pred =>
       fold_left (fun segment_text line => segment_text ++ line ++ LF)%string
         pred segment_text)
    preds EmptyString.

(** Lines 166-178: the body of the loop over the files. *)
Definition ocr_file (folder_path : string) (full_text fname : string)
    : string :=
  let image_path := path_join folder_path fname in
  let segment_text := segment_text_of (recognition image_path) in
  let segment_text :=
    if is_empty (strip segment_text) then "<No Text Detected>"%string
    else segment_text in
  (full_text ++ "[" ++ fname ++ "]" ++ LF ++ strip segment_text
     ++ LF ++ LF)%string.

(** Lines 153-178: the body of the loop over the folders. *)
Definition ocr_folder (full_text folder_path : string) : string :=
  let page_id := basename (strip_slash folder_path) in
  let files := sorted_files folder_path in
  let full_text :=
    (full_text ++ LF ++ "=== SEGMENTS: " ++ page_id ++ " ===" ++ LF
       ++ LF)%string in
  fold_left (ocr_file folder_path) files full_text.

(** The text written to [output_txt_path]. *)
Definition ocr_segments (segment_folders : list string) : string :=
  fold_left ocr_folder segment_folders EmptyString.
End Recogniser.

End Pipeline.

(** ** Vocabulary of the properties *)

(** A number that is neither an infinity nor a NaN. *)
Definition finite (x : pynum) : bool :=
  match num_value x with
  | XFin _ _ => true
  | _ => false
  end.

(** A float that is a zero or a finite number. *)
Definition finite_float (f : Float64.float) : Prop :=
  match f with
  | S754_zero _ | S754_finite _ _ _ => True
  | _ => False
  end.

(** The box with corners at integers, as the scenarios write boxes. *)
Definition box_of_Z (x1 y1 x2 y2 : Z) : Pipeline.box :=
  (Float64.of_Z x1, Float64.of_Z y1, Float64.of_Z x2, Float64.of_Z y2).

(** The input box with each of its four coordinates truncated to an
    integer. *)
Definition truncated_box (b : Pipeline.box) : result rect :=
  let '(x1, y1, x2, y2) := b in
  (n_x1 <- py_int (PyFloat x1) ;;
   n_y1 <- py_int (PyFloat y1) ;;
   n_x2 <- py_int (PyFloat x2) ;;
   n_y2 <- py_int (PyFloat y2) ;;
   Ok (n_x1, n_y1, n_x2, n_y2))%result.

(** A box none of whose corners leaves the page. *)
Definition within_page (w h : Z) (b : Pipeline.box) : Prop :=
  let '(x1, y1, x2, y2) := b in
  py_le (PyInt 0) (PyFloat x1) = true /\ py_le (PyFloat x1) (PyInt w) = true /\
  py_le (PyInt 0) (PyFloat y1) = true /\ py_le (PyFloat y1) (PyInt h) = true /\
  py_le (PyInt 0) (PyFloat x2) = true /\ py_le (PyFloat x2) (PyInt w) = true /\
  py_le (PyInt 0) (PyFloat y2) = true /\ py_le (PyFloat y2) (PyInt h) = true.

Definition valid_box (b : Pipeline.box) : Prop :=
  let '(x1, y1, x2, y2) := b in
  Float64.valid x1 /\ Float64.valid y1 /\ Float64.valid x2 /\ Float64.valid y2.

(** The clamped coordinates as real numbers: a box of positive width and
    height, and one of width or height zero or less. *)
Definition positive_extent (c : Pipeline.clamped) : Prop :=
  let '(cx1, cy1, cx2, cy2) := c in
  py_lt cx1 cx2 = true /\ py_lt cy1 cy2 = true.

Definition collapsed (c : Pipeline.clamped) : Prop :=
  let '(cx1, cy1, cx2, cy2) := c in
  py_le cx2 cx1 = true \/ py_le cy2 cy1 = true.

Definition all_finite (c : Pipeline.clamped) : Prop :=
  let '(cx1, cy1, cx2, cy2) := c in
  finite cx1 = true /\ finite cy1 = true /\
  finite cx2 = true /\ finite cy2 = true.

(** [int(a) <= int(b)], both conversions defined. *)
Definition int_le (a b : pynum) : Prop :=
  exists na nb, py_int a = Ok na /\ py_int b = Ok nb /\ na <= nb.

Definition truncates_to_empty (c : Pipeline.clamped) : Prop :=
  let '(cx1, cy1, cx2, cy2) := c in
  int_le cx2 cx1 \/ int_le cy2 cy1.

(** The order in which keys sort, the infinity last. *)
Definition ordered_by {A} (key : A -> PyStr.sort_key) (a b : A) : Prop :=
  PyStr.key_le (key a) (key b) = true.

Definition key_order : string -> string -> Prop :=
  ordered_by PyStr.extract_box_number.

Definition is_png (f : string) : bool := PyStr.endswith f ".png".

(** The files of one key, for the order among files of equal key. *)
Definition has_key (k : PyStr.sort_key) (f : string) : bool :=
  PyStr.key_eqb (PyStr.extract_box_number f) k.

(** The report as the sections of the folders, each a header and the
    entries of its segments: the sentinel for a blank text, the stripped
    text otherwise. *)
Module Report.
Import PyStr.
Local Open Scope string_scope.

Definition join (l : list string) : string :=
  fold_right String.append EmptyString l.

Definition sentinel : string := "<No Text Detected>".

Definition entry (fname text : string) : string :=
  "[" ++ fname ++ "]" ++ LF
    ++ (if blank text then sentinel else strip text) ++ LF ++ LF.

Definition header (folder_path : string) : string :=
  LF ++ "=== SEGMENTS: " ++ basename (strip_slash folder_path) ++ " ==="
     ++ LF ++ LF.

Section Assembled.
Variable listdir : string -> list string.
Variable recognition : string -> list (list string).

Definition recognized_text (folder_path fname : string) : string :=
  Pipeline.segment_text_of (recognition (path_join folder_path fname)).

Definition section_of (folder_path : string) : string :=
  header folder_path
    ++ join (map (fun fname => entry fname (recognized_text folder_path fname))
               (Pipeline.sorted_files listdir folder_path)).

Definition report (segment_folders : list string) : string :=
  join (map section_of segment_folders).
End Assembled.
End Report.

(** ** The pipeline of one image: [run_layout_on_image_file] and its caller *)

Module ImagePipeline.
Import PyStr.

(** The names under which a trace saved files, in order. *)
Definition saved_names (t : list event) : list string :=
  flat_map (fun ev => match ev with
                      | Saved out_name _ _ => [out_name]
                      | LayoutNotFound _ => []
                      end) t.

(** A directory, as the names of its files: saving under a name that is
    there overwrites the file, saving under a new name adds it. *)
Definition save_file (dir : list string) (name : string) : list string :=
  if existsb (String.eqb name) dir then dir else (dir ++ [name])%list.

Definition save_files (dir : list string) (names : list string)
    : list string :=
  fold_left save_file names dir.

(** [os.path.dirname(p)] of [posixpath]: the head [p[:i]], with [i] one
    past the last slash, stripped of its trailing slashes unless it is
    made of slashes only. *)
Fixpoint dirname_head (p : string) : string :=
  match p with
  | EmptyString => EmptyString
  | String c p' =>
      match dirname_head p' with
      | EmptyString =>
          if Ascii.eqb c "/" then String c EmptyString else EmptyString
      | head => String c head
      end
  end.

Definition dirname (p : string) : string :=
  let head := dirname_head p in
  if negb (is_empty head) && negb (all_chars (Ascii.eqb "/") head)
  then rstrip_with (Ascii.eqb "/") head
  else head.

(** Reading a file in text mode, with the default [newline=None]: a
    carriage return followed by a line feed, and a carriage return alone,
    are each read as one line feed.  (Writing in text mode translates
    nothing where [os.linesep] is the line feed, as on a POSIX system.) *)
Definition CR : ascii := "013"%char.

Fixpoint universal_newlines (s : string) : string :=
  match s with
  | EmptyString => EmptyString
  | String c s' =>
      if Ascii.eqb c CR then
        match s' with
        | String d s'' =>
            if Ascii.eqb d "010" then String "010" (universal_newlines s'')
            else String "010" (universal_newlines s')
        | EmptyString => String "010" EmptyString
        end
      else String c (universal_newlines s')
  end.

(** A string that holds no carriage return. *)
Definition no_cr : string -> bool :=
  all_chars (fun c => negb (Ascii.eqb c CR)).

Section OneImage.
(** [run_layout_on_image]: the boxes of [LayoutPredictor()([image])[0]];
    the order in which [os.listdir] returns the files of a directory; the
    recognition capability, as in [ocr_segments]. *)
Variable run_layout_on_image : image -> list Pipeline.box.
Variable listing_order : list string -> list string.
Variable recognition : string -> list (list string).

(** Lines 187-201 of [pipeline.py].  [crops_before] is what the folder
    [<output_dir>/crops] holds when the function is called; the result is
    the text written to [<output_dir>/final_ocr_output.txt].  Before it
    opens that file, [ocr_segments] makes the directory of its path (line
    180): for a path with no directory part, [os.makedirs] is called on
    the empty string and raises [FileNotFoundError], after the crops have
    been saved and recognised, and nothing is written. *)
Definition run_layout_on_image_file (img : image) (output_dir : string)
    (crops_before : list string) : list event * result string :=
  let layout_result := run_layout_on_image img in
  let crops_dir := path_join output_dir "crops" in
  match Pipeline.crop_segments_from_image img layout_result
          Float64.lit_0_05 with
  | (t, Raise e) => (t, Raise e)
  | (t, Ok _) =>
      let crops := save_files crops_before (saved_names t) in
      let listdir := fun folder_path =>
        if String.eqb folder_path crops_dir then listing_order crops
        else [] in
      let output_txt_path := path_join output_dir "final_ocr_output.txt" in
      let full_text :=
        Pipeline.ocr_segments listdir recognition [crops_dir] in
      if is_empty (dirname output_txt_path) then
        (t, Raise (FileNotFoundError
                     "[Errno 2] No such file or directory: ''"))
      else (t, Ok full_text)
  end.

(** Lines 309-320 of [streamlit_app.py]: the output folder of page [idx]
    is removed, made again, and the pipeline run on it; the result is the
    text read back, in text mode, for display. *)
Definition full_pipeline_on_page (tmp_dir : string) (idx : Z) (img : image)
    : list event * result string :=
  let output_dir :=
    path_join tmp_dir ("surya_image_pipeline_" ++ str_of_Z idx)%string in
  match run_layout_on_image_file img output_dir [] with
  | (t, Ok written) => (t, Ok (universal_newlines written))
  | (t, Raise e) => (t, Raise e)
  end.
End OneImage.

(** The names of the boxes of an image that pass the test of line 135, in
    the order of the boxes. *)
Definition kept_box_names (img : image) (margin_ratio : Float64.float)
    (bboxes : list Pipeline.box) : list string :=
  flat_map
    (fun ib : Z * Pipeline.box =>
       match Pipeline.truncate
               (Pipeline.expand_clamp (width img) (height img)
                  margin_ratio margin_ratio (snd ib)) with
       | Ok r => if Pipeline.degenerate r then []
                 else [Pipeline.image_box_name (fst ib)]
       | Raise _ => []
       end)
    (enumerate 0 bboxes).

(** What a trace cropped, in order: the source images and the crop boxes,
    without the names of the files. *)
Definition crops_of (t : list event) : list (image * rect) :=
  flat_map (fun ev => match ev with
                      | Saved _ src crop => [(src, crop)]
                      | LayoutNotFound _ => []
                      end) t.

End ImagePipeline.

(** ** The text quality check: [ocr_errors] of [streamlit_app.py] *)

Module PdfQuality.

(** The literal [0.2]: the binary64 value nearest to 1/5. *)
Definition lit_0_2 : Float64.float := S754_finite false 7205759403792794 (-55).

(** [a // b] on two [int]s. *)
Definition py_floordiv (a b : Z) : result Z :=
  if b =? 0 then Raise (ZeroDivisionError "integer division or modulo by zero")
  else Ok (a / b).

(** [list(range(start, stop))]. *)
Definition py_range (start stop : Z) : list Z :=
  map (fun i => start + Z.of_nat i) (seq 0 (Z.to_nat (stop - start))).

(** [list(range(start, stop, step))]. *)
Definition py_range_step (start stop step : Z) : result (list Z) :=
  if step =? 0 then Raise (ValueError "range() arg 3 must not be zero")
  else
    let n := if 0 <? step then (stop - start + step - 1) / step
             else (start - stop - step - 1) / (- step) in
    Ok (map (fun i => start + Z.of_nat i * step) (seq 0 (Z.to_nat n))).

(** [l[lo:hi]]: a negative bound counts from the end, and both are then
    clamped to the list. *)
Definition py_slice {A} (l : list A) (lo hi : Z) : list A :=
  let n := Z.of_nat (List.length l) in
  let adjust := fun x => if x <? 0 then Z.max (x + n) 0 else Z.min x n in
  skipn (Z.to_nat (adjust lo))
    (firstn (Z.to_nat (adjust hi)) l).

(** [labels.count("bad")]. *)
Definition count_bad (labels : list string) : Z :=
  Z.of_nat (List.length (filter (String.eqb "bad") labels)).

(** Lines 284-285: the pages whose text is read. *)
Definition page_range (page_count max_pages : Z) : list Z :=
  let page_middle := page_count / 2 in
  py_range (Z.max (page_middle - max_pages) 0)
    (Z.min (page_middle + max_pages) page_count).

(** Lines 287-291, for a text that is not empty: the samples, or nothing
    when the gap is zero. *)
Definition samples_of {char} (text : list char)
    (sample_len max_samples : Z) : result (option (list (list char))) :=
  (gap <- py_floordiv (Z.of_nat (List.length text)) max_samples ;;
   if gap =? 0 then Ok None
   else
     let gap := Z.max gap sample_len in
     starts <- py_range_step 0 (Z.of_nat (List.length text)) gap ;;
     Ok (Some (map (fun i => py_slice text i (i + sample_len)) starts)))%result.

(** Lines 293-296. *)
Definition label_of (labels : list string) : result string :=
  (ratio <- py_truediv (count_bad labels) (Z.of_nat (List.length labels)) ;;
   Ok (if py_gt (PyFloat ratio) (PyFloat lit_0_2)
       then "PDF may have garbled OCR text."%string
       else "PDF has good text."%string))%result.

(** The test of line 294 against the test on integers, more than one
    label in five is bad, for every count of bad labels among [n]. *)
Definition threshold_agrees (n : Z) : bool :=
  forallb
    (fun bad =>
       match py_truediv bad n with
       | Ok ratio =>
           Bool.eqb (py_gt (PyFloat ratio) (PyFloat lit_0_2)) (n <? 5 * bad)
       | Raise _ => false
       end)
    (py_range 0 (n + 1)).

Section OcrErrors.
Context {char : Type}.
(** [plain_text_output] on the pages of a range, and the labels of the
    error classifier on a list of samples. *)
Variable plain_text_output : list Z -> list char.
Variable ocr_error : list (list char) -> list string.

(** Lines 279-296. *)
Definition ocr_errors (page_count sample_len max_samples max_pages : Z)
    : result (string * list string) :=
  let text := plain_text_output (page_range page_count max_pages) in
  match text with
  | [] => Ok ("PDF has no or very little text"%string, ["no text"%string])
  | _ :: _ =>
      (samples <- samples_of text sample_len max_samples ;;
       match samples with
       | None =>
           Ok ("PDF has no or very little text"%string, ["no text"%string])
       | Some samples =>
           let labels := ocr_error samples in
           label <- label_of labels ;;
           Ok (label, labels)
       end)%result
  end.
End OcrErrors.

End PdfQuality.

(** * Properties *)

(** ** Arithmetic of dyadic values *)

Lemma pow2_pos (k : Z) : 0 <= k -> 0 < 2 ^ k.
Proof. intros. apply Z.pow_pos_nonneg; lia. Qed.

Lemma align_shift (n e k d : Z) :
  0 <= e + k -> 0 <= d -> align n e (k + d) = align n e k * 2 ^ d.
Proof.
  intros Hk Hd. unfold align.
  replace (e + (k + d)) with ((e + k) + d) by lia.
  rewrite Z.pow_add_r by lia. ring.
Qed.

Lemma trunc_align (n e k : Z) :
  Z.max 0 (- e) <= k -> Z.quot (align n e k) (2 ^ k) = trunc n e.
Proof.
  intros Hk. unfold trunc.
  set (k0 := Z.max 0 (- e)) in *.
  replace k with (k0 + (k - k0)) by lia.
  rewrite align_shift by lia.
  rewrite Z.pow_add_r by lia.
  apply Z.quot_mul_cancel_r.
  - pose proof (pow2_pos k0). lia.
  - pose proof (pow2_pos (k - k0)). lia.
Qed.

Lemma fin_compare_align (n1 e1 n2 e2 k : Z) :
  Z.max 0 (Z.max (- e1) (- e2)) <= k ->
  (align n1 e1 k ?= align n2 e2 k) = fin_compare n1 e1 n2 e2.
Proof.
  intros Hk. unfold fin_compare.
  set (k0 := Z.max 0 (Z.max (- e1) (- e2))) in *.
  replace k with (k0 + (k - k0)) by lia.
  rewrite !align_shift by lia.
  symmetry. apply Zmult_compare_compat_r.
  pose proof (pow2_pos (k - k0)). lia.
Qed.

Lemma fin_compare_antisym (n1 e1 n2 e2 : Z) :
  fin_compare n2 e2 n1 e1 = CompOpp (fin_compare n1 e1 n2 e2).
Proof.
  unfold fin_compare. rewrite (Z.max_comm (- e2) (- e1)).
  apply Z.compare_antisym.
Qed.

(** Truncation is monotone in the value. *)
Lemma trunc_mono (n1 e1 n2 e2 : Z) :
  fin_compare n1 e1 n2 e2 <> Gt -> trunc n1 e1 <= trunc n2 e2.
Proof.
  intros Hc.
  set (k := Z.max 0 (Z.max (- e1) (- e2))).
  rewrite <- (trunc_align n1 e1 k), <- (trunc_align n2 e2 k) by lia.
  apply Z.quot_le_mono.
  - apply pow2_pos. lia.
  - rewrite <- (fin_compare_align n1 e1 n2 e2 k) in Hc by lia.
    apply Z.compare_le_iff. exact Hc.
Qed.

Lemma trunc_eq (n1 e1 n2 e2 : Z) :
  fin_compare n1 e1 n2 e2 = Eq -> trunc n1 e1 = trunc n2 e2.
Proof.
  intros Hc. apply Z.le_antisymm; apply trunc_mono.
  - rewrite Hc. discriminate.
  - rewrite fin_compare_antisym, Hc. discriminate.
Qed.

Lemma trunc_int (z : Z) : trunc z 0 = z.
Proof.
  unfold trunc, align. simpl. rewrite Z.mul_1_r. apply Z.quot_1_r.
Qed.

Lemma py_int_PyInt (z : Z) : py_int (PyInt z) = Ok z.
Proof. unfold py_int. simpl. now rewrite trunc_int. Qed.

(** ** Comparison, clamping and [int] *)

Lemma py_compare_antisym (a b : pynum) :
  py_compare b a = option_map CompOpp (py_compare a b).
Proof.
  unfold py_compare.
  destruct (num_value a) as [|[]|n1 e1], (num_value b) as [|[]|n2 e2];
    simpl; try reflexivity.
  now rewrite fin_compare_antisym.
Qed.

Lemma py_int_mono (a b : pynum) (c : comparison) (na nb : Z) :
  py_compare a b = Some c -> c <> Gt ->
  py_int a = Ok na -> py_int b = Ok nb -> na <= nb.
Proof.
  unfold py_compare, py_int.
  destruct (num_value a) as [|[]|n1 e1], (num_value b) as [|[]|n2 e2];
    simpl; try discriminate.
  intros Hc Hgt Ha Hb.
  injection Hc as <-. injection Ha as <-. injection Hb as <-.
  now apply trunc_mono.
Qed.

Lemma py_int_eq (a b : pynum) (na nb : Z) :
  py_compare a b = Some Eq ->
  py_int a = Ok na -> py_int b = Ok nb -> na = nb.
Proof.
  intros Hc Ha Hb. apply Z.le_antisymm.
  - eapply py_int_mono; eauto. discriminate.
  - apply (py_int_mono b a Eq nb na); auto; [|discriminate].
    rewrite py_compare_antisym, Hc. reflexivity.
Qed.

Lemma py_le_int_mono (a b : pynum) (na nb : Z) :
  py_le a b = true -> py_int a = Ok na -> py_int b = Ok nb -> na <= nb.
Proof.
  unfold py_le. destruct (py_compare a b) as [[]|] eqn:Hc; try discriminate;
    intros _; eapply py_int_mono; eauto; discriminate.
Qed.

(** [int(max(0, v))] is never negative. *)
Lemma low_clamp_nonneg (v : Float64.float) (n : Z) :
  py_int (py_max (PyInt 0) (PyFloat v)) = Ok n -> 0 <= n.
Proof.
  unfold py_max, py_gt.
  destruct (py_compare (PyFloat v) (PyInt 0)) as [[]|] eqn:Hc;
    try (rewrite py_int_PyInt; intros [= <-]; lia).
  intros Hn.
  apply (py_int_mono (PyInt 0) (PyFloat v) Lt 0 n); auto using py_int_PyInt.
  - rewrite py_compare_antisym, Hc. reflexivity.
  - discriminate.
Qed.

(** [int(min(w, v))] never exceeds [w]. *)
Lemma high_clamp_le (w : Z) (v : Float64.float) (n : Z) :
  py_int (py_min (PyInt w) (PyFloat v)) = Ok n -> n <= w.
Proof.
  unfold py_min, py_lt.
  destruct (py_compare (PyFloat v) (PyInt w)) as [[]|] eqn:Hc;
    try (rewrite py_int_PyInt; intros [= <-]; lia).
  intros Hn.
  apply (py_int_mono (PyFloat v) (PyInt w) Lt n w); auto using py_int_PyInt.
  discriminate.
Qed.

Lemma truncate_Ok (c : Pipeline.clamped) (r : rect) :
  Pipeline.truncate c = Ok r <->
  let '(cx1, cy1, cx2, cy2) := c in
  let '(n_x1, n_y1, n_x2, n_y2) := r in
  py_int cx1 = Ok n_x1 /\ py_int cy1 = Ok n_y1 /\
  py_int cx2 = Ok n_x2 /\ py_int cy2 = Ok n_y2.
Proof.
  destruct c as [[[cx1 cy1] cx2] cy2], r as [[[n_x1 n_y1] n_x2] n_y2].
  unfold Pipeline.truncate, result_bind. split.
  - destruct (py_int cx1), (py_int cy1), (py_int cx2), (py_int cy2);
      intros H; try discriminate.
    injection H as <- <- <- <-. auto.
  - intros (-> & -> & -> & ->). reflexivity.
Qed.

(** ** Traces of loops *)

Lemma in_bind {A B} (m : run A) (k : A -> run B) (ev : event) :
  In ev (fst (bind m k)) ->
  In ev (fst m) \/ exists a, snd m = Ok a /\ In ev (fst (k a)).
Proof.
  destruct m as [t [a|e]]; simpl.
  - destruct (k a) as [t' r] eqn:Hk. simpl. rewrite in_app_iff.
    intros [H|H]; [now left|right]. exists a. rewrite Hk. auto.
  - auto.
Qed.

Lemma bind_ret_l {A B} (a : A) (k : A -> run B) : bind (ret a) k = k a.
Proof. unfold bind, ret. now destruct (k a). Qed.

Lemma in_for_each {A} (l : list A) (body : A -> run unit) (ev : event) :
  In ev (fst (for_each l body)) -> exists a, In a l /\ In ev (fst (body a)).
Proof.
  induction l as [|a l IH]; simpl.
  - contradiction.
  - intros H. apply in_bind in H. destruct H as [H|(_ & _ & H)].
    + exists a. auto.
    + destruct (IH H) as (a' & Hin & Hev). exists a'. auto.
Qed.

Lemma in_enumerate {A} (l : list A) (start i : Z) (a : A) :
  In (i, a) (enumerate start l) ->
  exists n, i = start + Z.of_nat n /\ nth_error l n = Some a.
Proof.
  revert start. induction l as [|x l IH]; simpl; intros start.
  - contradiction.
  - intros [[= <- <-]|H].
    + exists 0%nat. split; [lia|reflexivity].
    + destruct (IH _ H) as (n & -> & Hn). exists (S n). split; [lia|exact Hn].
Qed.

Lemma nth_error_enumerate {A} (l : list A) (start : Z) (n : nat) (a : A) :
  nth_error l n = Some a -> In (start + Z.of_nat n, a) (enumerate start l).
Proof.
  revert start n. induction l as [|x l IH]; intros start [|n]; simpl;
    try discriminate.
  - intros [= ->]. left. f_equal. lia.
  - intros H. right. replace (start + Z.pos (Pos.of_succ_nat n))
      with ((start + 1) + Z.of_nat n) by lia. now apply IH.
Qed.


(** ** What a saved segment comes from *)

Section Provenance.
Import Pipeline.

Lemma in_crop_image_box (img : image) (margin_ratio : Float64.float)
    (idx : Z) (b : box) (ev : event) :
  In ev (fst (crop_image_box img margin_ratio (idx, b))) <->
  exists r,
    truncate (expand_clamp (width img) (height img)
                margin_ratio margin_ratio b) = Ok r /\
    degenerate r = false /\
    ev = Saved (image_box_name idx) img r.
Proof.
  unfold crop_image_box, bind, lift, ret, emit.
  destruct (truncate _) as [r|e]; simpl.
  - destruct (degenerate r) eqn:Hd; simpl.
    + split; [contradiction|]. intros (r' & [= <-] & Hd' & _). congruence.
    + split.
      * intros [<-|[]]. eauto.
      * intros (r' & [= <-] & _ & ->). auto.
  - split; [contradiction|]. intros (r' & [=] & _).
Qed.

Lemma in_crop_page_box (mxr myr : Float64.float) (doc_key : string)
    (page_num : Z) (img : image) (sx sy : Float64.float)
    (idx : Z) (b : box) (ev : event) :
  In ev (fst (crop_page_box mxr myr doc_key page_num img sx sy (idx, b))) <->
  exists r,
    truncate (expand_clamp (width img) (height img) mxr myr
                (scale_box sx sy b)) = Ok r /\
    degenerate r = false /\
    ev = Saved (document_box_name doc_key page_num idx) img r.
Proof.
  unfold crop_page_box, bind, lift, ret, emit.
  destruct (truncate _) as [r|e]; simpl.
  - destruct (degenerate r) eqn:Hd; simpl.
    + split; [contradiction|]. intros (r' & [= <-] & Hd' & _). congruence.
    + split.
      * intros [<-|[]]. eauto.
      * intros (r' & [= <-] & _ & ->). auto.
  - split; [contradiction|]. intros (r' & [=] & _).
Qed.

(** Every segment that document mode saves is the crop of one box of one
    page, cut from the render of that page and named after the position
    of the box. *)
Lemma saved_in_document (original_images : list image)
    (listing : list string) (open_layout : string -> image)
    (mxr myr : Float64.float) (layout_data : list (string * list page_data))
    (name : string) (src : image) (r : rect) :
  In (Saved name src r)
     (fst (crop_clean_segments_with_margin original_images listing
             open_layout mxr myr layout_data)) ->
  exists doc_key pages pd fname sx sy n b,
    layout_data = [(doc_key, pages)] /\ In pd pages /\
    py_index original_images (page pd - 1) = Ok src /\
    match_layout listing (page pd) = Some fname /\
    py_truediv (width src) (width (open_layout fname)) = Ok sx /\
    py_truediv (height src) (height (open_layout fname)) = Ok sy /\
    nth_error (bboxes pd) n = Some b /\
    name = document_box_name doc_key (page pd) (Z.of_nat n) /\
    truncate (expand_clamp (width src) (height src) mxr myr
                (scale_box sx sy b)) = Ok r /\
    degenerate r = false.
Proof.
  unfold crop_clean_segments_with_margin.
  destruct layout_data as [|[doc_key pages] [|d l]];
    try (simpl; contradiction).
  cbn [List.length Nat.eqb negb].
  change (lift (py_index [(doc_key, pages)] 0)) with (ret (doc_key, pages)).
  rewrite bind_ret_l. intros H.
  apply in_for_each in H. destruct H as (pd & Hpd & H).
  unfold crop_page in H. apply in_bind in H. cbn [fst snd lift In] in H.
  destruct H as [[]|(img & Himg & H)].
  destruct (match_layout listing (page pd)) as [fname|] eqn:Hm.
  2:{ cbn [fst emit In] in H. destruct H as [[=]|[]]. }
  apply in_bind in H. cbn [fst snd lift In] in H.
  destruct H as [[]|(sx & Hsx & H)].
  apply in_bind in H. cbn [fst snd lift In] in H.
  destruct H as [[]|(sy & Hsy & H)].
  apply in_for_each in H. destruct H as ([idx b] & Hin & H).
  apply in_crop_page_box in H. destruct H as (r' & Ht & Hd & [= -> -> ->]).
  apply in_enumerate in Hin. destruct Hin as (n & -> & Hn).
  exists doc_key, pages, pd, fname, sx, sy, n, b. simpl. auto 10.
Qed.

Lemma saved_in_image (img : image) (bboxes : list box)
    (margin_ratio : Float64.float) (name : string) (src : image) (r : rect) :
  In (Saved name src r)
     (fst (crop_segments_from_image img bboxes margin_ratio)) ->
  exists n b,
    src = img /\ nth_error bboxes n = Some b /\
    name = image_box_name (Z.of_nat n) /\
    truncate (expand_clamp (width img) (height img)
                margin_ratio margin_ratio b) = Ok r /\
    degenerate r = false.
Proof.
  unfold crop_segments_from_image. intros H.
  apply in_for_each in H. destruct H as ([idx b] & Hin & H).
  apply in_crop_image_box in H. destruct H as (r' & Ht & Hd & [= -> -> ->]).
  apply in_enumerate in Hin. destruct Hin as (n & -> & Hn).
  exists n, b. simpl. auto.
Qed.

(** The bounds of a crop that passed the test of lines 96 and 135. *)
Lemma crop_bounds (w h : Z) (mxr myr : Float64.float) (b : box)
    (x1 y1 x2 y2 : Z) :
  truncate (expand_clamp w h mxr myr b) = Ok (x1, y1, x2, y2) ->
  degenerate (x1, y1, x2, y2) = false ->
  0 <= x1 < x2 /\ x2 <= w /\ 0 <= y1 < y2 /\ y2 <= h.
Proof.
  destruct b as [[[bx1 by1] bx2] by2].
  intros Ht Hd. apply truncate_Ok in Ht. simpl in Ht.
  destruct Ht as (H1 & H2 & H3 & H4).
  apply low_clamp_nonneg in H1, H2. apply high_clamp_le in H3, H4.
  unfold degenerate in Hd. apply orb_false_iff in Hd. lia.
Qed.
End Provenance.

(** ** Bounds of the saved segments *)

(** C1. Whatever either cropper saves is cut from the render of the page
    the box belongs to, and its integer bounds satisfy
    [0 <= x1 < x2 <= width] and [0 <= y1 < y2 <= height] of that render.
    In document mode the render is [original_images[page - 1]]; in direct
    mode it is the image handed to the cropper. *)
Theorem saved_segment_within_page :
  (forall original_images listing open_layout mxr myr layout_data
          name src x1 y1 x2 y2,
      In (Saved name src (x1, y1, x2, y2))
         (fst (Pipeline.crop_clean_segments_with_margin original_images
                 listing open_layout mxr myr layout_data)) ->
      (exists doc_key pages pd,
          layout_data = [(doc_key, pages)] /\ In pd pages /\
          py_index original_images (Pipeline.page pd - 1) = Ok src) /\
      0 <= x1 < x2 /\ x2 <= width src /\ 0 <= y1 < y2 /\ y2 <= height src)
  /\
  (forall img bboxes margin_ratio name src x1 y1 x2 y2,
      In (Saved name src (x1, y1, x2, y2))
         (fst (Pipeline.crop_segments_from_image img bboxes margin_ratio)) ->
      src = img /\
      0 <= x1 < x2 /\ x2 <= width src /\ 0 <= y1 < y2 /\ y2 <= height src).
Proof.
  split.
  - intros * H. apply saved_in_document in H.
    destruct H as (doc_key & pages & pd & fname & sx & sy & n & b
                   & Hl & Hpd & Hsrc & _ & _ & _ & _ & _ & Ht & Hd).
    split; [exists doc_key, pages, pd; auto|]. eapply crop_bounds; eauto.
  - intros * H. apply saved_in_image in H.
    destruct H as (n & b & -> & _ & _ & Ht & Hd).
    split; [reflexivity|]. eapply crop_bounds; eauto.
Qed.

Lemma saved_segment_within_page_witness :
  (0 <= 10 < 230 /\ 230 <= 400 /\ 0 <= 15 < 125 /\ 125 <= 200) /\
  (0 <= 10 < 250 /\ 250 <= 400 /\ 0 <= 10 < 200 /\ 200 <= 200).
Proof.
  split.
  - refine (proj2 (proj1 saved_segment_within_page
      [{| width := 400; height := 200 |}] ["doc_0_layout.png"%string]
      (fun _ => {| width := 200; height := 100 |})
      Float64.lit_0_05 Float64.lit_0_05
      [("doc"%string,
        [{| Pipeline.page := 1;
            Pipeline.bboxes := [box_of_Z 10 10 110 60] |}])]
      "doc_page_1_box_1.png"%string {| width := 400; height := 200 |}
      10 15 230 125 _)).
    vm_compute. left. reflexivity.
  - refine (proj2 (proj2 saved_segment_within_page
      {| width := 400; height := 200 |} [box_of_Z 10 10 250 300]
      (Float64.of_Z 0)
      "image_box_1.png"%string {| width := 400; height := 200 |}
      10 10 250 200 _)).
    vm_compute. left. reflexivity.
Defined.

(** ** The scenario of the rescaled box *)

Lemma lit_0_05_nearest :
  Float64.div (Float64.of_Z 1) (Float64.of_Z 20) = Float64.lit_0_05 /\
  Z.abs (20 * 7205759403792794 - 2 ^ 57) <= 10.
Proof. split; [reflexivity | vm_compute; discriminate]. Qed.

Lemma one_is_of_Z : Float64.of_Z 1 = Float64.one.
Proof. reflexivity. Qed.

(** C2. The box (10,10,110,60) of a 200x100 layout image, on a 400x200
    render with both margin ratios 0.05: the scales are 2 and 2, the scaled
    box is (20,20,220,120), the margins are 10 and 5, the expanded box is
    (10,15,230,125), no clamp changes it, and the integer crop box is
    (10,15,230,125); document mode saves exactly that crop. *)
Theorem scenario_rescale_margin_clamp :
  let render := {| width := 400; height := 200 |} in
  let layout := {| width := 200; height := 100 |} in
  let b := box_of_Z 10 10 110 60 in
  py_truediv (width render) (width layout) = Ok (Float64.of_Z 2) /\
  py_truediv (height render) (height layout) = Ok (Float64.of_Z 2) /\
  Pipeline.scale_box (Float64.of_Z 2) (Float64.of_Z 2) b
    = box_of_Z 20 20 220 120 /\
  (Float64.lit_0_05 * (Float64.of_Z 220 - Float64.of_Z 20))%f64
    = Float64.of_Z 10 /\
  (Float64.lit_0_05 * (Float64.of_Z 120 - Float64.of_Z 20))%f64
    = Float64.of_Z 5 /\
  Pipeline.expand_clamp 400 200 Float64.lit_0_05 Float64.lit_0_05
      (box_of_Z 20 20 220 120)
    = (PyFloat (Float64.of_Z 10), PyFloat (Float64.of_Z 15),
       PyFloat (Float64.of_Z 230), PyFloat (Float64.of_Z 125)) /\
  Pipeline.truncate
      (Pipeline.expand_clamp 400 200 Float64.lit_0_05 Float64.lit_0_05
         (Pipeline.scale_box (Float64.of_Z 2) (Float64.of_Z 2) b))
    = Ok (10, 15, 230, 125) /\
  Pipeline.crop_clean_segments_with_margin [render]
      ["doc_0_layout.png"%string] (fun _ => layout)
      Float64.lit_0_05 Float64.lit_0_05
      [("doc"%string, [{| Pipeline.page := 1; Pipeline.bboxes := [b] |}])]
    = ([Saved "doc_page_1_box_1.png" render (10, 15, 230, 125)], Ok tt).
Proof. repeat split; vm_compute; reflexivity. Qed.

(** ** Degenerate boxes *)

Lemma low_clamp_shape (v : Float64.float) :
  match num_value (py_max (PyInt 0) (PyFloat v)) with
  | XFin _ _ | XInf false => True
  | _ => False
  end.
Proof.
  unfold py_max, py_gt, py_compare.
  destruct v as [s|[]| |s m e]; simpl; auto.
  destruct (fin_compare _ _ _ _); simpl; auto.
Qed.

Lemma high_clamp_shape (w : Z) (v : Float64.float) :
  match num_value (py_min (PyInt w) (PyFloat v)) with
  | XFin _ _ | XInf true => True
  | _ => False
  end.
Proof.
  unfold py_min, py_lt, py_compare.
  destruct v as [s|[]| |s m e]; simpl; auto.
  - destruct (fin_compare _ _ _ _); simpl; auto.
  - destruct (fin_compare _ _ _ _); simpl; auto.
Qed.

Lemma finite_py_int (x : pynum) :
  finite x = true <-> exists n, py_int x = Ok n.
Proof.
  unfold finite, py_int. destruct (num_value x); split;
    try discriminate; eauto; intros [? [=]].
Qed.

(** A low clamp strictly below a high clamp: both are finite. *)
Lemma clamps_lt_finite (w : Z) (v1 v2 : Float64.float) :
  py_lt (py_max (PyInt 0) (PyFloat v1)) (py_min (PyInt w) (PyFloat v2))
  = true ->
  finite (py_max (PyInt 0) (PyFloat v1)) = true /\
  finite (py_min (PyInt w) (PyFloat v2)) = true.
Proof.
  pose proof (low_clamp_shape v1) as H1.
  pose proof (high_clamp_shape w v2) as H2.
  unfold py_lt, py_compare, finite.
  destruct (num_value (py_max _ _)) as [|[]|]; try contradiction;
    destruct (num_value (py_min _ _)) as [|[]|]; try contradiction;
    simpl; auto; discriminate.
Qed.

Lemma truncate_all_finite (c : Pipeline.clamped) :
  all_finite c -> exists r, Pipeline.truncate c = Ok r.
Proof.
  destruct c as [[[cx1 cy1] cx2] cy2]. intros (H1 & H2 & H3 & H4).
  apply finite_py_int in H1, H2, H3, H4.
  destruct H1 as [n1 H1], H2 as [n2 H2], H3 as [n3 H3], H4 as [n4 H4].
  exists (n1, n2, n3, n4). apply truncate_Ok. auto.
Qed.

Lemma truncate_empty_degenerate (c : Pipeline.clamped) (r : rect) :
  Pipeline.truncate c = Ok r -> truncates_to_empty c ->
  Pipeline.degenerate r = true.
Proof.
  destruct c as [[[cx1 cy1] cx2] cy2], r as [[[n1 m1] n2] m2].
  intros Ht He. apply truncate_Ok in Ht. destruct Ht as (H1 & H2 & H3 & H4).
  unfold Pipeline.degenerate. apply orb_true_iff.
  destruct He as [(a & b & Ha & Hb & Hle)|(a & b & Ha & Hb & Hle)];
    [left|right]; apply Z.leb_le; congruence.
Qed.

Lemma collapsed_truncates_to_empty (c : Pipeline.clamped) (r : rect) :
  Pipeline.truncate c = Ok r -> collapsed c -> truncates_to_empty c.
Proof.
  destruct c as [[[cx1 cy1] cx2] cy2], r as [[[n1 m1] n2] m2].
  intros Ht Hc. apply truncate_Ok in Ht. destruct Ht as (H1 & H2 & H3 & H4).
  destruct Hc as [Hc|Hc]; [left|right].
  - exists n2, n1. eauto using py_le_int_mono.
  - exists m2, m1. eauto using py_le_int_mono.
Qed.

Lemma positive_extent_finite (w h : Z) (mxr myr : Float64.float)
    (b : Pipeline.box) :
  positive_extent (Pipeline.expand_clamp w h mxr myr b) ->
  all_finite (Pipeline.expand_clamp w h mxr myr b).
Proof.
  destruct b as [[[x1 y1] x2] y2]. simpl. intros [Hx Hy].
  apply clamps_lt_finite in Hx, Hy. tauto.
Qed.

Section Skipping.
Import Pipeline.

Lemma for_each_skip {A} (a : A) (l : list A) (body : A -> run unit) :
  body a = ret tt -> for_each (a :: l) body = for_each l body.
Proof.
  simpl. intros ->. exact (bind_ret_l tt (fun _ => for_each l body)).
Qed.

Lemma image_box_skipped (img : image) (mr : Float64.float) (idx : Z)
    (b : box) (r : rect) :
  truncate (expand_clamp (width img) (height img) mr mr b) = Ok r ->
  degenerate r = true ->
  crop_image_box img mr (idx, b) = ret tt.
Proof. unfold crop_image_box, lift, bind. now intros -> ->. Qed.

Lemma page_box_skipped (mxr myr : Float64.float) (doc_key : string)
    (page_num : Z) (img : image) (sx sy : Float64.float) (idx : Z)
    (b : box) (r : rect) :
  truncate (expand_clamp (width img) (height img) mxr myr
              (scale_box sx sy b)) = Ok r ->
  degenerate r = true ->
  crop_page_box mxr myr doc_key page_num img sx sy (idx, b) = ret tt.
Proof. unfold crop_page_box, lift, bind. now intros -> ->. Qed.

Lemma image_box_raises (img : image) (mr : Float64.float) (idx : Z)
    (b : box) (e : exn) :
  truncate (expand_clamp (width img) (height img) mr mr b) = Raise e ->
  crop_image_box img mr (idx, b) = raise e.
Proof. unfold crop_image_box, lift, bind. now intros ->. Qed.

Lemma page_box_raises (mxr myr : Float64.float) (doc_key : string)
    (page_num : Z) (img : image) (sx sy : Float64.float) (idx : Z)
    (b : box) (e : exn) :
  truncate (expand_clamp (width img) (height img) mxr myr
              (scale_box sx sy b)) = Raise e ->
  crop_page_box mxr myr doc_key page_num img sx sy (idx, b) = raise e.
Proof. unfold crop_page_box, lift, bind. now intros ->. Qed.
End Skipping.

(** C9. The test of lines 96 and 135 reads the truncated integers: a box
    whose clamped bounds have positive real width and height, but whose
    lower and upper bound truncate to [int(x2') <= int(x1')] or
    [int(y2') <= int(y1')], is skipped by either cropper: nothing is saved,
    nothing is raised, and the loop goes on with the next box. *)
Theorem degeneracy_tested_after_truncation :
  (forall img margin_ratio idx b rest,
      let c := Pipeline.expand_clamp (width img) (height img)
                 margin_ratio margin_ratio b in
      positive_extent c -> truncates_to_empty c ->
      Pipeline.crop_image_box img margin_ratio (idx, b) = ret tt /\
      for_each (enumerate idx (b :: rest))
          (Pipeline.crop_image_box img margin_ratio)
        = for_each (enumerate (idx + 1) rest)
            (Pipeline.crop_image_box img margin_ratio))
  /\
  (forall mxr myr doc_key page_num img sx sy idx b rest,
      let c := Pipeline.expand_clamp (width img) (height img) mxr myr
                 (Pipeline.scale_box sx sy b) in
      positive_extent c -> truncates_to_empty c ->
      Pipeline.crop_page_box mxr myr doc_key page_num img sx sy (idx, b)
        = ret tt /\
      for_each (enumerate idx (b :: rest))
          (Pipeline.crop_page_box mxr myr doc_key page_num img sx sy)
        = for_each (enumerate (idx + 1) rest)
            (Pipeline.crop_page_box mxr myr doc_key page_num img sx sy)).
Proof.
  split.
  - intros img mr idx b rest c Hpos Hemp.
    destruct (truncate_all_finite c (positive_extent_finite _ _ _ _ _ Hpos))
      as [r Hr].
    assert (Hskip : Pipeline.crop_image_box img mr (idx, b) = ret tt).
    { eapply image_box_skipped; eauto using truncate_empty_degenerate. }
    split; [exact Hskip|]. simpl enumerate. now apply for_each_skip.
  - intros mxr myr doc_key page_num img sx sy idx b rest c Hpos Hemp.
    destruct (truncate_all_finite c (positive_extent_finite _ _ _ _ _ Hpos))
      as [r Hr].
    assert (Hskip : Pipeline.crop_page_box mxr myr doc_key page_num img sx sy
                      (idx, b) = ret tt).
    { eapply page_box_skipped; eauto using truncate_empty_degenerate. }
    split; [exact Hskip|]. simpl enumerate. now apply for_each_skip.
Qed.

(** The box from 10.25 to 10.75 across and from 10 to 20 down, on a 400x200
    page with the default margin: half a pixel wide, bounds 10 and 10. *)
Lemma degeneracy_tested_after_truncation_witness :
  let img := {| width := 400; height := 200 |} in
  let b := (Float64.div (Float64.of_Z 41) (Float64.of_Z 4), Float64.of_Z 10,
            Float64.div (Float64.of_Z 43) (Float64.of_Z 4), Float64.of_Z 20) in
  let c := Pipeline.expand_clamp 400 200 Float64.lit_0_05 Float64.lit_0_05 b in
  positive_extent c /\ truncates_to_empty c /\
  Pipeline.truncate c = Ok (10, 9, 10, 20) /\
  Pipeline.crop_image_box img Float64.lit_0_05 (0, b) = ret tt /\
  Pipeline.crop_page_box Float64.lit_0_05 Float64.lit_0_05 "doc" 1 img
    Float64.one Float64.one (0, b) = ret tt.
Proof.
  intros img b c.
  assert (Hpos : positive_extent c) by (vm_compute; auto).
  assert (Hemp : truncates_to_empty c).
  { left. exists 10, 10. vm_compute. repeat split; discriminate. }
  split; [exact Hpos|]. split; [exact Hemp|]. split; [reflexivity|]. split.
  - exact (proj1 (proj1 degeneracy_tested_after_truncation
                    img Float64.lit_0_05 0 b [] Hpos Hemp)).
  - refine (proj1 (proj2 degeneracy_tested_after_truncation
                     Float64.lit_0_05 Float64.lit_0_05 "doc"%string 1 img
                     Float64.one Float64.one 0 b [] _ _)).
    + vm_compute; auto.
    + left. exists 10, 10. vm_compute. repeat split; discriminate.
Defined.

Lemma py_min_le_r (a b : pynum) :
  finite a = true -> finite b = true -> py_le (py_min a b) b = true.
Proof.
  unfold finite, py_min, py_lt, py_le. intros Ha Hb.
  destruct (py_compare b a) as [[]|] eqn:Hc.
  - rewrite py_compare_antisym, Hc. reflexivity.
  - unfold py_compare in *. destruct (num_value b); try discriminate.
    simpl. unfold fin_compare. now rewrite Z.compare_refl.
  - rewrite py_compare_antisym, Hc. reflexivity.
  - unfold py_compare in Hc.
    destruct (num_value a), (num_value b); discriminate.
Qed.

Lemma finite_py_min (a b : pynum) :
  finite a = true -> finite b = true -> finite (py_min a b) = true.
Proof. unfold py_min. now destruct (py_lt b a). Qed.

(** The clamped bounds of the box (100,100,100,105), on any page, with the
    default margin: no width is left. *)
Lemma zero_width_box_collapsed (w h : Z) :
  let c := Pipeline.expand_clamp w h Float64.lit_0_05 Float64.lit_0_05
             (box_of_Z 100 100 100 105) in
  collapsed c /\ all_finite c.
Proof.
  set (f100 := Float64.of_Z 100).
  set (top := Float64.div (Float64.of_Z 399) (Float64.of_Z 4)).
  set (bottom := Float64.div (Float64.of_Z 421) (Float64.of_Z 4)).
  change (Pipeline.expand_clamp w h Float64.lit_0_05 Float64.lit_0_05
            (box_of_Z 100 100 100 105))
    with (PyFloat f100, PyFloat top,
          py_min (PyInt w) (PyFloat f100), py_min (PyInt h) (PyFloat bottom)).
  split.
  - left. now apply py_min_le_r.
  - repeat split; try reflexivity; now apply finite_py_min.
Qed.

(** The clamps keep an infinity that float overflow produced, and [int]
    raises on it: the coordinate 1e308 of a layout image, scaled by 2. *)
Lemma overflowed_coordinate_raises :
  let b := box_of_Z (10 ^ 308) 0 10 10 in
  let two := Float64.of_Z 2 in
  Pipeline.expand_clamp 400 200 Float64.lit_0_05 Float64.lit_0_05
    (Pipeline.scale_box two two b)
  = (PyFloat (S754_infinity false), PyInt 0, PyFloat (S754_infinity true),
     PyFloat (Float64.of_Z 21)) /\
  Pipeline.crop_page_box Float64.lit_0_05 Float64.lit_0_05 "doc" 1
    {| width := 400; height := 200 |} two two (0, b)
  = raise (OverflowError "cannot convert float infinity to integer").
Proof. split; reflexivity. Qed.

(** The claim of C4 fails for a collapsed box one of whose clamped
    coordinates is an infinity.  The box (1e308, 0, -1e308, 10) has the
    width -inf, its clamped bounds are x1' = +inf and x2' = -inf, so
    x2' <= x1'; [int] raises on x1' before the test of lines 96 and 135 is
    reached, and the box after it is not cropped. *)
Lemma collapsed_box_with_infinity_raises :
  let img := {| width := 400; height := 200 |} in
  let b := box_of_Z (10 ^ 308) 0 (- 10 ^ 308) 10 in
  let c := Pipeline.expand_clamp 400 200 Float64.lit_0_05 Float64.lit_0_05
             b in
  collapsed c /\
  Pipeline.crop_image_box img Float64.lit_0_05 (0, b)
  = raise (OverflowError "cannot convert float infinity to integer") /\
  Pipeline.crop_image_box img Float64.lit_0_05 (0, b) <> ret tt /\
  Pipeline.crop_page_box Float64.lit_0_05 Float64.lit_0_05 "doc" 1 img
    Float64.one Float64.one (0, b)
  = raise (OverflowError "cannot convert float infinity to integer") /\
  Pipeline.crop_segments_from_image img [b; box_of_Z 10 10 110 60]
    Float64.lit_0_05
  = ([], Raise (OverflowError "cannot convert float infinity to integer")).
Proof.
  intros img b c.
  assert (Hraise :
    Pipeline.crop_image_box img Float64.lit_0_05 (0, b)
    = raise (OverflowError "cannot convert float infinity to integer"))
    by (vm_compute; reflexivity).
  split; [left; vm_compute; reflexivity|].
  split; [exact Hraise|].
  split; [rewrite Hraise; discriminate|].
  split; vm_compute; reflexivity.
Qed.

(** C4, amended. A box whose clamped coordinates satisfy [x2' <= x1'] or
    [y2' <= y1'] never yields a saved segment, in either cropper; the
    clamped coordinates being finite numbers, as they are unless the float
    arithmetic overflowed, nothing is raised either and the loop goes on
    with the next box.  The box (100,100,100,105), of width zero, is such
    a box on every page, in direct mode and as the scaled box of document
    mode. *)
Theorem collapsed_box_is_skipped :
  (forall img margin_ratio idx b rest,
      let c := Pipeline.expand_clamp (width img) (height img)
                 margin_ratio margin_ratio b in
      collapsed c ->
      fst (Pipeline.crop_image_box img margin_ratio (idx, b)) = [] /\
      (all_finite c ->
       Pipeline.crop_image_box img margin_ratio (idx, b) = ret tt /\
       for_each (enumerate idx (b :: rest))
           (Pipeline.crop_image_box img margin_ratio)
         = for_each (enumerate (idx + 1) rest)
             (Pipeline.crop_image_box img margin_ratio)))
  /\
  (forall mxr myr doc_key page_num img sx sy idx b rest,
      let c := Pipeline.expand_clamp (width img) (height img) mxr myr
                 (Pipeline.scale_box sx sy b) in
      collapsed c ->
      fst (Pipeline.crop_page_box mxr myr doc_key page_num img sx sy (idx, b))
        = [] /\
      (all_finite c ->
       Pipeline.crop_page_box mxr myr doc_key page_num img sx sy (idx, b)
         = ret tt /\
       for_each (enumerate idx (b :: rest))
           (Pipeline.crop_page_box mxr myr doc_key page_num img sx sy)
         = for_each (enumerate (idx + 1) rest)
             (Pipeline.crop_page_box mxr myr doc_key page_num img sx sy)))
  /\
  (forall img idx,
      Pipeline.crop_image_box img Float64.lit_0_05
        (idx, box_of_Z 100 100 100 105) = ret tt)
  /\
  (forall doc_key page_num img sx sy idx b,
      Pipeline.scale_box sx sy b = box_of_Z 100 100 100 105 ->
      Pipeline.crop_page_box Float64.lit_0_05 Float64.lit_0_05 doc_key
        page_num img sx sy (idx, b) = ret tt).
Proof.
  assert (Himg : forall img mr idx b,
    collapsed (Pipeline.expand_clamp (width img) (height img) mr mr b) ->
    fst (Pipeline.crop_image_box img mr (idx, b)) = [] /\
    (all_finite (Pipeline.expand_clamp (width img) (height img) mr mr b) ->
     Pipeline.crop_image_box img mr (idx, b) = ret tt)).
  { intros img mr idx b Hc.
    destruct (Pipeline.truncate
                (Pipeline.expand_clamp (width img) (height img) mr mr b))
      as [r|e] eqn:Hr.
    - assert (Hs : Pipeline.crop_image_box img mr (idx, b) = ret tt).
      { eapply image_box_skipped; eauto.
        eauto using truncate_empty_degenerate, collapsed_truncates_to_empty. }
      rewrite Hs. auto.
    - rewrite (image_box_raises _ _ _ _ _ Hr). split; [reflexivity|].
      intros Hf. apply truncate_all_finite in Hf. destruct Hf as [r Hf].
      congruence. }
  assert (Hdoc : forall mxr myr doc_key page_num img sx sy idx b,
    collapsed (Pipeline.expand_clamp (width img) (height img) mxr myr
                 (Pipeline.scale_box sx sy b)) ->
    fst (Pipeline.crop_page_box mxr myr doc_key page_num img sx sy (idx, b))
      = [] /\
    (all_finite (Pipeline.expand_clamp (width img) (height img) mxr myr
                   (Pipeline.scale_box sx sy b)) ->
     Pipeline.crop_page_box mxr myr doc_key page_num img sx sy (idx, b)
       = ret tt)).
  { intros mxr myr doc_key page_num img sx sy idx b Hc.
    destruct (Pipeline.truncate
                (Pipeline.expand_clamp (width img) (height img) mxr myr
                   (Pipeline.scale_box sx sy b))) as [r|e] eqn:Hr.
    - assert (Hs : Pipeline.crop_page_box mxr myr doc_key page_num img sx sy
                     (idx, b) = ret tt).
      { eapply page_box_skipped; eauto.
        eauto using truncate_empty_degenerate, collapsed_truncates_to_empty. }
      rewrite Hs. auto.
    - rewrite (page_box_raises _ _ _ _ _ _ _ _ _ _ Hr). split; [reflexivity|].
      intros Hf. apply truncate_all_finite in Hf. destruct Hf as [r Hf].
      congruence. }
  repeat apply conj.
  - intros img mr idx b rest c Hc. destruct (Himg img mr idx b Hc) as [H1 H2].
    split; [exact H1|]. intros Hf. split; [auto|].
    simpl enumerate. apply for_each_skip. auto.
  - intros mxr myr doc_key page_num img sx sy idx b rest c Hc.
    destruct (Hdoc mxr myr doc_key page_num img sx sy idx b Hc) as [H1 H2].
    split; [exact H1|]. intros Hf. split; [auto|].
    simpl enumerate. apply for_each_skip. auto.
  - intros img idx.
    destruct (zero_width_box_collapsed (width img) (height img)) as [Hc Hf].
    now apply Himg.
  - intros doc_key page_num img sx sy idx b Hb.
    destruct (zero_width_box_collapsed (width img) (height img)) as [Hc Hf].
    apply Hdoc; now rewrite Hb.
Qed.

Lemma collapsed_box_is_skipped_witness :
  let img := {| width := 400; height := 200 |} in
  let b := box_of_Z 100 100 100 105 in
  let c := Pipeline.expand_clamp 400 200 Float64.lit_0_05 Float64.lit_0_05 b in
  collapsed c /\ all_finite c /\
  Pipeline.scale_box Float64.one Float64.one b = b /\
  Pipeline.crop_image_box img Float64.lit_0_05 (0, b) = ret tt /\
  Pipeline.crop_page_box Float64.lit_0_05 Float64.lit_0_05 "doc" 1 img
    Float64.one Float64.one (0, b) = ret tt /\
  for_each (enumerate 0 [b; box_of_Z 10 10 110 60])
    (Pipeline.crop_page_box Float64.lit_0_05 Float64.lit_0_05 "doc" 1 img
       Float64.one Float64.one)
  = for_each (enumerate 1 [box_of_Z 10 10 110 60])
      (Pipeline.crop_page_box Float64.lit_0_05 Float64.lit_0_05 "doc" 1 img
         Float64.one Float64.one).
Proof.
  intros img b c.
  assert (Hc : collapsed c) by (left; reflexivity).
  assert (Hf : all_finite c) by (repeat split; reflexivity).
  assert (Hs : Pipeline.scale_box Float64.one Float64.one b = b) by reflexivity.
  split; [exact Hc|]. split; [exact Hf|]. split; [exact Hs|].
  split; [|split].
  - exact (proj1 (proj2 (proj1 collapsed_box_is_skipped
                           img Float64.lit_0_05 0 b [] Hc) Hf)).
  - exact (proj2 (proj2 (proj2 collapsed_box_is_skipped))
             "doc"%string 1 img Float64.one Float64.one 0 b Hs).
  - exact (proj2 (proj2 (proj1 (proj2 collapsed_box_is_skipped)
                           Float64.lit_0_05 Float64.lit_0_05 "doc"%string 1
                           img Float64.one Float64.one 0 b
                           [box_of_Z 10 10 110 60] Hc) Hf)).
Defined.

(** ** Exceptions of document mode *)

Lemma snd_bind_raise {A B} (m : run A) (k : A -> run B) (e : exn) :
  snd (bind m k) = Raise e ->
  snd m = Raise e \/ exists a, snd m = Ok a /\ snd (k a) = Raise e.
Proof.
  destruct m as [t [a|e']]; simpl.
  - destruct (k a) as [t' r] eqn:Hk. simpl. intros ->. right.
    exists a. now rewrite Hk.
  - intros [= ->]. now left.
Qed.

Lemma snd_for_each_raise {A} (l : list A) (body : A -> run unit) (e : exn) :
  snd (for_each l body) = Raise e ->
  exists a, In a l /\ snd (body a) = Raise e.
Proof.
  induction l as [|a l IH]; simpl; [discriminate|].
  intros H. apply snd_bind_raise in H. destruct H as [H|(_ & _ & H)].
  - exists a. auto.
  - destruct (IH H) as (a' & Hin & Ha'). exists a'. auto.
Qed.

Lemma py_index_raise {A} (l : list A) (i : Z) (e : exn) :
  py_index l i = Raise e -> e = IndexError "list index out of range".
Proof.
  unfold py_index. destruct (_ || _); [now intros [= <-]|].
  destruct (nth_error _ _); [discriminate|now intros [= <-]].
Qed.


Lemma py_truediv_raise (a b : Z) (e : exn) :
  py_truediv a b = Raise e -> e = ZeroDivisionError "division by zero".
Proof.
  unfold py_truediv. destruct (b =? 0); [now intros [= <-]|discriminate].
Qed.

(** After the clamps, [int] meets no NaN: it raises nothing but the
    overflow of an infinity. *)
Lemma truncate_expand_raise (w h : Z) (mxr myr : Float64.float)
    (b : Pipeline.box) (e : exn) :
  Pipeline.truncate (Pipeline.expand_clamp w h mxr myr b) = Raise e ->
  e = OverflowError "cannot convert float infinity to integer".
Proof.
  destruct b as [[[x1 y1] x2] y2]. unfold Pipeline.expand_clamp.
  set (width := (x2 - x1)%f64). set (height := (y2 - y1)%f64).
  pose proof (low_clamp_shape (x1 - mxr * width)%f64) as H1.
  pose proof (low_clamp_shape (y1 - myr * height)%f64) as H2.
  pose proof (high_clamp_shape w (x2 + mxr * width)%f64) as H3.
  pose proof (high_clamp_shape h (y2 + myr * height)%f64) as H4.
  unfold Pipeline.truncate, result_bind, py_int. cbv zeta.
  destruct (num_value (py_max _ (PyFloat (x1 - _)%f64))) as [|[]|];
    try contradiction; try (now intros [= <-]);
  destruct (num_value (py_max _ (PyFloat (y1 - _)%f64))) as [|[]|];
    try contradiction; try (now intros [= <-]);
  destruct (num_value (py_min _ (PyFloat (x2 + _)%f64))) as [|[]|];
    try contradiction; try (now intros [= <-]);
  destruct (num_value (py_min _ (PyFloat (y2 + _)%f64))) as [|[]|];
    try contradiction; try (now intros [= <-]); discriminate.
Qed.

(** C7. A layout result that does not hold exactly one document makes
    document mode raise [ValueError("Expected one document in JSON.")]
    with nothing done before: no page visited, no segment saved, no line
    logged.  With exactly one document no [ValueError] is raised at all. *)
Theorem one_document_or_abort :
  forall original_images listing open_layout mxr myr layout_data,
    (List.length layout_data <> 1%nat ->
     Pipeline.crop_clean_segments_with_margin original_images listing
       open_layout mxr myr layout_data
     = ([], Raise (ValueError "Expected one document in JSON."))) /\
    (List.length layout_data = 1%nat ->
     forall msg,
       snd (Pipeline.crop_clean_segments_with_margin original_images listing
              open_layout mxr myr layout_data)
       <> Raise (ValueError msg)).
Proof.
  intros original_images listing open_layout mxr myr layout_data.
  unfold Pipeline.crop_clean_segments_with_margin. split.
  - intros Hlen. destruct (Nat.eqb_spec (List.length layout_data) 1);
      [contradiction|reflexivity].
  - intros Hlen msg. rewrite Hlen. cbn [Nat.eqb negb].
    destruct layout_data as [|[doc_key pages] [|d l]]; try discriminate.
    change (lift (py_index [(doc_key, pages)] 0)) with (ret (doc_key, pages)).
    rewrite bind_ret_l. intros H.
    apply snd_for_each_raise in H. destruct H as (pd & _ & H).
    unfold Pipeline.crop_page in H.
    apply snd_bind_raise in H. cbn [snd lift] in H.
    destruct H as [H|(img & _ & H)].
    { apply py_index_raise in H. discriminate. }
    destruct (Pipeline.match_layout listing (Pipeline.page pd)) as [fname|];
      [|discriminate].
    apply snd_bind_raise in H. cbn [snd lift] in H.
    destruct H as [H|(sx & _ & H)].
    { apply py_truediv_raise in H. discriminate. }
    apply snd_bind_raise in H. cbn [snd lift] in H.
    destruct H as [H|(sy & _ & H)].
    { apply py_truediv_raise in H. discriminate. }
    apply snd_for_each_raise in H. destruct H as ([idx b] & _ & H).
    unfold Pipeline.crop_page_box in H.
    apply snd_bind_raise in H. cbn [snd lift] in H.
    destruct H as [H|(r & _ & H)].
    { apply truncate_expand_raise in H. discriminate. }
    destruct (Pipeline.degenerate r); discriminate.
Qed.

Lemma one_document_or_abort_witness :
  Pipeline.crop_clean_segments_with_margin
    [{| width := 400; height := 200 |}] ["doc_0_layout.png"%string]
    (fun _ => {| width := 200; height := 100 |})
    Float64.lit_0_05 Float64.lit_0_05
    [("a"%string, [{| Pipeline.page := 1;
                      Pipeline.bboxes := [box_of_Z 10 10 110 60] |}]);
     ("b"%string, [])]
  = ([], Raise (ValueError "Expected one document in JSON."))
  /\
  snd (Pipeline.crop_clean_segments_with_margin
         [{| width := 400; height := 200 |}] ["doc_0_layout.png"%string]
         (fun _ => {| width := 200; height := 100 |})
         Float64.lit_0_05 Float64.lit_0_05
         [("a"%string, [{| Pipeline.page := 1;
                           Pipeline.bboxes := [box_of_Z 10 10 110 60] |}])])
  <> Raise (ValueError "Expected one document in JSON.").
Proof.
  split.
  - apply (proj1 (one_document_or_abort _ _ _ _ _ _)). simpl. lia.
  - apply (proj2 (one_document_or_abort _ _ _ _ _ _)). reflexivity.
Defined.

(** ** Substrings, suffixes and the first match *)

Section StringFacts.
Import PyStr.
Local Open Scope string_scope.

Lemma prefix_spec (a s : string) :
  String.prefix a s = true <-> exists rest, s = a ++ rest.
Proof.
  revert s. induction a as [|c a IH]; intros s.
  - split; [intros _; now exists s | now destruct s].
  - destruct s as [|d s]; simpl.
    + split; [discriminate|]. intros [rest [=]].
    + destruct (ascii_dec c d) as [->|Hcd].
      * rewrite IH. split; intros [rest Hr]; exists rest; congruence.
      * split; [discriminate|]. intros [rest [= -> _]]. contradiction.
Qed.

Lemma endswith_spec (s suffix : string) :
  endswith s suffix = true <-> exists pre, s = pre ++ suffix.
Proof.
  split.
  - induction s as [|c s IH]; cbn [endswith]; rewrite orb_true_iff.
    + intros [H|[=]]. apply String.eqb_eq in H. exists "". auto.
    + intros [H|H].
      * apply String.eqb_eq in H. exists "". auto.
      * destruct (IH H) as [pre ->]. exists (String c pre). reflexivity.
  - intros [pre ->]. induction pre as [|c pre IH].
    + change ("" ++ suffix) with suffix.
      destruct suffix; cbn [endswith]; now rewrite String.eqb_refl.
    + change (String c pre ++ suffix) with (String c (pre ++ suffix)).
      cbn [endswith]. rewrite IH. apply orb_true_r.
Qed.

Lemma contains_spec (sub s : string) :
  contains sub s = true <-> exists a b, s = a ++ sub ++ b.
Proof.
  split.
  - induction s as [|c s IH]; cbn [contains]; rewrite orb_true_iff.
    + intros [H|[=]]. apply prefix_spec in H. destruct H as [b ->].
      exists "", b. reflexivity.
    + intros [H|H].
      * apply prefix_spec in H. destruct H as [b ->].
        exists "", b. reflexivity.
      * destruct (IH H) as (a & b & ->). exists (String c a), b. reflexivity.
  - intros (a & b & ->). induction a as [|c a IH].
    + change ("" ++ sub ++ b) with (sub ++ b).
      assert (H : String.prefix sub (sub ++ b) = true)
        by (apply prefix_spec; eauto).
      destruct (sub ++ b); cbn [contains]; now rewrite H.
    + change (String c a ++ sub ++ b) with (String c (a ++ sub ++ b)).
      cbn [contains]. rewrite IH. apply orb_true_r.
Qed.
End StringFacts.




(** ** The page matcher *)



(** ** Names of the saved segments *)

Section BoxNumber.
Import PyStr.
Local Open Scope string_scope.

Lemma digits_prefix_uint (d : Decimal.uint) (s : string) :
  digits_prefix (NilEmpty.string_of_uint d ++ s)
  = (list_ascii_of_string (NilEmpty.string_of_uint d) ++ digits_prefix s)%list.
Proof. induction d; simpl; congruence. Qed.

Lemma int_of_uint_acc (d : Decimal.uint) (acc : positive) :
  fold_left (fun a c => 10 * a + digit_value c)%Z
    (list_ascii_of_string (NilEmpty.string_of_uint d)) (Zpos acc)
  = Zpos (Pos.of_uint_acc d acc).
Proof.
  revert acc. induction d; intros acc;
    cbn [NilEmpty.string_of_uint list_ascii_of_string fold_left
         Pos.of_uint_acc];
    try reflexivity; rewrite <- IHd; f_equal;
    match goal with |- context [digit_value ?c] =>
      let v := eval vm_compute in (digit_value c) in
      change (digit_value c) with v
    end; lia.
Qed.

Lemma int_of_uint (d : Decimal.uint) :
  int_of_digits (list_ascii_of_string (NilEmpty.string_of_uint d))
  = Z.of_N (Pos.of_uint d).
Proof.
  unfold int_of_digits.
  induction d;
    cbn [NilEmpty.string_of_uint list_ascii_of_string fold_left Pos.of_uint];
    try reflexivity;
    match goal with |- context [digit_value ?c] =>
      let v := eval vm_compute in (digit_value c) in
      change (digit_value c) with v
    end; cbn [Z.mul Z.add Z.of_N]; try exact IHd; apply int_of_uint_acc.
Qed.

(** The recogniser reads back the number a cropper prints. *)
Lemma match_box_at_number (p : positive) (rest : string) :
  digits_prefix rest = [] ->
  match_box_at ("box_" ++ str_of_Z (Zpos p) ++ rest) = Some (Zpos p).
Proof.
  intros Hrest. unfold str_of_Z. cbn [Z.to_int NilZero.string_of_int].
  pose proof (Unsigned.to_uint_nonnil p) as Hnil.
  pose proof (Unsigned.of_to p) as Hval.
  pose proof (int_of_uint (Pos.to_uint p)) as Hint. rewrite Hval in Hint.
  pose proof (digits_prefix_uint (Pos.to_uint p) rest) as Hpre.
  rewrite Hrest, app_nil_r in Hpre.
  assert (Hs : NilZero.string_of_uint (Pos.to_uint p)
               = NilEmpty.string_of_uint (Pos.to_uint p))
    by (destruct (Pos.to_uint p); [contradiction|reflexivity..]).
  rewrite Hs.
  change (match_box_at
            ("box_" ++ NilEmpty.string_of_uint (Pos.to_uint p) ++ rest))
    with (match digits_prefix
                  (NilEmpty.string_of_uint (Pos.to_uint p) ++ rest) with
          | [] => None
          | ds => Some (int_of_digits ds)
          end).
  rewrite Hpre.
  destruct (list_ascii_of_string (NilEmpty.string_of_uint (Pos.to_uint p)))
    as [|c cs] eqn:Hl.
  - destruct (Pos.to_uint p); [contradiction|discriminate..].
  - now rewrite Hint.
Qed.
End BoxNumber.

Lemma extract_image_box_name (idx : Z) :
  0 <= idx ->
  PyStr.extract_box_number (Pipeline.image_box_name idx) = PyStr.KInt (idx + 1).
Proof.
  intros Hidx. unfold Pipeline.image_box_name.
  destruct (idx + 1) as [|p|p] eqn:Hp; try lia.
  change (PyStr.extract_box_number
            ("image_box_" ++ PyStr.str_of_Z (Z.pos p) ++ ".png"))
    with (match PyStr.match_box_at
                  ("box_" ++ PyStr.str_of_Z (Z.pos p) ++ ".png") with
          | Some n => PyStr.KInt n
          | None => PyStr.extract_box_number
                      ("ox_" ++ PyStr.str_of_Z (Z.pos p) ++ ".png")
          end).
  now rewrite match_box_at_number.
Qed.



(** ** Stripping and the report *)

Section StripFacts.
Import PyStr.
Local Open Scope string_scope.
Variable drop : ascii -> bool.

Lemma append_assoc (a b c : string) : (a ++ b) ++ c = a ++ b ++ c.
Proof. induction a as [|x a IH]; simpl; congruence. Qed.

Lemma append_nil_r (a : string) : a ++ "" = a.
Proof. induction a as [|x a IH]; simpl; congruence. Qed.

Lemma lstrip_all (s : string) :
  all_chars drop s = true -> lstrip_with drop s = "".
Proof.
  induction s as [|c s IH]; simpl; [reflexivity|].
  destruct (drop c); simpl; [exact IH|discriminate].
Qed.

Lemma lstrip_all_chars (s : string) :
  all_chars drop (lstrip_with drop s) = all_chars drop s.
Proof.
  induction s as [|c s IH]; simpl; [reflexivity|].
  destruct (drop c) eqn:Hc; simpl; [exact IH|now rewrite Hc].
Qed.

Lemma rstrip_nonempty (s : string) :
  all_chars drop s = false -> is_empty (rstrip_with drop s) = false.
Proof.
  induction s as [|c s IH]; simpl; [discriminate|].
  destruct (rstrip_with drop s) eqn:Hr; [|reflexivity].
  destruct (drop c); simpl; [|reflexivity].
  intros H. specialize (IH H). discriminate.
Qed.

(** What [strip] leaves is empty exactly for a string of dropped
    characters only. *)
Lemma strip_empty (s : string) :
  is_empty (strip_with drop s) = all_chars drop s.
Proof.
  unfold strip_with. destruct (all_chars drop s) eqn:Ha.
  - now rewrite lstrip_all.
  - apply rstrip_nonempty. now rewrite lstrip_all_chars.
Qed.

Lemma lstrip_split (s : string) :
  exists l, s = l ++ lstrip_with drop s /\ all_chars drop l = true.
Proof.
  induction s as [|c s (l & Hl & Hall)]; simpl.
  - exists "". auto.
  - destruct (drop c) eqn:Hc.
    + exists (String c l). split; [simpl; now rewrite <- Hl|].
      simpl. now rewrite Hc.
    + exists "". auto.
Qed.

Lemma rstrip_split (s : string) :
  exists r, s = rstrip_with drop s ++ r /\ all_chars drop r = true.
Proof.
  induction s as [|c s (r & Hr & Hall)]; simpl.
  - exists "". auto.
  - destruct (rstrip_with drop s) as [|d t] eqn:Hs.
    + simpl in Hr. subst r. destruct (drop c) eqn:Hc.
      * exists (String c s). simpl. now rewrite Hc, Hall.
      * exists s. auto.
    + exists r. simpl in *. split; congruence.
Qed.

(** [strip] removes a run of dropped characters at each end, and what is
    left neither starts nor ends with one. *)
Lemma strip_split (s : string) :
  exists l r,
    s = l ++ strip_with drop s ++ r /\
    all_chars drop l = true /\ all_chars drop r = true.
Proof.
  destruct (lstrip_split s) as (l & Hl & Hall).
  destruct (rstrip_split (lstrip_with drop s)) as (r & Hr & Halr).
  exists l, r. unfold strip_with. rewrite <- Hr. auto.
Qed.





End StripFacts.

Section ReportFacts.
Import PyStr.
Local Open Scope string_scope.
Variable listdir : string -> list string.
Variable recognition : string -> list (list string).

Lemma fold_left_appending {A} (step : string -> A -> string)
    (piece : A -> string) :
  (forall acc x, step acc x = acc ++ piece x) ->
  forall l init, fold_left step l init = init ++ Report.join (map piece l).
Proof.
  intros Hstep. induction l as [|x l IH]; intros init; simpl.
  - now rewrite append_nil_r.
  - now rewrite IH, Hstep, append_assoc.
Qed.

(** The lines of every prediction, each closed by a line feed. *)
Lemma segment_text_of_lines (preds : list (list string)) :
  Pipeline.segment_text_of preds
  = Report.join (map (fun line => line ++ LF) (List.concat preds)).
Proof.
  unfold Pipeline.segment_text_of.
  enough (H : forall init,
    fold_left
      (fun segment_text pred =>
         fold_left (fun segment_text line => segment_text ++ line ++ LF)
           pred segment_text) preds init
    = init ++ Report.join (map (fun line => line ++ LF) (List.concat preds)))
    by apply (H "").
  induction preds as [|pred preds IH]; intros init; simpl.
  - now rewrite append_nil_r.
  - rewrite IH, (fold_left_appending _ (fun line => line ++ LF)) by reflexivity.
    rewrite map_app, append_assoc. f_equal.
    clear. induction (map _ pred) as [|x l IH]; simpl; [reflexivity|].
    now rewrite append_assoc, IH.
Qed.

Lemma ocr_file_entry (folder_path full_text fname : string) :
  Pipeline.ocr_file recognition folder_path full_text fname
  = full_text
      ++ Report.entry fname
           (Report.recognized_text recognition folder_path fname).
Proof.
  unfold Pipeline.ocr_file, Report.entry, Report.recognized_text, blank, strip.
  rewrite strip_empty.
  destruct (all_chars is_space _); reflexivity.
Qed.

Lemma ocr_folder_section (full_text folder_path : string) :
  Pipeline.ocr_folder listdir recognition full_text folder_path
  = full_text ++ Report.section_of listdir recognition folder_path.
Proof.
  unfold Pipeline.ocr_folder, Report.section_of.
  rewrite (fold_left_appending _ _ (ocr_file_entry folder_path)).
  unfold Report.header. now rewrite !append_assoc.
Qed.

Lemma ocr_segments_report (segment_folders : list string) :
  Pipeline.ocr_segments listdir recognition segment_folders
  = Report.report listdir recognition segment_folders.
Proof.
  unfold Pipeline.ocr_segments, Report.report.
  now rewrite (fold_left_appending _ _ ocr_folder_section).
Qed.
End ReportFacts.



(** ** The stable sort *)

Section KeyFacts.
Import PyStr.

Lemma key_le_refl (a : sort_key) : key_le a a = true.
Proof. destruct a; unfold key_le; simpl; auto. now rewrite Z.ltb_irrefl. Qed.

Lemma key_le_trans (a b c : sort_key) :
  key_le a b = true -> key_le b c = true -> key_le a c = true.
Proof.
  unfold key_le. destruct a, b, c; simpl; auto; try discriminate.
  rewrite !negb_true_iff, !Z.ltb_ge. lia.
Qed.

Lemma key_le_antisym (a b : sort_key) :
  key_le a b = true -> key_le b a = true -> a = b.
Proof.
  unfold key_le. destruct a, b; simpl; auto; try discriminate.
  rewrite !negb_true_iff, !Z.ltb_ge. intros. f_equal. lia.
Qed.

Lemma key_lt_le (a b : sort_key) : key_lt a b = true -> key_le a b = true.
Proof.
  unfold key_le. destruct a, b; simpl; auto; try discriminate.
  rewrite negb_true_iff, Z.ltb_lt, Z.ltb_ge. lia.
Qed.

Lemma key_lt_neq (a b : sort_key) : key_lt a b = true -> key_eqb a b = false.
Proof.
  destruct a, b; simpl; auto. rewrite Z.ltb_lt, Z.eqb_neq. lia.
Qed.

Lemma key_eqb_eq (a b : sort_key) : key_eqb a b = true <-> a = b.
Proof.
  destruct a, b; simpl; split; try discriminate; auto.
  - rewrite Z.eqb_eq. congruence.
  - intros [= ->]. apply Z.eqb_refl.
Qed.

(** Nothing sorts after the infinity but the infinity. *)
Lemma key_le_inf (b : sort_key) : key_le KInf b = true -> b = KInf.
Proof. destruct b; [discriminate|reflexivity]. Qed.
End KeyFacts.

Section SortFacts.
Import PyStr.
Context {A : Type}.
Variable key : A -> sort_key.

Lemma insert_by_perm (x : A) (l : list A) :
  Permutation (insert_by key x l) (x :: l).
Proof.
  induction l as [|y l IH]; simpl; [reflexivity|].
  destruct (key_lt (key y) (key x)); [|reflexivity].
  rewrite IH. apply perm_swap.
Qed.

Lemma py_sort_perm (l : list A) : Permutation (py_sort key l) l.
Proof.
  induction l as [|x l IH]; simpl; [reflexivity|].
  rewrite insert_by_perm. now constructor.
Qed.

Lemma insert_by_sorted (x : A) (l : list A) :
  StronglySorted (ordered_by key) l ->
  StronglySorted (ordered_by key) (insert_by key x l).
Proof.
  induction 1 as [|y l Hs IH Hy]; simpl.
  - repeat constructor.
  - destruct (key_lt (key y) (key x)) eqn:Hlt.
    + constructor; [exact IH|].
      eapply Permutation_Forall; [symmetry; apply insert_by_perm|].
      constructor; [now apply key_lt_le|exact Hy].
    + assert (Hxy : ordered_by key x y)
        by (unfold ordered_by, key_le; now rewrite Hlt).
      constructor; [now constructor|].
      constructor; [exact Hxy|].
      eapply Forall_impl; [|exact Hy]. intros z Hz.
      unfold ordered_by in *. eauto using key_le_trans.
Qed.

Lemma py_sort_sorted (l : list A) :
  StronglySorted (ordered_by key) (py_sort key l).
Proof.
  induction l as [|x l IH]; simpl; [constructor|now apply insert_by_sorted].
Qed.

(** Stability: the elements of one key keep their input order. *)
Lemma insert_by_stable (k : sort_key) (x : A) (l : list A) :
  filter (fun y => key_eqb (key y) k) (insert_by key x l)
  = filter (fun y => key_eqb (key y) k) (x :: l).
Proof.
  induction l as [|y l IH]; [reflexivity|].
  cbn [insert_by]. destruct (key_lt (key y) (key x)) eqn:Hlt; [|reflexivity].
  cbn [filter] in *. rewrite IH.
  destruct (key_eqb (key x) k) eqn:Hx; [|reflexivity].
  apply key_eqb_eq in Hx. subst k.
  now rewrite (key_lt_neq _ _ Hlt).
Qed.

Lemma py_sort_stable (k : sort_key) (l : list A) :
  filter (fun y => key_eqb (key y) k) (py_sort key l)
  = filter (fun y => key_eqb (key y) k) l.
Proof.
  induction l as [|x l IH]; [reflexivity|].
  cbn [py_sort fold_right]. fold (py_sort key l).
  rewrite insert_by_stable. cbn [filter]. now rewrite IH.
Qed.

(** Two ordered lists with the same elements, no two of one key, are the
    same list. *)
Lemma sorted_perm_unique (l1 l2 : list A) :
  StronglySorted (ordered_by key) l1 -> StronglySorted (ordered_by key) l2 ->
  Permutation l1 l2 -> NoDup (map key l1) -> l1 = l2.
Proof.
  revert l2. induction l1 as [|a l1 IH]; intros l2 Hs1 Hs2 Hp Hnd.
  - apply Permutation_nil in Hp. now subst.
  - destruct l2 as [|b l2].
    { apply Permutation_sym, Permutation_nil in Hp. discriminate. }
    apply StronglySorted_inv in Hs1, Hs2.
    destruct Hs1 as [Hs1 Ha], Hs2 as [Hs2 Hb].
    inversion Hnd as [|? ? Hnotin Hnd']; subst.
    assert (Hab : a = b).
    { assert (Hin_a : In a (b :: l2))
        by (eapply Permutation_in; [exact Hp|now left]).
      assert (Hin_b : In b (a :: l1))
        by (eapply Permutation_in; [symmetry; exact Hp|now left]).
      destruct Hin_a as [->|Hin_a]; [reflexivity|].
      destruct Hin_b as [->|Hin_b]; [reflexivity|].
      rewrite Forall_forall in Ha, Hb.
      exfalso. apply Hnotin.
      rewrite (key_le_antisym _ _ (Ha b Hin_b) (Hb a Hin_a)).
      now apply in_map. }
    subst b. f_equal. apply IH; auto.
    eapply Permutation_cons_inv; exact Hp.
Qed.

Lemma py_sort_shuffle (l1 l2 : list A) :
  Permutation l1 l2 -> NoDup (map key l1) -> py_sort key l1 = py_sort key l2.
Proof.
  intros Hp Hnd. apply sorted_perm_unique; auto using py_sort_sorted.
  - now rewrite !py_sort_perm.
  - eapply Permutation_NoDup; [|exact Hnd].
    apply Permutation_map. symmetry. apply py_sort_perm.
Qed.
End SortFacts.

Lemma filter_perm {A} (f : A -> bool) (l1 l2 : list A) :
  Permutation l1 l2 -> Permutation (filter f l1) (filter f l2).
Proof.
  induction 1 as [|x l1 l2 _ IH|x y l|l1 l2 l3 _ IH1 _ IH2]; simpl.
  - constructor.
  - destruct (f x); [now constructor|exact IH].
  - destruct (f x), (f y); try reflexivity. apply perm_swap.
  - now transitivity (filter f l2).
Qed.

Lemma sorted_after {A} (R : A -> A -> Prop) (pre : list A) (a : A)
    (post : list A) :
  StronglySorted R (pre ++ a :: post) -> Forall (R a) post.
Proof.
  induction pre as [|x pre IH]; simpl; intros H;
    apply StronglySorted_inv in H; destruct H as [H1 H2]; auto.
Qed.

(** ** The order of recognition *)

(** The claim of C3 fails on two listings of one set of files when two
    names carry the same number: the sort keeps them in listing order.
    Document mode writes such names for every document of two pages. *)
Lemma shuffled_listing_changes_order :
  let l1 := ["doc_page_1_box_1.png"; "doc_page_2_box_1.png"]%string in
  let l2 := ["doc_page_2_box_1.png"; "doc_page_1_box_1.png"]%string in
  Permutation l1 l2 /\
  Pipeline.sorted_files (fun _ => l1) "crops" = l1 /\
  Pipeline.sorted_files (fun _ => l2) "crops" = l2 /\
  Pipeline.sorted_files (fun _ => l1) "crops"
    <> Pipeline.sorted_files (fun _ => l2) "crops".
Proof.
  intros l1 l2. split; [apply perm_swap|].
  split; [reflexivity|]. split; [reflexivity|]. discriminate.
Qed.

(** C3, amended. The files of a folder that end with [.png] are recognised
    in non-decreasing order of their box number, those without a number
    last, and files of equal number in listing order; the report of the
    folder holds their entries in that order.  Two listings of the same
    files in which no two [.png] names carry the same number give the same
    order, and so the same report. *)
Theorem recognition_order_by_box_number :
  (forall listdir folder_path,
      let files := filter is_png (listdir folder_path) in
      let out := Pipeline.sorted_files listdir folder_path in
      Permutation out files /\
      StronglySorted key_order out /\
      (forall pre f post,
          out = pre ++ f :: post ->
          PyStr.extract_box_number f = PyStr.KInf ->
          Forall (fun g => PyStr.extract_box_number g = PyStr.KInf) post) /\
      (forall k, filter (has_key k) out = filter (has_key k) files) /\
      (forall recognition full_text,
          Pipeline.ocr_folder listdir recognition full_text folder_path
          = (full_text ++ Report.header folder_path
               ++ Report.join
                    (map (fun fname =>
                            Pipeline.ocr_file recognition folder_path
                              EmptyString fname) out))%string))
  /\
  (forall listdir listdir' folder_path,
      Permutation (listdir folder_path) (listdir' folder_path) ->
      NoDup (map PyStr.extract_box_number
               (filter is_png (listdir folder_path))) ->
      Pipeline.sorted_files listdir folder_path
      = Pipeline.sorted_files listdir' folder_path)
  /\
  (forall listdir listdir' recognition segment_folders,
      (forall folder_path, In folder_path segment_folders ->
         Permutation (listdir folder_path) (listdir' folder_path) /\
         NoDup (map PyStr.extract_box_number
                  (filter is_png (listdir folder_path)))) ->
      Pipeline.ocr_segments listdir recognition segment_folders
      = Pipeline.ocr_segments listdir' recognition segment_folders).
Proof.
  assert (Hshuffle : forall listdir listdir' folder_path,
    Permutation (listdir folder_path) (listdir' folder_path) ->
    NoDup (map PyStr.extract_box_number
             (filter is_png (listdir folder_path))) ->
    Pipeline.sorted_files listdir folder_path
    = Pipeline.sorted_files listdir' folder_path).
  { intros listdir listdir' folder_path Hp Hnd. unfold Pipeline.sorted_files.
    apply py_sort_shuffle; [|exact Hnd]. now apply filter_perm. }
  split; [|split].
  - intros listdir folder_path files out.
    assert (Hsorted : StronglySorted key_order out) by apply py_sort_sorted.
    split; [apply py_sort_perm|]. split; [exact Hsorted|].
    split; [|split].
    + intros pre f post Hout Hf. rewrite Hout in Hsorted.
      apply sorted_after in Hsorted.
      eapply Forall_impl; [|exact Hsorted]. intros g Hg.
      unfold key_order, ordered_by in Hg. rewrite Hf in Hg.
      now apply key_le_inf.
    + intros k. apply py_sort_stable.
    + intros recognition full_text. rewrite ocr_folder_section.
      unfold Report.section_of. do 3 f_equal.
      apply map_ext. intros fname. now rewrite ocr_file_entry.
  - exact Hshuffle.
  - intros listdir listdir' recognition segment_folders H.
    rewrite !ocr_segments_report. unfold Report.report. f_equal.
    apply map_ext_in. intros folder_path Hin. destruct (H _ Hin) as [Hp Hnd].
    unfold Report.section_of. now rewrite (Hshuffle listdir listdir').
Qed.

Lemma recognition_order_by_box_number_witness :
  let l1 := ["image_box_10.png"; "image_box_2.png"; "readme.png";
             "image_box_1.png"; "notes.txt"]%string in
  let l2 := ["notes.txt"; "image_box_1.png"; "readme.png";
             "image_box_2.png"; "image_box_10.png"]%string in
  Pipeline.sorted_files (fun _ => l1) "crops"
  = ["image_box_1.png"; "image_box_2.png"; "image_box_10.png";
     "readme.png"]%string /\
  Pipeline.sorted_files (fun _ => l1) "crops"
  = Pipeline.sorted_files (fun _ => l2) "crops" /\
  Forall (fun g => PyStr.extract_box_number g = PyStr.KInf) [] /\
  Pipeline.ocr_segments (fun _ => l1) (fun _ => [["text"%string]])
    ["crops"%string]
  = Pipeline.ocr_segments (fun _ => l2) (fun _ => [["text"%string]])
      ["crops"%string].
Proof.
  intros l1 l2.
  assert (Hp : Permutation l1 l2) by apply (Permutation_rev l1).
  assert (Hnd : NoDup (map PyStr.extract_box_number (filter is_png l1)))
    by (vm_compute; repeat constructor; simpl; intuition discriminate).
  split; [reflexivity|]. split; [|split].
  - exact (proj1 (proj2 recognition_order_by_box_number)
             (fun _ => l1) (fun _ => l2) "crops"%string Hp Hnd).
  - apply (proj1 (proj2 (proj2 (proj1 recognition_order_by_box_number
             (fun _ => l1) "crops"%string)))
             ["image_box_1.png"; "image_box_2.png"; "image_box_10.png"]%string
             "readme.png"%string []); reflexivity.
  - apply (proj2 (proj2 recognition_order_by_box_number)
             (fun _ => l1) (fun _ => l2)).
    intros folder_path _. split; [exact Hp|exact Hnd].
Defined.

(** ** Binary64 arithmetic: rounding that stays exact or finite *)

Lemma digits2_bounds (m : positive) :
  2 ^ (Zpos (digits2_pos m) - 1) <= Zpos m < 2 ^ Zpos (digits2_pos m).
Proof.
  induction m as [m IH|m IH|]; cbn [digits2_pos].
  - rewrite Pos2Z.inj_succ.
    replace (Z.succ (Z.pos (digits2_pos m)) - 1)
      with (Z.succ (Z.pos (digits2_pos m) - 1)) by lia.
    rewrite !Z.pow_succ_r by lia. lia.
  - rewrite Pos2Z.inj_succ.
    replace (Z.succ (Z.pos (digits2_pos m)) - 1)
      with (Z.succ (Z.pos (digits2_pos m) - 1)) by lia.
    rewrite !Z.pow_succ_r by lia. lia.
  - simpl. lia.
Qed.

Lemma digits2_le (m : positive) (k : Z) :
  Zpos m < 2 ^ k -> Zpos (digits2_pos m) <= k.
Proof.
  intros H. pose proof (digits2_bounds m) as [Hlo _].
  destruct (Z.le_gt_cases (Zpos (digits2_pos m)) k) as [|Hgt]; [assumption|].
  assert (2 ^ k <= 2 ^ (Zpos (digits2_pos m) - 1)).
  { destruct (Z.le_gt_cases 0 k).
    - apply Z.pow_le_mono_r; lia.
    - rewrite (Z.pow_neg_r 2 k) by lia. apply Z.pow_nonneg. lia. }
  lia.
Qed.

Lemma shr_1_div2 (mrs : shr_record) :
  0 <= shr_m mrs -> shr_m (shr_1 mrs) = shr_m mrs / 2.
Proof.
  destruct mrs as [[|[p|p|]|p] r s]; simpl; intros H; try reflexivity; try lia.
  - rewrite Pos2Z.inj_xI. apply Z.div_unique with (r := 1); lia.
  - rewrite Pos2Z.inj_xO. apply Z.div_unique with (r := 0); lia.
Qed.

Lemma shr_m_iter (p : positive) (mrs : shr_record) :
  0 <= shr_m mrs ->
  shr_m (iter_pos shr_1 p mrs) = shr_m mrs / 2 ^ Zpos p.
Proof.
  revert mrs. induction p as [p IH|p IH|]; intros mrs H; cbn [iter_pos].
  - assert (H1 : 0 <= shr_m (shr_1 mrs))
      by (rewrite shr_1_div2 by assumption; apply Z.div_pos; lia).
    assert (H2 : 0 <= shr_m (iter_pos shr_1 p (shr_1 mrs)))
      by (rewrite IH by assumption; apply Z.div_pos;
          [lia|apply Z.pow_pos_nonneg; lia]).
    rewrite IH, IH, shr_1_div2 by assumption.
    rewrite !Z.div_div by (try apply Z.pow_pos_nonneg; lia).
    f_equal. rewrite Pos2Z.inj_xI.
    replace (2 * Z.pos p + 1) with (1 + Z.pos p + Z.pos p) by lia.
    rewrite !Z.pow_add_r by lia. change (2 ^ 1) with 2. ring.
  - assert (H2 : 0 <= shr_m (iter_pos shr_1 p mrs))
      by (rewrite IH by assumption; apply Z.div_pos;
          [lia|apply Z.pow_pos_nonneg; lia]).
    rewrite IH, IH by assumption.
    rewrite !Z.div_div by (try apply Z.pow_pos_nonneg; lia).
    f_equal. rewrite <- Z.pow_add_r by lia. f_equal. lia.
  - rewrite shr_1_div2 by assumption. reflexivity.
Qed.

Lemma round_nearest_even_bounds (m : Z) (l : location) :
  m <= round_nearest_even m l <= m + 1.
Proof.
  destruct l as [|[]]; simpl; try lia. destruct (Z.even m); lia.
Qed.

Lemma iter_xO_value (m d : positive) :
  Zpos (Pos.iter xO m d) = Zpos m * 2 ^ Zpos d.
Proof.
  induction d as [|d IH] using Pos.peano_ind.
  - simpl. lia.
  - rewrite Pos.iter_succ, Pos2Z.inj_xO, IH, Pos2Z.inj_succ, Z.pow_succ_r
      by lia.
    ring.
Qed.

Lemma iter_xO_digits (m d : positive) :
  Zpos (digits2_pos (Pos.iter xO m d)) = Zpos (digits2_pos m) + Zpos d.
Proof.
  induction d as [|d IH] using Pos.peano_ind.
  - simpl. lia.
  - rewrite Pos.iter_succ. cbn [digits2_pos]. rewrite Pos2Z.inj_succ, IH. lia.
Qed.

Lemma fexp64 (d : Z) : fexp 53 1024 d = Z.max (d - 53) (-1074).
Proof. reflexivity. Qed.

Lemma binary_round_aux_finite (s : bool) (mz : positive) (ez : Z) :
  let fe := Z.max (Zpos (digits2_pos mz) + ez - 53) (-1074) in
  ez <= fe -> fe <= 971 ->
  (fe = 971 -> Zpos mz / 2 ^ (fe - ez) < 2 ^ 53 - 1) ->
  finite_float (binary_round_aux 53 1024 s (Zpos mz) ez loc_Exact).
Proof.
  intros fe Hez Hfe Hcorner.
  unfold binary_round_aux, shr_fexp. cbn [Zdigits2 shr_record_of_loc].
  rewrite fexp64. fold fe.
  set (mrs0 := {| shr_m := Zpos mz; shr_r := false; shr_s := false |}).
  assert (H1 : exists mrs1,
    shr mrs0 ez (fe - ez) = (mrs1, fe) /\
    shr_m mrs1 = Zpos mz / 2 ^ (fe - ez)).
  { unfold shr. destruct (fe - ez) as [|p|p] eqn:Hsh.
    - exists mrs0. split; [f_equal; lia|]. simpl. now rewrite Z.div_1_r.
    - exists (iter_pos shr_1 p mrs0). split; [f_equal; lia|].
      rewrite shr_m_iter; [reflexivity|simpl; lia].
    - lia. }
  destruct H1 as (mrs1 & -> & Hm1).
  pose proof (digits2_bounds mz) as [_ Hmz].
  assert (Hpow : 0 < 2 ^ (fe - ez)) by (apply Z.pow_pos_nonneg; lia).
  assert (Hm1b : 0 <= shr_m mrs1 < 2 ^ 53).
  { rewrite Hm1. split; [apply Z.div_pos; lia|].
    apply Z.div_lt_upper_bound; [assumption|].
    rewrite <- Z.pow_add_r by lia.
    eapply Z.lt_le_trans; [exact Hmz|]. apply Z.pow_le_mono_r; lia. }
  pose proof (round_nearest_even_bounds (shr_m mrs1) (loc_of_shr_record mrs1))
    as Hm2.
  destruct (round_nearest_even (shr_m mrs1) (loc_of_shr_record mrs1))
    as [|q|q] eqn:Hq; [| |lia].
  - cbn [Zdigits2]. rewrite fexp64. unfold shr.
    destruct (Z.max (0 + fe - 53) (-1074) - fe) eqn:Hsh; try lia; exact I.
  - cbn [Zdigits2]. rewrite fexp64.
    assert (Hdq : Zpos (digits2_pos q) <= 54).
    { apply digits2_le. change (2 ^ 54) with (2 * 2 ^ 53). lia. }
    unfold shr.
    destruct (Z.max (Zpos (digits2_pos q) + fe - 53) (-1074) - fe)
      as [|p2|p2] eqn:Hsh.
    + cbn [shr_m]. replace (fe <=? 1024 - 53) with true
        by (symmetry; apply Z.leb_le; lia). exact I.
    + assert (Hq53 : 2 ^ 53 <= Zpos q).
      { pose proof (digits2_bounds q) as [Hlo _].
        assert (Zpos (digits2_pos q) = 54) by lia.
        replace (Zpos (digits2_pos q) - 1) with 53 in Hlo by lia. exact Hlo. }
      assert (Hfe970 : fe <= 970).
      { destruct (Z.eq_dec fe 971) as [E|]; [|lia].
        specialize (Hcorner E). rewrite <- Hm1 in Hcorner. lia. }
      set (rec := {| shr_m := Zpos q; shr_r := false; shr_s := false |}).
      assert (Hpos : 0 <= shr_m (iter_pos shr_1 p2 rec)).
      { rewrite shr_m_iter by (simpl; lia).
        apply Z.div_pos; [simpl; lia|apply Z.pow_pos_nonneg; lia]. }
      destruct (shr_m (iter_pos shr_1 p2 rec)); [exact I| |lia].
      replace (fe + Zpos p2 <=? 1024 - 53) with true
        by (symmetry; apply Z.leb_le; lia). exact I.
    + cbn [shr_m]. replace (fe <=? 1024 - 53) with true
        by (symmetry; apply Z.leb_le; lia). exact I.
Qed.

Lemma binary_round_finite (s : bool) (m : positive) (e : Z) :
  e <= 971 -> Zpos m < (2 ^ 53 - 1) * 2 ^ (971 - e) ->
  finite_float (binary_round 53 1024 s m e).
Proof.
  intros He Hm. unfold binary_round. rewrite fexp64.
  assert (Hp : 0 < 2 ^ (971 - e)) by (apply Z.pow_pos_nonneg; lia).
  assert (Hd : Zpos (digits2_pos m) + e <= 1024).
  { assert (Zpos (digits2_pos m) <= 1024 - e); [|lia].
    apply digits2_le. replace (1024 - e) with (53 + (971 - e)) by lia.
    rewrite Z.pow_add_r by lia. nia. }
  set (fe := Z.max (Zpos (digits2_pos m) + e - 53) (-1074)).
  unfold shl_align. destruct (fe - e) as [|d|d] eqn:Hsh.
  - apply binary_round_aux_finite; fold fe; try lia.
    intros E. apply Z.div_lt_upper_bound; [apply Z.pow_pos_nonneg; lia|].
    rewrite E. lia.
  - apply binary_round_aux_finite; fold fe; try lia.
    intros E. apply Z.div_lt_upper_bound; [apply Z.pow_pos_nonneg; lia|].
    rewrite E. lia.
  - apply binary_round_aux_finite; rewrite iter_xO_digits;
      replace (Zpos (digits2_pos m) + Zpos d + fe - 53)
        with (Zpos (digits2_pos m) + e - 53) by lia; fold fe; lia.
Qed.

Lemma shl_align_fst (m : positive) (e ez : Z) :
  ez <= e -> Zpos (fst (shl_align m e ez)) = Zpos m * 2 ^ (e - ez).
Proof.
  intros H. unfold shl_align. destruct (ez - e) as [|d|d] eqn:Hd; cbn [fst].
  - replace (e - ez) with 0 by lia. lia.
  - lia.
  - rewrite iter_xO_value. f_equal. f_equal. lia.
Qed.

Lemma bounded_mantissa (m : positive) (e : Z) :
  bounded 53 1024 m e = true -> Zpos m < 2 ^ 53 /\ e <= 971.
Proof.
  unfold bounded, canonical_mantissa. rewrite fexp64, andb_true_iff.
  intros [Hc He]. apply Z.eqb_eq in Hc. apply Z.leb_le in He.
  split; [|exact He].
  pose proof (digits2_bounds m) as [_ Hm].
  eapply Z.lt_le_trans; [exact Hm|]. apply Z.pow_le_mono_r; lia.
Qed.

Lemma aligned_bound (m : positive) (e ez : Z) :
  bounded 53 1024 m e = true -> ez <= e ->
  Zpos m * 2 ^ (e - ez) <= (2 ^ 53 - 1) * 2 ^ (971 - ez).
Proof.
  intros Hb Hez. apply bounded_mantissa in Hb. destruct Hb as [Hm He].
  replace (971 - ez) with ((971 - e) + (e - ez)) by lia.
  rewrite Z.pow_add_r by lia.
  assert (0 < 2 ^ (e - ez)) by (apply Z.pow_pos_nonneg; lia).
  assert (0 < 2 ^ (971 - e)) by (apply Z.pow_pos_nonneg; lia).
  nia.
Qed.

Lemma sub_finite (mx my : positive) (ex ey : Z) :
  bounded 53 1024 mx ex = true -> bounded 53 1024 my ey = true ->
  finite_float
    (SFsub 53 1024 (S754_finite false mx ex) (S754_finite false my ey)).
Proof.
  intros Hx Hy. cbn [SFsub cond_Zopp].
  set (ez := Z.min ex ey).
  rewrite !shl_align_fst by lia.
  pose proof (aligned_bound mx ex ez Hx ltac:(lia)) as Bx.
  pose proof (aligned_bound my ey ez Hy ltac:(lia)) as By.
  assert (Hez : ez <= 971) by (apply bounded_mantissa in Hx; lia).
  assert (0 < 2 ^ (ex - ez)) by (apply Z.pow_pos_nonneg; lia).
  assert (0 < 2 ^ (ey - ez)) by (apply Z.pow_pos_nonneg; lia).
  destruct (Zpos mx * 2 ^ (ex - ez) - Zpos my * 2 ^ (ey - ez)) as [|m|m] eqn:Hm;
    cbn [binary_normalize].
  - exact I.
  - apply binary_round_finite; [exact Hez|]. nia.
  - apply binary_round_finite; [exact Hez|]. nia.
Qed.

Lemma mul_one (x : Float64.float) :
  Float64.valid x -> Float64.mul x Float64.one = x.
Proof.
  unfold Float64.valid, Float64.mul, Float64.one, Float64.prec, Float64.emax.
  destruct x as [s|s| |s m e]; intros Hv.
  - simpl. now rewrite xorb_false_r.
  - simpl. now rewrite xorb_false_r.
  - reflexivity.
  - cbn [valid_binary] in Hv. unfold bounded, canonical_mantissa in Hv.
    apply andb_true_iff in Hv. destruct Hv as [Hc He].
    apply Z.eqb_eq in Hc.
    cbn [SFmul].
    rewrite xorb_false_r, (Pos.mul_comm m).
    cbn [Pos.mul].
    unfold binary_round_aux, shr_fexp.
    cbn [Zdigits2 digits2_pos].
    rewrite !Pos2Z.inj_succ.
    match goal with |- context [fexp 53 1024 (?a + (e + -52))] =>
      replace (a + (e + -52)) with (Z.pos (digits2_pos m) + e) by lia end.
    rewrite Hc.
    replace (e - (e + -52)) with 52 by lia.
    cbn [shr shr_record_of_loc iter_pos shr_1 orb shr_m loc_of_shr_record
         round_nearest_even Zdigits2].
    replace (e + -52 + 52) with e by lia.
    rewrite Hc, Z.sub_diag. cbn [shr shr_m]. now rewrite He.
Qed.

(** ** Unit scale and zero margin *)

Lemma in_page_shape (x : Float64.float) (w : Z) :
  py_le (PyInt 0) (PyFloat x) = true -> py_le (PyFloat x) (PyInt w) = true ->
  match x with
  | S754_zero _ | S754_finite false _ _ => True
  | _ => False
  end.
Proof.
  unfold py_le, py_compare.
  destruct x as [s|[]| |[] m e]; simpl; auto; try discriminate.
  assert (H : fin_compare 0 0 (Z.neg m) e = Gt).
  { unfold fin_compare, align. apply Z.compare_gt_iff.
    set (k := Z.max 0 (Z.max (- 0) (- e))).
    pose proof (pow2_pos (e + k)). nia. }
  rewrite H. discriminate.
Qed.

Lemma width_in_page_finite (x1 x2 : Float64.float) (w : Z) :
  Float64.valid x1 -> Float64.valid x2 ->
  py_le (PyInt 0) (PyFloat x1) = true -> py_le (PyFloat x1) (PyInt w) = true ->
  py_le (PyInt 0) (PyFloat x2) = true -> py_le (PyFloat x2) (PyInt w) = true ->
  finite_float (x2 - x1)%f64.
Proof.
  intros V1 V2 L1 H1 L2 H2.
  pose proof (in_page_shape x1 w L1 H1) as S1.
  pose proof (in_page_shape x2 w L2 H2) as S2.
  destruct x1 as [s1| | |[] m1 e1]; try contradiction;
    destruct x2 as [s2| | |[] m2 e2]; try contradiction.
  - destruct s1, s2; exact I.
  - exact I.
  - exact I.
  - now apply sub_finite.
Qed.

Lemma zero_margin (s : bool) (extent : Float64.float) :
  finite_float extent -> exists s', (S754_zero s * extent)%f64 = S754_zero s'.
Proof. destruct extent; try contradiction; simpl; eauto. Qed.

Lemma sub_zero_value (x : Float64.float) (s : bool) :
  finite_float x -> float_value (x - S754_zero s)%f64 = float_value x.
Proof. destruct x as [[]| | |]; try contradiction; destruct s; reflexivity. Qed.

Lemma add_zero_value (x : Float64.float) (s : bool) :
  finite_float x -> float_value (x + S754_zero s)%f64 = float_value x.
Proof. destruct x as [[]| | |]; try contradiction; destruct s; reflexivity. Qed.

Lemma in_page_finite (x : Float64.float) (w : Z) :
  py_le (PyInt 0) (PyFloat x) = true -> py_le (PyFloat x) (PyInt w) = true ->
  finite_float x.
Proof.
  intros L H. pose proof (in_page_shape x w L H) as S.
  destruct x as [|[]| |[]]; simpl in *; auto.
Qed.

Lemma py_le_value (a a' b : pynum) :
  num_value a = num_value a' ->
  py_le a b = py_le a' b /\ py_le b a = py_le b a'.
Proof. unfold py_le, py_compare. now intros ->. Qed.

Lemma low_clamp_value (a a' : pynum) :
  num_value a = num_value a' ->
  py_int (py_max (PyInt 0) a) = py_int (py_max (PyInt 0) a').
Proof.
  intros H. unfold py_max, py_gt, py_compare. rewrite H.
  destruct (xcompare _ _) as [[]|]; try reflexivity.
  unfold py_int. now rewrite H.
Qed.

Lemma high_clamp_value (w : Z) (a a' : pynum) :
  num_value a = num_value a' ->
  py_int (py_min (PyInt w) a) = py_int (py_min (PyInt w) a').
Proof.
  intros H. unfold py_min, py_lt, py_compare. rewrite H.
  destruct (xcompare _ _) as [[]|]; try reflexivity.
  unfold py_int. now rewrite H.
Qed.

(** Inside the page a clamp changes nothing that [int] can see. *)
Lemma low_clamp_id (a : pynum) :
  py_le (PyInt 0) a = true -> py_int (py_max (PyInt 0) a) = py_int a.
Proof.
  unfold py_le, py_max, py_gt. rewrite (py_compare_antisym a (PyInt 0)).
  unfold py_compare, py_int.
  destruct (num_value a) as [|[]|n e] eqn:Hv; simpl; try discriminate.
  - intros _. now rewrite Hv.
  - destruct (fin_compare n e 0 0) eqn:Hc; simpl; try discriminate.
    + intros _. now rewrite (trunc_eq _ _ _ _ Hc).
    + intros _. now rewrite Hv.
Qed.

Lemma high_clamp_id (w : Z) (a : pynum) :
  py_le a (PyInt w) = true -> py_int (py_min (PyInt w) a) = py_int a.
Proof.
  unfold py_le, py_min, py_lt. unfold py_compare, py_int.
  destruct (num_value a) as [|[]|n e] eqn:Hv; simpl; try discriminate.
  - intros _. now rewrite Hv.
  - destruct (fin_compare n e w 0) eqn:Hc; simpl; try discriminate.
    + intros _. now rewrite (trunc_eq _ _ _ _ Hc).
    + intros _. now rewrite Hv.
Qed.

(** The claim of C5 fails for a box that leaves the page: on a 200x100
    page, with scale 1 and margin ratio 0, the box (10,10,250,60) is cut to
    (10,10,200,60), not to its truncation (10,10,250,60). *)
Lemma box_beyond_page_is_clamped :
  let b := box_of_Z 10 10 250 60 in
  let zero := S754_zero false in
  Pipeline.scale_box Float64.one Float64.one b = b /\
  truncated_box b = Ok (10, 10, 250, 60) /\
  Pipeline.truncate (Pipeline.expand_clamp 200 100 zero zero b)
    = Ok (10, 10, 200, 60) /\
  Pipeline.truncate
    (Pipeline.expand_clamp 200 100 zero zero
       (Pipeline.scale_box Float64.one Float64.one b))
    <> truncated_box b /\
  Pipeline.crop_segments_from_image {| width := 200; height := 100 |} [b] zero
    = ([Saved "image_box_1.png" {| width := 200; height := 100 |}
          (10, 10, 200, 60)], Ok tt).
Proof. repeat split; try reflexivity. discriminate. Qed.

(** C5, amended. For a box whose four corners lie within the page, with
    both scales 1 and both margin ratios 0 (of either sign), scaling leaves
    the box as it is, and the computed crop box is the box with each
    coordinate truncated to an integer, in direct and in document mode. *)
Theorem unit_scale_zero_margin_truncates :
  forall w h sx sy b,
    valid_box b -> within_page w h b ->
    Pipeline.scale_box Float64.one Float64.one b = b /\
    Pipeline.truncate
      (Pipeline.expand_clamp w h (S754_zero sx) (S754_zero sy) b)
    = truncated_box b /\
    Pipeline.truncate
      (Pipeline.expand_clamp w h (S754_zero sx) (S754_zero sy)
         (Pipeline.scale_box Float64.one Float64.one b))
    = truncated_box b /\
    exists r, truncated_box b = Ok r.
Proof.
  intros w h sx sy [[[x1 y1] x2] y2] (V1 & V2 & V3 & V4)
    (Lx1 & Hx1 & Ly1 & Hy1 & Lx2 & Hx2 & Ly2 & Hy2).
  assert (Hscale : Pipeline.scale_box Float64.one Float64.one (x1, y1, x2, y2)
                   = (x1, y1, x2, y2)).
  { unfold Pipeline.scale_box. now rewrite !mul_one. }
  assert (Hcrop : Pipeline.truncate
            (Pipeline.expand_clamp w h (S754_zero sx) (S754_zero sy)
               (x1, y1, x2, y2)) = truncated_box (x1, y1, x2, y2)).
  { unfold Pipeline.expand_clamp, Pipeline.truncate, truncated_box.
    destruct (zero_margin sx (x2 - x1)%f64) as [sx' ->];
      [eapply width_in_page_finite; eauto|].
    destruct (zero_margin sy (y2 - y1)%f64) as [sy' ->];
      [eapply width_in_page_finite; eauto|].
    pose proof (in_page_finite x1 w Lx1 Hx1) as F1.
    pose proof (in_page_finite y1 h Ly1 Hy1) as F2.
    pose proof (in_page_finite x2 w Lx2 Hx2) as F3.
    pose proof (in_page_finite y2 h Ly2 Hy2) as F4.
    rewrite (low_clamp_value (PyFloat (x1 - S754_zero sx')%f64) (PyFloat x1))
      by (now apply sub_zero_value).
    rewrite (low_clamp_value (PyFloat (y1 - S754_zero sy')%f64) (PyFloat y1))
      by (now apply sub_zero_value).
    rewrite (high_clamp_value w (PyFloat (x2 + S754_zero sx')%f64) (PyFloat x2))
      by (now apply add_zero_value).
    rewrite (high_clamp_value h (PyFloat (y2 + S754_zero sy')%f64) (PyFloat y2))
      by (now apply add_zero_value).
    now rewrite !low_clamp_id, !high_clamp_id. }
  split; [exact Hscale|]. split; [exact Hcrop|].
  split; [now rewrite Hscale|].
  unfold truncated_box, py_int. simpl.
  pose proof (in_page_finite x1 w Lx1 Hx1) as F1.
  pose proof (in_page_finite y1 h Ly1 Hy1) as F2.
  pose proof (in_page_finite x2 w Lx2 Hx2) as F3.
  pose proof (in_page_finite y2 h Ly2 Hy2) as F4.
  destruct x1, y1, x2, y2; try contradiction; simpl; eauto.
Qed.

Lemma unit_scale_zero_margin_truncates_witness :
  let b := (Float64.div (Float64.of_Z 41) (Float64.of_Z 4), Float64.of_Z 0,
            Float64.of_Z 200,
            Float64.div (Float64.of_Z 399) (Float64.of_Z 4)) in
  valid_box b /\ within_page 200 100 b /\
  truncated_box b = Ok (10, 0, 200, 99) /\
  Pipeline.truncate
    (Pipeline.expand_clamp 200 100 (S754_zero false) (S754_zero false)
       (Pipeline.scale_box Float64.one Float64.one b))
  = truncated_box b.
Proof.
  intros b.
  assert (V : valid_box b) by (repeat split).
  assert (P : within_page 200 100 b) by (repeat split).
  split; [exact V|]. split; [exact P|]. split; [reflexivity|].
  exact (proj1 (proj2 (proj2 (unit_scale_zero_margin_truncates
                                200 100 false false b V P)))).
Defined.

(** * Beyond the claims: loops, the pipeline of one image, the text check *)

(** ** A loop stops at its first exception *)

Lemma for_each_app {A} (l1 l2 : list A) (body : A -> run unit) :
  for_each (l1 ++ l2) body
  = bind (for_each l1 body) (fun _ => for_each l2 body).
Proof.
  induction l1 as [|a l1 IH]; simpl.
  - symmetry. apply (bind_ret_l tt (fun _ => for_each l2 body)).
  - rewrite IH. unfold bind.
    destruct (body a) as [t [[]|e]]; [|reflexivity].
    destruct (for_each l1 body) as [t1 [[]|e1]]; [|reflexivity].
    destruct (for_each l2 body) as [t2 r2]. now rewrite app_assoc.
Qed.

Lemma for_each_all_ok {A} (l : list A) (body : A -> run unit) :
  (forall a, In a l -> snd (body a) = Ok tt) ->
  for_each l body = (flat_map (fun a => fst (body a)) l, Ok tt).
Proof.
  induction l as [|a l IH]; intros H; simpl; [reflexivity|].
  rewrite IH by (intros x Hx; apply H; now right).
  specialize (H a (or_introl eq_refl)).
  unfold bind. destruct (body a) as [t r]. simpl in *. now subst r.
Qed.

Lemma for_each_ok_inv {A} (l : list A) (body : A -> run unit) :
  snd (for_each l body) = Ok tt -> forall a, In a l -> snd (body a) = Ok tt.
Proof.
  induction l as [|x l IH]; simpl; [contradiction|].
  unfold bind. destruct (body x) as [t [[]|e]] eqn:Hx; simpl; [|discriminate].
  destruct (for_each l body) as [t' r] eqn:Hl. simpl in *.
  intros Hr a [<-|Ha]; [now rewrite Hx|auto].
Qed.

Lemma for_each_first_raise {A} (before : list A) (a : A) (after : list A)
    (body : A -> run unit) (e : exn) :
  (forall x, In x before -> snd (body x) = Ok tt) ->
  snd (body a) = Raise e ->
  for_each (before ++ a :: after) body
  = ((flat_map (fun x => fst (body x)) before ++ fst (body a))%list, Raise e).
Proof.
  intros Hb Ha. rewrite for_each_app, (for_each_all_ok before) by exact Hb.
  simpl. unfold bind. destruct (body a) as [t r]. simpl in *. now subst r.
Qed.

Lemma for_each_raise_inv {A} (l : list A) (body : A -> run unit) (e : exn) :
  snd (for_each l body) = Raise e ->
  exists before a after,
    l = (before ++ a :: after)%list /\
    (forall x, In x before -> snd (body x) = Ok tt) /\
    snd (body a) = Raise e.
Proof.
  induction l as [|x l IH]; simpl; [discriminate|].
  unfold bind. destruct (body x) as [t [[]|e']] eqn:Hx; simpl.
  - destruct (for_each l body) as [t' r] eqn:Hl. simpl in *. intros ->.
    destruct (IH eq_refl) as (before & a & after & -> & Hb & Ha).
    exists (x :: before), a, after. repeat split; auto.
    intros y [<-|Hy]; [now rewrite Hx|auto].
  - intros [= ->]. exists [], x, l. repeat split; [contradiction|].
    now rewrite Hx.
Qed.

Lemma enumerate_app {A} (l1 l2 : list A) (start : Z) :
  enumerate start (l1 ++ l2)
  = (enumerate start l1
       ++ enumerate (start + Z.of_nat (List.length l1)) l2)%list.
Proof.
  revert start. induction l1 as [|a l1 IH]; intros start; simpl.
  - f_equal. lia.
  - rewrite IH. do 3 f_equal. lia.
Qed.

(** X1. An exception ends the run where it is raised.  In direct mode,
    when the boxes before a box are cropped without exception and that
    box raises, the run saves what the boxes before save and raises; the
    boxes after are not visited.  In document mode the same holds of the
    pages: the segments of the pages before, and those the failing page
    saved before its exception, stay saved. *)
Theorem cropping_stops_at_first_exception :
  (forall img margin_ratio before b after e,
      snd (Pipeline.crop_segments_from_image img before margin_ratio) = Ok tt ->
      Pipeline.truncate
        (Pipeline.expand_clamp (width img) (height img)
           margin_ratio margin_ratio b) = Raise e ->
      Pipeline.crop_segments_from_image img (before ++ b :: after) margin_ratio
      = (fst (Pipeline.crop_segments_from_image img before margin_ratio),
         Raise e))
  /\
  (forall original_images listing open_layout mxr myr doc_key
          before pd after e,
      let run := Pipeline.crop_clean_segments_with_margin original_images
                   listing open_layout mxr myr in
      let page_run := Pipeline.crop_page original_images listing open_layout
                        mxr myr doc_key in
      snd (run [(doc_key, before)]) = Ok tt ->
      snd (page_run pd) = Raise e ->
      run [(doc_key, (before ++ pd :: after)%list)]
      = ((fst (run [(doc_key, before)]) ++ fst (page_run pd))%list, Raise e)).
Proof.
  split.
  - intros img mr before b after e Hok Hb.
    unfold Pipeline.crop_segments_from_image in *.
    rewrite enumerate_app. cbn [enumerate].
    pose proof (for_each_ok_inv _ _ Hok) as Hall.
    rewrite (for_each_first_raise _ _ _ _ e Hall)
      by (now rewrite (image_box_raises _ _ _ _ _ Hb)).
    rewrite (for_each_all_ok _ _ Hall). cbn [fst].
    rewrite (image_box_raises _ _ _ _ _ Hb). cbn [fst raise].
    now rewrite app_nil_r.
  - intros original_images listing open_layout mxr myr doc_key before pd after
      e run page_run.
    unfold run, Pipeline.crop_clean_segments_with_margin.
    cbn [List.length Nat.eqb negb].
    change (lift (py_index [(doc_key, before)] 0)) with (ret (doc_key, before)).
    change (lift (py_index [(doc_key, (before ++ pd :: after)%list)] 0))
      with (ret (doc_key, (before ++ pd :: after)%list)).
    rewrite !bind_ret_l. fold page_run. intros Hok Hpd.
    pose proof (for_each_ok_inv _ _ Hok) as Hall.
    rewrite (for_each_first_raise _ _ _ _ e Hall Hpd).
    now rewrite (for_each_all_ok _ _ Hall).
Qed.

Lemma cropping_stops_at_first_exception_witness :
  let img := {| width := 400; height := 200 |} in
  let good := box_of_Z 10 10 110 60 in
  let huge := box_of_Z (10 ^ 308) 0 (- 10 ^ 308) 10 in
  let pd_good := {| Pipeline.page := 1; Pipeline.bboxes := [good] |} in
  let pd_bad := {| Pipeline.page := 5; Pipeline.bboxes := [good] |} in
  Pipeline.crop_segments_from_image img [good; huge; good] Float64.lit_0_05
  = ([Saved "image_box_1.png" img (5, 7, 115, 62)],
     Raise (OverflowError "cannot convert float infinity to integer"))
  /\
  Pipeline.crop_clean_segments_with_margin [img] ["doc_0_layout.png"%string]
    (fun _ => img) Float64.lit_0_05 Float64.lit_0_05
    [("doc"%string, [pd_good; pd_bad; pd_good])]
  = ([Saved "doc_page_1_box_1.png" img (5, 7, 115, 62)],
     Raise (IndexError "list index out of range")).
Proof.
  intros img good huge pd_good pd_bad. split.
  - exact (proj1 cropping_stops_at_first_exception img Float64.lit_0_05
             [good] huge [good]
             (OverflowError "cannot convert float infinity to integer")
             eq_refl eq_refl).
  - exact (proj2 cropping_stops_at_first_exception [img]
             ["doc_0_layout.png"%string] (fun _ => img)
             Float64.lit_0_05 Float64.lit_0_05 "doc"%string
             [pd_good] pd_bad [pd_good]
             (IndexError "list index out of range") eq_refl eq_refl).
Defined.

(** ** Which exceptions, and when *)

Lemma truncate_Ok_finite (c : Pipeline.clamped) (r : rect) :
  Pipeline.truncate c = Ok r -> all_finite c.
Proof.
  destruct c as [[[cx1 cy1] cx2] cy2], r as [[[n1 m1] n2] m2].
  intros H. apply truncate_Ok in H. destruct H as (H1 & H2 & H3 & H4).
  repeat split; apply finite_py_int; eauto.
Qed.

Lemma image_box_result (img : image) (mr : Float64.float) (idx : Z)
    (b : Pipeline.box) :
  snd (Pipeline.crop_image_box img mr (idx, b)) = Ok tt <->
  all_finite (Pipeline.expand_clamp (width img) (height img) mr mr b).
Proof.
  unfold Pipeline.crop_image_box, lift, bind. split.
  - destruct (Pipeline.truncate _) as [r|e] eqn:Hr; [|discriminate].
    intros _. eapply truncate_Ok_finite; eauto.
  - intros Hf. destruct (truncate_all_finite _ Hf) as [r ->].
    now destruct (Pipeline.degenerate r).
Qed.

Lemma py_index_out_of_range {A} (l : list A) (i : Z) :
  i < - Z.of_nat (List.length l) \/ Z.of_nat (List.length l) <= i ->
  py_index l i = Raise (IndexError "list index out of range").
Proof.
  intros Hi. unfold py_index. set (n := Z.of_nat (List.length l)) in *.
  destruct (i <? 0) eqn:H0.
  - replace ((i + n <? 0) || (n <=? i + n)) with true; [reflexivity|].
    symmetry. apply orb_true_iff. lia.
  - replace ((i <? 0) || (n <=? i)) with true; [reflexivity|].
    symmetry. apply orb_true_iff. lia.
Qed.

Lemma truncate_not_finite (w h : Z) (mxr myr : Float64.float)
    (b : Pipeline.box) :
  ~ all_finite (Pipeline.expand_clamp w h mxr myr b) ->
  Pipeline.truncate (Pipeline.expand_clamp w h mxr myr b)
  = Raise (OverflowError "cannot convert float infinity to integer").
Proof.
  intros Hn.
  destruct (Pipeline.truncate (Pipeline.expand_clamp w h mxr myr b))
    as [r|e] eqn:Hr.
  - exfalso. apply Hn. eapply truncate_Ok_finite; eauto.
  - f_equal. eapply truncate_expand_raise; eauto.
Qed.

Lemma page_box_result (mxr myr : Float64.float) (doc_key : string)
    (page_num : Z) (img : image) (sx sy : Float64.float) (idx : Z)
    (b : Pipeline.box) :
  snd (Pipeline.crop_page_box mxr myr doc_key page_num img sx sy (idx, b))
  = Ok tt <->
  all_finite (Pipeline.expand_clamp (width img) (height img) mxr myr
                (Pipeline.scale_box sx sy b)).
Proof.
  unfold Pipeline.crop_page_box, lift, bind. split.
  - destruct (Pipeline.truncate _) as [r|e] eqn:Hr; [|discriminate].
    intros _. eapply truncate_Ok_finite; eauto.
  - intros Hf. destruct (truncate_all_finite _ Hf) as [r ->].
    now destruct (Pipeline.degenerate r).
Qed.

(** X2. Which condition raises which exception, on boxes of four floats.
    A box raises in either cropper exactly when one of its four clamped
    coordinates is not a finite number, and what is raised is then the
    [OverflowError] of [int] on an infinity: the clamps let no NaN reach
    [int].  The loop of direct mode so ends without exception exactly when
    every box has finite clamped coordinates, and raises that
    [OverflowError] otherwise.  In document mode a page whose number is
    outside the rendered pages raises [IndexError], and a page whose
    matched layout image has width or height zero raises
    [ZeroDivisionError], in both cases before any box of the page is
    cropped. *)
Theorem cropper_exceptions :
  (forall img margin_ratio idx b,
      let c := Pipeline.expand_clamp (width img) (height img)
                 margin_ratio margin_ratio b in
      (snd (Pipeline.crop_image_box img margin_ratio (idx, b)) = Ok tt
       <-> all_finite c) /\
      (~ all_finite c ->
       Pipeline.crop_image_box img margin_ratio (idx, b)
       = raise (OverflowError "cannot convert float infinity to integer")))
  /\
  (forall mxr myr doc_key page_num img sx sy idx b,
      let c := Pipeline.expand_clamp (width img) (height img) mxr myr
                 (Pipeline.scale_box sx sy b) in
      (snd (Pipeline.crop_page_box mxr myr doc_key page_num img sx sy
              (idx, b)) = Ok tt
       <-> all_finite c) /\
      (~ all_finite c ->
       Pipeline.crop_page_box mxr myr doc_key page_num img sx sy (idx, b)
       = raise (OverflowError "cannot convert float infinity to integer")))
  /\
  (forall img bboxes margin_ratio,
      let finite_clamps := fun b =>
        all_finite (Pipeline.expand_clamp (width img) (height img)
                      margin_ratio margin_ratio b) in
      (snd (Pipeline.crop_segments_from_image img bboxes margin_ratio)
       = Ok tt
       <-> forall b, In b bboxes -> finite_clamps b) /\
      ((exists b, In b bboxes /\ ~ finite_clamps b) ->
       snd (Pipeline.crop_segments_from_image img bboxes margin_ratio)
       = Raise (OverflowError "cannot convert float infinity to integer")))
  /\
  (forall original_images listing open_layout mxr myr doc_key pd,
      Pipeline.page pd - 1 < - Z.of_nat (List.length original_images) \/
      Z.of_nat (List.length original_images) <= Pipeline.page pd - 1 ->
      Pipeline.crop_page original_images listing open_layout mxr myr
        doc_key pd
      = ([], Raise (IndexError "list index out of range")))
  /\
  (forall original_images listing open_layout mxr myr doc_key pd img fname,
      py_index original_images (Pipeline.page pd - 1) = Ok img ->
      Pipeline.match_layout listing (Pipeline.page pd) = Some fname ->
      width (open_layout fname) = 0 \/ height (open_layout fname) = 0 ->
      Pipeline.crop_page original_images listing open_layout mxr myr
        doc_key pd
      = ([], Raise (ZeroDivisionError "division by zero"))).
Proof.
  assert (Hdirect : forall img bboxes mr,
    snd (Pipeline.crop_segments_from_image img bboxes mr) = Ok tt <->
    forall b, In b bboxes ->
      all_finite (Pipeline.expand_clamp (width img) (height img) mr mr b)).
  { intros img bboxes mr. unfold Pipeline.crop_segments_from_image. split.
    - intros Hok b Hb. apply In_nth_error in Hb. destruct Hb as [n Hn].
      apply (nth_error_enumerate _ 0) in Hn.
      apply (image_box_result img mr (0 + Z.of_nat n) b).
      now apply (for_each_ok_inv _ _ Hok).
    - intros Hall. rewrite for_each_all_ok; [reflexivity|].
      intros [idx b] Hin. apply image_box_result. apply Hall.
      apply in_enumerate in Hin. destruct Hin as (n & _ & Hn).
      eapply nth_error_In; eauto. }
  split; [|split; [|split; [|split]]].
  - intros img mr idx b c. split; [apply image_box_result|].
    intros Hn. apply image_box_raises. now apply truncate_not_finite.
  - intros mxr myr doc_key page_num img sx sy idx b c.
    split; [apply page_box_result|].
    intros Hn. apply page_box_raises. now apply truncate_not_finite.
  - intros img bboxes mr finite_clamps. split; [apply Hdirect|].
    intros (b & Hb & Hn).
    destruct (snd (Pipeline.crop_segments_from_image img bboxes mr))
      as [[]|e] eqn:Hr.
    + exfalso. apply Hn. exact (proj1 (Hdirect img bboxes mr) Hr b Hb).
    + f_equal. unfold Pipeline.crop_segments_from_image in Hr.
      apply snd_for_each_raise in Hr. destruct Hr as ([i b'] & _ & Hr).
      unfold Pipeline.crop_image_box in Hr.
      apply snd_bind_raise in Hr. cbn [snd lift] in Hr.
      destruct Hr as [Hr|(r & _ & Hr)].
      * now apply truncate_expand_raise in Hr.
      * destruct (Pipeline.degenerate r); discriminate.
  - intros original_images listing open_layout mxr myr doc_key pd Hi.
    unfold Pipeline.crop_page.
    now rewrite (py_index_out_of_range _ _ Hi).
  - intros original_images listing open_layout mxr myr doc_key pd img fname
      Hidx Hmatch Hzero.
    unfold Pipeline.crop_page. rewrite Hidx.
    change (lift (Ok img)) with (ret img). rewrite bind_ret_l, Hmatch.
    unfold py_truediv.
    destruct (Z.eqb_spec (width (open_layout fname)) 0) as [Hw|Hw];
      [reflexivity|].
    destruct Hzero as [Hw0|Hh0]; [contradiction|].
    rewrite Hh0. reflexivity.
Qed.

Lemma cropper_exceptions_witness :
  let img := {| width := 400; height := 200 |} in
  let empty := {| width := 0; height := 100 |} in
  let good := box_of_Z 10 10 110 60 in
  let huge := box_of_Z (10 ^ 308) 0 (- 10 ^ 308) 10 in
  let pd := fun p => {| Pipeline.page := p; Pipeline.bboxes := [good] |} in
  snd (Pipeline.crop_segments_from_image img [good; good] Float64.lit_0_05)
  = Ok tt /\
  Pipeline.crop_image_box img Float64.lit_0_05 (1, huge)
  = raise (OverflowError "cannot convert float infinity to integer") /\
  snd (Pipeline.crop_segments_from_image img [good; huge; good]
         Float64.lit_0_05)
  = Raise (OverflowError "cannot convert float infinity to integer") /\
  Pipeline.crop_page [img] ["doc_0_layout.png"%string] (fun _ => img)
    Float64.lit_0_05 Float64.lit_0_05 "doc" (pd 5)
  = ([], Raise (IndexError "list index out of range")) /\
  Pipeline.crop_page [img] ["doc_0_layout.png"%string] (fun _ => empty)
    Float64.lit_0_05 Float64.lit_0_05 "doc" (pd 1)
  = ([], Raise (ZeroDivisionError "division by zero")).
Proof.
  intros img empty good huge pd.
  assert (Hgood : forall b, In b [good; good] ->
            all_finite (Pipeline.expand_clamp (width img) (height img)
                          Float64.lit_0_05 Float64.lit_0_05 b))
    by (intros b [<-|[<-|[]]]; vm_compute; auto).
  assert (Hhuge :
            ~ all_finite (Pipeline.expand_clamp (width img) (height img)
                            Float64.lit_0_05 Float64.lit_0_05 huge))
    by (intros Hf; vm_compute in Hf; destruct Hf as [Hf _]; discriminate).
  split; [|split; [|split; [|split]]].
  - exact (proj2 (proj1 (proj1 (proj2 (proj2 cropper_exceptions))
                           img [good; good] Float64.lit_0_05)) Hgood).
  - exact (proj2 (proj1 cropper_exceptions img Float64.lit_0_05 1 huge)
             Hhuge).
  - apply (proj2 (proj1 (proj2 (proj2 cropper_exceptions))
                    img [good; huge; good] Float64.lit_0_05)).
    exists huge. split; [right; left; reflexivity|exact Hhuge].
  - apply (proj1 (proj2 (proj2 (proj2 cropper_exceptions)))).
    right. simpl. lia.
  - apply (proj2 (proj2 (proj2 (proj2 cropper_exceptions)))
             [img] ["doc_0_layout.png"%string] (fun _ => empty)
             Float64.lit_0_05 Float64.lit_0_05 "doc"%string (pd 1) img
             "doc_0_layout.png"%string);
      [reflexivity|reflexivity|left; reflexivity].
Defined.

(** ** The pipeline of one image *)

Section ImagePipelineFacts.
Import PyStr.
Local Open Scope string_scope.

Lemma flat_map_flat_map {A B C} (f : A -> list B) (g : B -> list C)
    (l : list A) :
  flat_map g (flat_map f l) = flat_map (fun a => flat_map g (f a)) l.
Proof.
  induction l as [|a l IH]; simpl; [reflexivity|].
  now rewrite flat_map_app, IH.
Qed.

(** What a run of direct mode saves, when it ends without exception. *)
Lemma saved_names_crop (img : image) (mr : Float64.float)
    (bboxes : list Pipeline.box) :
  snd (Pipeline.crop_segments_from_image img bboxes mr) = Ok tt ->
  ImagePipeline.saved_names
    (fst (Pipeline.crop_segments_from_image img bboxes mr))
  = ImagePipeline.kept_box_names img mr bboxes.
Proof.
  unfold Pipeline.crop_segments_from_image. intros Hok.
  rewrite for_each_all_ok by exact (for_each_ok_inv _ _ Hok).
  cbn [fst]. unfold ImagePipeline.saved_names, ImagePipeline.kept_box_names.
  rewrite flat_map_flat_map. apply flat_map_ext. intros [idx b].
  unfold Pipeline.crop_image_box, lift, bind. cbn [fst snd].
  destruct (Pipeline.truncate _) as [r|e]; [|reflexivity].
  now destruct (Pipeline.degenerate r).
Qed.

(** The kept names are the names of an increasing list of indices. *)
Lemma kept_indices {A} (keep : Z * A -> bool) (l : list A) (start : Z) :
  exists idxs,
    map fst (filter keep (enumerate start l)) = idxs /\
    Forall (fun i => start <= i) idxs /\ StronglySorted Z.lt idxs.
Proof.
  revert start. induction l as [|a l IH]; intros start; simpl.
  - exists []. repeat constructor.
  - destruct (IH (start + 1)) as (idxs & Hm & Hge & Hs).
    assert (Hge' : Forall (fun i => start <= i) idxs).
    { eapply Forall_impl; [|exact Hge]. simpl. intros; lia. }
    destruct (keep (start, a)).
    + exists (start :: idxs). simpl. rewrite Hm.
      repeat split; [constructor; [lia|exact Hge']|].
      constructor; [exact Hs|].
      eapply Forall_impl; [|exact Hge]. simpl. intros; lia.
    + exists idxs. auto.
Qed.

Lemma kept_box_names_indices (img : image) (mr : Float64.float)
    (bboxes : list Pipeline.box) :
  exists idxs,
    ImagePipeline.kept_box_names img mr bboxes
    = map Pipeline.image_box_name idxs /\
    Forall (fun i => 0 <= i) idxs /\ StronglySorted Z.lt idxs.
Proof.
  set (keep := fun ib : Z * Pipeline.box =>
    match Pipeline.truncate
            (Pipeline.expand_clamp (width img) (height img) mr mr (snd ib))
    with
    | Ok r => negb (Pipeline.degenerate r)
    | Raise _ => false
    end).
  destruct (kept_indices keep bboxes 0) as (idxs & Hm & Hge & Hs).
  exists idxs. split; [|split; assumption]. subst idxs.
  unfold ImagePipeline.kept_box_names. clear Hge Hs.
  induction (enumerate 0 bboxes) as [|ib l IH]; simpl; [reflexivity|].
  rewrite IH.
  assert (Hk : keep ib
               = match Pipeline.truncate
                         (Pipeline.expand_clamp (width img) (height img)
                            mr mr (snd ib)) with
                 | Ok r => negb (Pipeline.degenerate r)
                 | Raise _ => false
                 end) by reflexivity.
  rewrite Hk.
  destruct (Pipeline.truncate _) as [r|e]; [|reflexivity].
  now destruct (Pipeline.degenerate r).
Qed.

Lemma image_box_names_sorted (idxs : list Z) :
  Forall (fun i => 0 <= i) idxs -> StronglySorted Z.lt idxs ->
  StronglySorted key_order (map Pipeline.image_box_name idxs) /\
  NoDup (map extract_box_number (map Pipeline.image_box_name idxs)).
Proof.
  intros Hge Hs. induction Hs as [|i idxs Hs IH Hi].
  - split; constructor.
  - apply Forall_cons_iff in Hge. destruct Hge as [Hi0 Hge].
    destruct (IH Hge) as [IHs IHn]. split; cbn [map].
    + constructor; [exact IHs|]. apply Forall_map.
      rewrite Forall_forall in Hi, Hge. apply Forall_forall. intros j Hj.
      unfold key_order, ordered_by.
      rewrite !extract_image_box_name by auto.
      unfold key_le, key_lt. specialize (Hi j Hj).
      destruct (Z.ltb_spec (j + 1) (i + 1)); [lia|reflexivity].
    + constructor; [|exact IHn]. rewrite map_map, in_map_iff.
      intros (j & Hj & Hin). rewrite Forall_forall in Hi, Hge.
      rewrite !extract_image_box_name in Hj by auto.
      specialize (Hi j Hin). injection Hj. lia.
Qed.

Lemma NoDup_of_keys {A B} (key : A -> B) (l : list A) :
  NoDup (map key l) -> NoDup l.
Proof.
  induction l as [|a l IH]; simpl; intros H; [constructor|].
  inversion H as [|? ? Hn Hd]; subst. constructor; [|auto].
  intros Hin. apply Hn. now apply in_map.
Qed.


Lemma save_files_fresh (names dir : list string) :
  NoDup names -> (forall f, In f names -> ~ In f dir) ->
  ImagePipeline.save_files dir names = (dir ++ names)%list.
Proof.
  unfold ImagePipeline.save_files. revert dir.
  induction names as [|n names IH]; intros dir Hnd Hdis; simpl.
  - now rewrite app_nil_r.
  - inversion Hnd as [|? ? Hn Hnd']; subst.
    unfold ImagePipeline.save_file at 2.
    destruct (existsb (String.eqb n) dir) eqn:He.
    { apply existsb_exists in He. destruct He as (x & Hx & Hnx).
      apply String.eqb_eq in Hnx. subst x.
      exfalso. apply (Hdis n); simpl; auto. }
    rewrite IH; [now rewrite <- app_assoc|exact Hnd'|].
    intros f Hf. rewrite in_app_iff. simpl.
    intros [H|[<-|[]]]; [|contradiction].
    apply (Hdis f); simpl; auto.
Qed.

Lemma image_box_name_png (idx : Z) :
  endswith (Pipeline.image_box_name idx) ".png" = true.
Proof.
  apply endswith_spec. exists ("image_box_" ++ str_of_Z (idx + 1)).
  unfold Pipeline.image_box_name. now rewrite append_assoc.
Qed.

Lemma filter_all {A} (f : A -> bool) (l : list A) :
  (forall a, In a l -> f a = true) -> filter f l = l.
Proof.
  induction l as [|a l IH]; simpl; intros H; [reflexivity|].
  rewrite (H a) by auto. f_equal. auto.
Qed.

(** The page id of the report of one image. *)
Lemma lstrip_app (drop : ascii -> bool) (p : string) (c : ascii)
    (s : string) :
  drop c = false ->
  lstrip_with drop (p ++ String c s) = lstrip_with drop p ++ String c s.
Proof.
  intros Hc. induction p as [|d p IH]; simpl.
  - now rewrite Hc.
  - now destruct (drop d).
Qed.

Lemma rstrip_app (drop : ascii -> bool) (p s : string) :
  is_empty (rstrip_with drop s) = false ->
  rstrip_with drop (p ++ s) = p ++ rstrip_with drop s.
Proof.
  intros Hs. induction p as [|d p IH]; simpl; [reflexivity|].
  rewrite IH. destruct (p ++ rstrip_with drop s) eqn:Hp; [|reflexivity].
  destruct p; simpl in Hp; [|discriminate]. now rewrite Hp in Hs.
Qed.

Lemma lstrip_slash_end (drop : ascii -> bool) (q : string) :
  lstrip_with drop (q ++ "/") = ""
  \/ exists q', lstrip_with drop (q ++ "/") = q' ++ "/".
Proof.
  induction q as [|d q IH]; simpl.
  - destruct (drop "/"%char); [now left|right; now exists ""].
  - destruct (drop d); [exact IH|]. right. now exists (String d q).
Qed.

Lemma basename_from_slash (q s acc : string) :
  basename_from acc (q ++ String "/" s) = basename_from "" s.
Proof.
  revert acc. induction q as [|d q IH]; intros acc; simpl; [reflexivity|].
  destruct (Ascii.eqb d "/"); apply IH.
Qed.

Lemma path_join_crops (d : string) :
  exists p, path_join d "crops" = p ++ "crops" /\
            (p = "" \/ exists q, p = q ++ "/").
Proof.
  unfold path_join. cbn [String.prefix].
  destruct (is_empty d) eqn:Hd; cbn [orb].
  - destruct d; [|discriminate]. exists "". auto.
  - destruct (endswith d "/") eqn:He.
    + apply endswith_spec in He. destruct He as [q ->].
      exists (q ++ "/"). eauto.
    + exists (d ++ "/"). split; [now rewrite append_assoc|eauto].
Qed.

Lemma crops_page_id (d : string) :
  basename (strip_slash (path_join d "crops")) = "crops".
Proof.
  destruct (path_join_crops d) as (p & -> & Hp).
  unfold strip_slash, strip_with.
  rewrite lstrip_app by reflexivity. rewrite rstrip_app by reflexivity.
  change (rstrip_with (Ascii.eqb "/") "crops") with "crops".
  destruct Hp as [->|[q ->]]; [reflexivity|].
  destruct (lstrip_slash_end (Ascii.eqb "/") q) as [->|[q' ->]];
    [reflexivity|].
  rewrite append_assoc. apply basename_from_slash.
Qed.

(** The directory of the report. *)
Lemma dirname_head_slash (x y : string) :
  is_empty (ImagePipeline.dirname_head (x ++ String "/" y)) = false.
Proof.
  induction x as [|c x IH]; cbn [String.append ImagePipeline.dirname_head].
  - destruct (ImagePipeline.dirname_head y); reflexivity.
  - destruct (ImagePipeline.dirname_head (x ++ String "/" y));
      [discriminate|reflexivity].
Qed.

Lemma dirname_nonempty (p : string) :
  is_empty (ImagePipeline.dirname_head p) = false ->
  is_empty (ImagePipeline.dirname p) = false.
Proof.
  intros H. unfold ImagePipeline.dirname. rewrite H. cbn [negb andb].
  destruct (all_chars (Ascii.eqb "/") _) eqn:Ha; cbn [negb]; [exact H|].
  now apply rstrip_nonempty.
Qed.

(** The path of the report has a directory part exactly when the output
    directory is not the empty string. *)
Lemma report_directory (output_dir : string) :
  is_empty
    (ImagePipeline.dirname (path_join output_dir "final_ocr_output.txt"))
  = is_empty output_dir.
Proof.
  destruct output_dir as [|c d]; [reflexivity|].
  cbn [is_empty]. apply dirname_nonempty. unfold path_join.
  change (String.prefix "/" "final_ocr_output.txt") with false.
  cbn [is_empty orb]. cbv iota.
  destruct (endswith (String c d) "/") eqn:He.
  - apply endswith_spec in He. destruct He as [pre ->].
    rewrite append_assoc. apply dirname_head_slash.
  - apply (dirname_head_slash (String c d)).
Qed.

Lemma path_join_nonempty (a b : string) :
  is_empty b = false -> is_empty (path_join a b) = false.
Proof.
  intros Hb. unfold path_join. destruct (String.prefix "/" b); [exact Hb|].
  destruct a as [|c a]; [exact Hb|].
  now destruct (is_empty (String c a) || endswith (String c a) "/").
Qed.

(** Reading back a text that holds no carriage return. *)
Lemma universal_newlines_id (s : string) :
  ImagePipeline.no_cr s = true -> ImagePipeline.universal_newlines s = s.
Proof.
  unfold ImagePipeline.no_cr.
  induction s as [|c s IH]; cbn [ImagePipeline.universal_newlines all_chars];
    [reflexivity|].
  destruct (Ascii.eqb c ImagePipeline.CR); cbn [negb andb];
    [discriminate|].
  intros H. now rewrite IH.
Qed.

(** A carriage return is read as a line feed, alone or before one. *)
Lemma read_back_of_carriage_returns :
  let CR := ImagePipeline.CR in
  ImagePipeline.universal_newlines
    (String "a" (String CR (String "010"
       (String "b" (String CR (String "c" EmptyString))))))
  = String "a" (String "010" (String "b" (String "010"
       (String "c" EmptyString)))).
Proof. reflexivity. Qed.

Lemma all_chars_app (P : ascii -> bool) (a b : string) :
  all_chars P (a ++ b) = all_chars P a && all_chars P b.
Proof.
  induction a as [|c a IH]; cbn [String.append all_chars]; [reflexivity|].
  now rewrite IH, andb_assoc.
Qed.

Lemma no_cr_uint (d : Decimal.uint) :
  ImagePipeline.no_cr (NilEmpty.string_of_uint d) = true.
Proof.
  unfold ImagePipeline.no_cr.
  induction d; cbn [NilEmpty.string_of_uint all_chars]; auto.
Qed.

Lemma no_cr_nz_uint (d : Decimal.uint) :
  ImagePipeline.no_cr (NilZero.string_of_uint d) = true.
Proof. destruct d; try reflexivity; apply no_cr_uint. Qed.

Lemma no_cr_str_of_Z (z : Z) : ImagePipeline.no_cr (str_of_Z z) = true.
Proof.
  unfold str_of_Z, NilZero.string_of_int.
  destruct (Z.to_int z) as [d|d]; exact (no_cr_nz_uint d).
Qed.

Lemma no_cr_app (a b : string) :
  ImagePipeline.no_cr a = true -> ImagePipeline.no_cr b = true ->
  ImagePipeline.no_cr (a ++ b) = true.
Proof.
  unfold ImagePipeline.no_cr. intros Ha Hb. now rewrite all_chars_app, Ha, Hb.
Qed.

Lemma no_cr_strip (s : string) :
  ImagePipeline.no_cr s = true -> ImagePipeline.no_cr (strip s) = true.
Proof.
  unfold ImagePipeline.no_cr, strip.
  destruct (strip_split is_space s) as (l & r & Hs & _). intros H.
  rewrite Hs, !all_chars_app in H.
  apply andb_true_iff in H. destruct H as [_ H].
  apply andb_true_iff in H. now destruct H.
Qed.

Lemma no_cr_entry (fname text : string) :
  ImagePipeline.no_cr fname = true -> ImagePipeline.no_cr text = true ->
  ImagePipeline.no_cr (Report.entry fname text) = true.
Proof.
  intros Hf Ht. unfold Report.entry.
  repeat (apply no_cr_app; try reflexivity; try assumption).
  destruct (blank text); [reflexivity|now apply no_cr_strip].
Qed.

Lemma no_cr_join (l : list string) :
  (forall x, In x l -> ImagePipeline.no_cr x = true) ->
  ImagePipeline.no_cr (Report.join l) = true.
Proof.
  induction l as [|x l IH]; intros H; [reflexivity|].
  cbn [Report.join fold_right]. apply no_cr_app; [apply H; now left|].
  apply IH. intros y Hy. apply H. now right.
Qed.

Lemma no_cr_image_box_name (idx : Z) :
  ImagePipeline.no_cr (Pipeline.image_box_name idx) = true.
Proof.
  unfold Pipeline.image_box_name.
  repeat (apply no_cr_app; try reflexivity). apply no_cr_str_of_Z.
Qed.

Variable run_layout_on_image : image -> list Pipeline.box.
Variable listing_order : list string -> list string.
Variable recognition : string -> list (list string).

(** The outcome of the pipeline of one image, from the files its folder
    holds. *)
Lemma image_pipeline_report (img : image) (output_dir : string)
    (crops_before : list string) :
  snd (Pipeline.crop_segments_from_image img (run_layout_on_image img)
         Float64.lit_0_05) = Ok tt ->
  let crops_dir := path_join output_dir "crops" in
  let names :=
    ImagePipeline.kept_box_names img Float64.lit_0_05
      (run_layout_on_image img) in
  let files :=
    py_sort extract_box_number
      (filter is_png
         (listing_order (ImagePipeline.save_files crops_before names))) in
  snd (ImagePipeline.run_layout_on_image_file run_layout_on_image
         listing_order recognition img output_dir crops_before)
  = if is_empty output_dir
    then Raise (FileNotFoundError "[Errno 2] No such file or directory: ''")
    else
      Ok (LF ++ "=== SEGMENTS: crops ===" ++ LF ++ LF
          ++ Report.join
               (map (fun f =>
                       Report.entry f
                         (Report.recognized_text recognition crops_dir f))
                  files)).
Proof.
  intros Hok crops_dir names files.
  unfold ImagePipeline.run_layout_on_image_file.
  pose proof (saved_names_crop img Float64.lit_0_05
                (run_layout_on_image img) Hok) as Hn.
  destruct (Pipeline.crop_segments_from_image _ _ _) as [t [[]|e]];
    [|discriminate].
  cbn [fst snd] in *. rewrite Hn, report_directory. fold crops_dir names.
  destruct (is_empty output_dir); [reflexivity|]. cbn [snd]. f_equal.
  unfold Pipeline.ocr_segments. cbn [fold_left].
  rewrite ocr_folder_section. cbn [String.append].
  unfold Report.section_of, Report.header, Pipeline.sorted_files.
  unfold crops_dir at 1. rewrite crops_page_id.
  rewrite String.eqb_refl. rewrite !append_assoc. reflexivity.
Qed.
End ImagePipelineFacts.

(** X3. The report of one page of the application.  Its folder is new,
    so whatever the order in which the directory lists its files, the
    report written by a run that crops without exception is the header of
    the folder [crops] followed by one entry for every box that passes the
    test of line 135, in the order of the boxes.  The text displayed is
    that report read back in text mode, a carriage return, with the line
    feed that follows it if any, read as a line feed; when no recognised
    text holds a carriage return, it is the report itself. *)
Theorem page_report_in_box_order
    (run_layout_on_image : image -> list Pipeline.box)
    (listing_order : list string -> list string)
    (recognition : string -> list (list string))
    (tmp_dir : string) (idx : Z) (img : image) :
  (forall l, Permutation (listing_order l) l) ->
  snd (Pipeline.crop_segments_from_image img (run_layout_on_image img)
         Float64.lit_0_05) = Ok tt ->
  let output_dir :=
    PyStr.path_join tmp_dir
      ("surya_image_pipeline_" ++ PyStr.str_of_Z idx)%string in
  let crops_dir := PyStr.path_join output_dir "crops" in
  let names :=
    ImagePipeline.kept_box_names img Float64.lit_0_05
      (run_layout_on_image img) in
  let report :=
    (PyStr.LF ++ "=== SEGMENTS: crops ===" ++ PyStr.LF ++ PyStr.LF
     ++ Report.join
          (map (fun f =>
                  Report.entry f
                    (Report.recognized_text recognition crops_dir f))
             names))%string in
  snd (ImagePipeline.run_layout_on_image_file run_layout_on_image
         listing_order recognition img output_dir [])
  = Ok report /\
  snd (ImagePipeline.full_pipeline_on_page run_layout_on_image
         listing_order recognition tmp_dir idx img)
  = Ok (ImagePipeline.universal_newlines report) /\
  ((forall f, In f names ->
      ImagePipeline.no_cr (Report.recognized_text recognition crops_dir f)
      = true) ->
   snd (ImagePipeline.full_pipeline_on_page run_layout_on_image
          listing_order recognition tmp_dir idx img)
   = Ok report).
Proof.
  intros Hperm Hok output_dir crops_dir names report.
  assert (Hwritten :
    snd (ImagePipeline.run_layout_on_image_file run_layout_on_image
           listing_order recognition img output_dir [])
    = Ok report).
  { rewrite image_pipeline_report by exact Hok.
    fold crops_dir names. unfold output_dir at 1.
    rewrite path_join_nonempty by reflexivity.
    destruct (kept_box_names_indices img Float64.lit_0_05
                (run_layout_on_image img)) as (idxs & Hn & Hge & Hs).
    fold names in Hn.
    destruct (image_box_names_sorted idxs Hge Hs) as [Hsorted Hkeys].
    rewrite <- Hn in Hsorted, Hkeys.
    rewrite save_files_fresh;
      [|exact (NoDup_of_keys _ _ Hkeys)|intros f _ []].
    cbn [app].
    assert (Hfiles : py_sort PyStr.extract_box_number
                       (filter is_png (listing_order names)) = names).
    { symmetry. apply (sorted_perm_unique PyStr.extract_box_number);
        [exact Hsorted|apply py_sort_sorted| |exact Hkeys].
      rewrite py_sort_perm. symmetry.
      rewrite (filter_perm is_png _ _ (Hperm names)).
      rewrite filter_all; [reflexivity|].
      intros f Hf. rewrite Hn in Hf. apply in_map_iff in Hf.
      destruct Hf as (i & <- & _). apply image_box_name_png. }
    now rewrite Hfiles. }
  assert (Hshown :
    snd (ImagePipeline.full_pipeline_on_page run_layout_on_image
           listing_order recognition tmp_dir idx img)
    = Ok (ImagePipeline.universal_newlines report)).
  { unfold ImagePipeline.full_pipeline_on_page. fold output_dir.
    destruct (ImagePipeline.run_layout_on_image_file _ _ _ _ _ _)
      as [t r]. cbn [snd] in Hwritten. now subst r. }
  split; [exact Hwritten|]. split; [exact Hshown|].
  intros Hcr. rewrite Hshown. f_equal. apply universal_newlines_id.
  unfold report. repeat (apply no_cr_app; try reflexivity).
  apply no_cr_join. intros x Hx. apply in_map_iff in Hx.
  destruct Hx as (f & <- & Hf). apply no_cr_entry; [|now apply Hcr].
  destruct (kept_box_names_indices img Float64.lit_0_05
              (run_layout_on_image img)) as (idxs & Hn & _).
  fold names in Hn. rewrite Hn in Hf. apply in_map_iff in Hf.
  destruct Hf as (i & <- & _). apply no_cr_image_box_name.
Qed.

Lemma page_report_in_box_order_witness :
  let img := {| width := 400; height := 200 |} in
  let good := box_of_Z 10 10 110 60 in
  let flat := box_of_Z 50 50 50 80 in
  let layout := fun _ : image => [good; flat; good] in
  let recognition := fun _ : string => [["text"%string]] in
  let crops_dir :=
    PyStr.path_join (PyStr.path_join "/tmp" "surya_image_pipeline_0")
      "crops" in
  let names := ["image_box_1.png"; "image_box_3.png"]%string in
  let report :=
    (PyStr.LF ++ "=== SEGMENTS: crops ===" ++ PyStr.LF ++ PyStr.LF
     ++ Report.join
          (map (fun f =>
                  Report.entry f
                    (Report.recognized_text recognition crops_dir f))
             names))%string in
  ImagePipeline.kept_box_names img Float64.lit_0_05 (layout img) = names /\
  snd (ImagePipeline.run_layout_on_image_file layout (@rev string)
         recognition img (PyStr.path_join "/tmp" "surya_image_pipeline_0")
         [])
  = Ok report /\
  snd (ImagePipeline.full_pipeline_on_page layout (@rev string) recognition
         "/tmp" 0 img)
  = Ok (ImagePipeline.universal_newlines report) /\
  snd (ImagePipeline.full_pipeline_on_page layout (@rev string) recognition
         "/tmp" 0 img)
  = Ok report.
Proof.
  intros img good flat layout recognition crops_dir names report.
  assert (Hperm : forall l : list string, Permutation (rev l) l)
    by (intros l; symmetry; apply Permutation_rev).
  assert (Hok : snd (Pipeline.crop_segments_from_image img (layout img)
                       Float64.lit_0_05) = Ok tt)
    by (vm_compute; reflexivity).
  assert (Hnames :
    ImagePipeline.kept_box_names img Float64.lit_0_05 (layout img) = names)
    by (vm_compute; reflexivity).
  split; [exact Hnames|].
  pose proof (page_report_in_box_order layout (@rev string) recognition
                "/tmp" 0 img Hperm Hok) as H.
  cbv zeta in H. rewrite Hnames in H.
  destruct H as (H1 & H2 & H3).
  split; [exact H1|]. split; [exact H2|].
  apply H3. intros f _. reflexivity.
Defined.



(** ** The text quality check *)

Section PdfQualityFacts.
Import PdfQuality.

Lemma in_py_range (a b p : Z) : In p (py_range a b) <-> a <= p < b.
Proof.
  unfold py_range. rewrite in_map_iff. split.
  - intros (i & <- & Hi). apply in_seq in Hi. lia.
  - intros H. exists (Z.to_nat (p - a)). split; [lia|]. apply in_seq. lia.
Qed.

Lemma length_py_range (a b : Z) :
  Z.of_nat (List.length (py_range a b)) = Z.max 0 (b - a).
Proof. unfold py_range. rewrite length_map, length_seq. lia. Qed.

Lemma half_bounds (n : Z) : 2 * (n / 2) <= n < 2 * (n / 2) + 2.
Proof.
  pose proof (Z_div_mod_eq_full n 2). pose proof (Z.mod_pos_bound n 2). lia.
Qed.

(** X5. The pages whose text is read, for a document of [page_count]
    pages: all of them when there are at most [2 * max_pages]; otherwise
    the [2 * max_pages] pages around the middle one, from page
    [page_count // 2 - max_pages].  No index leaves the document. *)
Theorem page_window (page_count max_pages : Z) :
  0 <= page_count -> 0 <= max_pages ->
  (forall p, In p (page_range page_count max_pages) -> 0 <= p < page_count) /\
  (page_count <= 2 * max_pages ->
   page_range page_count max_pages = py_range 0 page_count) /\
  (2 * max_pages < page_count ->
   page_range page_count max_pages
   = py_range (page_count / 2 - max_pages) (page_count / 2 + max_pages) /\
   Z.of_nat (List.length (page_range page_count max_pages)) = 2 * max_pages).
Proof.
  intros Hc Hm. unfold page_range. pose proof (half_bounds page_count) as Hh.
  set (mid := page_count / 2) in *. split; [|split].
  - intros p Hp. apply in_py_range in Hp. lia.
  - intros Hs. f_equal; lia.
  - intros Hl. rewrite length_py_range. split; [f_equal|]; lia.
Qed.

Lemma page_window_witness :
  (forall p, In p (page_range 100 15) -> 0 <= p < 100) /\
  page_range 7 15 = py_range 0 7 /\
  page_range 100 15 = py_range (100 / 2 - 15) (100 / 2 + 15) /\
  Z.of_nat (List.length (page_range 100 15)) = 2 * 15.
Proof.
  split; [|split].
  - apply (proj1 (page_window 100 15 ltac:(lia) ltac:(lia))).
  - apply (proj1 (proj2 (page_window 7 15 ltac:(lia) ltac:(lia)))). lia.
  - apply (proj2 (proj2 (page_window 100 15 ltac:(lia) ltac:(lia)))). lia.
Defined.

(** *** The samples *)

Lemma py_slice_nonneg {A} (l : list A) (lo hi : Z) :
  0 <= lo -> 0 <= hi ->
  py_slice l lo hi = skipn (Z.to_nat lo) (firstn (Z.to_nat hi) l).
Proof.
  intros Hlo Hhi. unfold py_slice.
  destruct (Z.ltb_spec lo 0); [lia|]. destruct (Z.ltb_spec hi 0); [lia|].
  set (n := List.length l).
  assert (Hf : firstn (Z.to_nat (Z.min hi (Z.of_nat n))) l
               = firstn (Z.to_nat hi) l).
  { destruct (Z.le_gt_cases hi (Z.of_nat n)).
    - now rewrite Z.min_l by lia.
    - rewrite Z.min_r, Nat2Z.id by lia.
      rewrite !firstn_all2; [reflexivity|lia|reflexivity]. }
  rewrite Hf.
  destruct (Z.le_gt_cases lo (Z.of_nat n)).
  - now rewrite Z.min_l by lia.
  - rewrite Z.min_r, Nat2Z.id by lia.
    assert (Hlen : (List.length (firstn (Z.to_nat hi) l) <= n)%nat)
      by (rewrite length_firstn; lia).
    rewrite !skipn_all2; [reflexivity|lia|lia].
Qed.

Lemma firstn_chunk {A} (l : list A) (a b : nat) :
  (firstn a l ++ skipn a (firstn (a + b) l))%list = firstn (a + b) l.
Proof.
  rewrite <- (firstn_skipn a (firstn (a + b) l)) at 2.
  rewrite firstn_firstn. f_equal. f_equal. lia.
Qed.

Lemma chunks_tile {A} (l : list A) (g : Z) (k : nat) :
  0 <= g ->
  List.concat (map (fun i => py_slice l i (i + g))
            (map (fun i => 0 + Z.of_nat i * g) (seq 0 k)))
  = firstn (k * Z.to_nat g) l.
Proof.
  intros Hg. induction k as [|k IH]; [reflexivity|].
  rewrite seq_S, !map_app, List.concat_app, IH. cbn [map List.concat Nat.add].
  rewrite app_nil_r, py_slice_nonneg by nia.
  replace (Z.to_nat (0 + Z.of_nat k * g)) with (k * Z.to_nat g)%nat by nia.
  replace (Z.to_nat (0 + Z.of_nat k * g + g))
    with (k * Z.to_nat g + Z.to_nat g)%nat by nia.
  rewrite firstn_chunk. f_equal. lia.
Qed.

Lemma samples_of_shape {char} (text : list char) (sample_len max_samples : Z) :
  let len := Z.of_nat (List.length text) in
  0 < max_samples -> max_samples <= len ->
  let gap := Z.max (len / max_samples) sample_len in
  let n := (len - 0 + gap - 1) / gap in
  samples_of text sample_len max_samples
  = Ok (Some (map (fun i => py_slice text i (i + sample_len))
                (map (fun i => 0 + Z.of_nat i * gap) (seq 0 (Z.to_nat n)))))
  /\ 1 <= len / max_samples /\ 1 <= n /\ (n - 1) * gap < len <= n * gap.
Proof.
  intros len Hms Hlen gap n.
  assert (Hq : 1 <= len / max_samples)
    by (apply Z.div_le_lower_bound; lia).
  assert (Hgap : 1 <= gap) by lia.
  assert (Hn : (n - 1) * gap < len <= n * gap).
  { pose proof (Z_div_mod_eq_full (len - 0 + gap - 1) gap) as Hd.
    pose proof (Z.mod_pos_bound (len - 0 + gap - 1) gap ltac:(lia)) as Hr.
    fold n in Hd. nia. }
  split; [|split; [lia|split; [nia|exact Hn]]].
  unfold samples_of, py_floordiv. fold len.
  destruct (Z.eqb_spec max_samples 0); [lia|]. cbn [result_bind].
  destruct (Z.eqb_spec (len / max_samples) 0); [lia|].
  unfold py_range_step. fold gap.
  destruct (Z.eqb_spec gap 0); [lia|]. destruct (Z.ltb_spec 0 gap); [|lia].
  reflexivity.
Qed.

(** X6. The samples of a text of at least [max_samples] characters, for
    positive [sample_len] and [max_samples].  There is at least one; each
    has between one and [sample_len] characters; when [sample_len] is at
    least [max_samples - 1] there are at most [max_samples + 1] of them;
    and when the text has fewer than [(sample_len + 1) * max_samples]
    characters the samples, put end to end, are the whole text. *)
Theorem samples_of_text {char} (text : list char)
    (sample_len max_samples : Z) :
  let len := Z.of_nat (List.length text) in
  0 < sample_len -> 0 < max_samples -> max_samples <= len ->
  exists samples,
    samples_of text sample_len max_samples = Ok (Some samples) /\
    (1 <= List.length samples)%nat /\
    Forall (fun s => 1 <= Z.of_nat (List.length s) <= sample_len) samples /\
    (max_samples - 1 <= sample_len ->
     Z.of_nat (List.length samples) <= max_samples + 1) /\
    (len < (sample_len + 1) * max_samples -> List.concat samples = text).
Proof.
  intros len Hsl Hms Hlen.
  destruct (samples_of_shape text sample_len max_samples Hms Hlen)
    as (Hs & Hq & Hn1 & Hn). fold len in Hs, Hq, Hn1, Hn.
  set (gap := Z.max (len / max_samples) sample_len) in *.
  set (n := (len - 0 + gap - 1) / gap) in *.
  eexists. split; [exact Hs|]. rewrite !length_map, length_seq.
  split; [lia|]. split; [|split].
  - apply Forall_forall. intros s Hin. apply in_map_iff in Hin.
    destruct Hin as (start & <- & Hin). apply in_map_iff in Hin.
    destruct Hin as (i & <- & Hi). apply in_seq in Hi.
    assert (Hstart : 0 <= 0 + Z.of_nat i * gap < len) by nia.
    rewrite py_slice_nonneg by lia.
    rewrite length_skipn, length_firstn. fold len. unfold len in *. lia.
  - intros Hsmall.
    pose proof (Z_div_mod_eq_full len max_samples) as Hd.
    pose proof (Z.mod_pos_bound len max_samples Hms) as Hr.
    assert (Hqg : max_samples * (len / max_samples) <= max_samples * gap)
      by nia.
    assert (n < max_samples + 2); [|lia]. nia.
  - intros Hshort.
    assert (Hg : gap = sample_len).
    { assert (len / max_samples <= sample_len); [|lia].
      assert (len / max_samples < sample_len + 1); [|lia].
      apply Z.div_lt_upper_bound; lia. }
    rewrite Hg in *. rewrite chunks_tile by lia.
    apply firstn_all2. unfold len in *. nia.
Qed.

Lemma samples_of_text_witness :
  let text := list_ascii_of_string "abcdefghijklmn" in
  samples_of text 4 3
  = Ok (Some (map list_ascii_of_string ["abcd"; "efgh"; "ijkl"; "mn"]%string))
  /\
  exists samples,
    samples_of text 4 3 = Ok (Some samples) /\
    (1 <= List.length samples)%nat /\
    Forall (fun s => 1 <= Z.of_nat (List.length s) <= 4) samples /\
    (3 - 1 <= 4 -> Z.of_nat (List.length samples) <= 3 + 1) /\
    (Z.of_nat (List.length text) < (4 + 1) * 3 ->
     List.concat samples = text).
Proof.
  intros text.
  assert (Hlen : 3 <= Z.of_nat (List.length text)) by (simpl; lia).
  split; [reflexivity|].
  exact (samples_of_text text 4 3 ltac:(lia) ltac:(lia) Hlen).
Defined.

(** *** The outcomes of [ocr_errors] *)

Lemma ocr_errors_nonempty {char : Type}
    (plain_text_output : list Z -> list char)
    (ocr_error : list (list char) -> list string)
    (page_count sample_len max_samples max_pages : Z) :
  plain_text_output (page_range page_count max_pages) <> [] ->
  ocr_errors plain_text_output ocr_error page_count sample_len max_samples
    max_pages
  = (samples <- samples_of
                  (plain_text_output (page_range page_count max_pages))
                  sample_len max_samples ;;
     match samples with
     | None =>
         Ok ("PDF has no or very little text"%string, ["no text"%string])
     | Some samples =>
         let labels := ocr_error samples in
         label <- label_of labels ;;
         Ok (label, labels)
     end)%result.
Proof.
  unfold ocr_errors.
  now destruct (plain_text_output (page_range page_count max_pages)).
Qed.

(** X7. A text too short is not classified.  For a positive
    [max_samples], [ocr_errors] answers [PDF has no or very little text]
    exactly when the text read has fewer than [max_samples] characters;
    for [max_samples] zero and a text that is not empty it raises
    [ZeroDivisionError]. *)
Theorem little_text_is_not_classified {char : Type}
    (plain_text_output : list Z -> list char)
    (ocr_error : list (list char) -> list string)
    (page_count sample_len max_samples max_pages : Z) :
  let text := plain_text_output (page_range page_count max_pages) in
  (0 < max_samples ->
   (ocr_errors plain_text_output ocr_error page_count sample_len max_samples
      max_pages
    = Ok ("PDF has no or very little text"%string, ["no text"%string])
    <-> Z.of_nat (List.length text) < max_samples)) /\
  (max_samples = 0 -> text <> [] ->
   exists msg,
     ocr_errors plain_text_output ocr_error page_count sample_len max_samples
       max_pages
     = Raise (ZeroDivisionError msg)).
Proof.
  intros text. subst text.
  set (text := plain_text_output (page_range page_count max_pages)).
  assert (Hd : forall l : list char, l = [] \/ l <> [])
    by (intros [|]; [now left|right; discriminate]).
  destruct (Hd text) as [Hnil|Hne].
  { unfold ocr_errors. fold text. rewrite Hnil. split.
    - intros Hms. split; [simpl; lia|reflexivity].
    - intros _ []. reflexivity. }
  rewrite ocr_errors_nonempty by exact Hne. fold text. split.
  - intros Hms.
    destruct (Z.lt_ge_cases (Z.of_nat (List.length text)) max_samples)
      as [Hlt|Hge].
    + split; [intros _; exact Hlt|intros _].
      unfold samples_of, py_floordiv.
      destruct (Z.eqb_spec max_samples 0); [lia|]. cbn [result_bind].
      rewrite Z.div_small by lia. reflexivity.
    + split; [|lia].
      destruct (samples_of_shape text sample_len max_samples Hms Hge)
        as [-> _].
      cbn [result_bind]. unfold label_of.
      destruct (py_truediv _ _) as [ratio|e]; cbn [result_bind];
        [|discriminate].
      destruct (py_gt _ _); discriminate.
  - intros -> _. eexists. reflexivity.
Qed.

Lemma little_text_is_not_classified_witness :
  let plain := fun _ : list Z => list_ascii_of_string "too short" in
  let classifier := fun _ : list (list ascii) => ["good"%string] in
  (ocr_errors plain classifier 3 512 10 15
   = Ok ("PDF has no or very little text"%string, ["no text"%string])
   <-> Z.of_nat (List.length (plain (page_range 3 15))) < 10) /\
  exists msg,
    ocr_errors plain classifier 3 512 0 15 = Raise (ZeroDivisionError msg).
Proof.
  intros plain classifier. split.
  - apply (proj1 (little_text_is_not_classified plain classifier 3 512 10 15)).
    lia.
  - apply (proj2 (little_text_is_not_classified plain classifier 3 512 0 15));
      [reflexivity|discriminate].
Defined.

Lemma threshold_agrees_small :
  forallb threshold_agrees (py_range 1 101) = true.
Proof. vm_compute. reflexivity. Qed.

Lemma count_bad_bounds (labels : list string) :
  0 <= count_bad labels <= Z.of_nat (List.length labels).
Proof.
  unfold count_bad. pose proof (filter_length_le (String.eqb "bad") labels).
  lia.
Qed.

Lemma label_of_threshold (labels : list string) :
  0 < Z.of_nat (List.length labels) <= 100 ->
  label_of labels
  = Ok (if Z.of_nat (List.length labels) <? 5 * count_bad labels
        then "PDF may have garbled OCR text."%string
        else "PDF has good text."%string).
Proof.
  intros Hn. pose proof (count_bad_bounds labels) as Hb.
  pose proof threshold_agrees_small as H.
  rewrite forallb_forall in H.
  specialize (H (Z.of_nat (List.length labels))
                ltac:(apply in_py_range; lia)).
  unfold threshold_agrees in H. rewrite forallb_forall in H.
  specialize (H (count_bad labels) ltac:(apply in_py_range; lia)).
  unfold label_of.
  destruct (py_truediv _ _) as [ratio|e]; [|discriminate].
  cbn [result_bind]. apply eqb_prop in H. now rewrite H.
Qed.

(** X8. The label of a text that is classified.  For a positive
    [max_samples] and a text of at least that many characters, the
    classifier is run on the samples and its labels are returned with the
    label of the document.  With no label at all the division of line 294
    raises [ZeroDivisionError]; with up to a hundred labels the document is
    reported garbled exactly when more than one label in five is [bad]:
    one in five exactly is still good text. *)
Theorem garbled_label_threshold {char : Type}
    (plain_text_output : list Z -> list char)
    (ocr_error : list (list char) -> list string)
    (page_count sample_len max_samples max_pages : Z) :
  let text := plain_text_output (page_range page_count max_pages) in
  0 < max_samples -> max_samples <= Z.of_nat (List.length text) ->
  exists samples,
    samples_of text sample_len max_samples = Ok (Some samples) /\
    let labels := ocr_error samples in
    (labels = [] ->
     ocr_errors plain_text_output ocr_error page_count sample_len
       max_samples max_pages
     = Raise (ZeroDivisionError "division by zero")) /\
    (0 < Z.of_nat (List.length labels) <= 100 ->
     ocr_errors plain_text_output ocr_error page_count sample_len
       max_samples max_pages
     = Ok (if Z.of_nat (List.length labels) <? 5 * count_bad labels
           then "PDF may have garbled OCR text."%string
           else "PDF has good text."%string,
           labels)).
Proof.
  intros text Hms Hlen.
  destruct (samples_of_shape text sample_len max_samples Hms Hlen)
    as [Hs _].
  eexists. split; [exact Hs|]. intros labels.
  rewrite ocr_errors_nonempty
    by (fold text; intros E; rewrite E in Hlen; simpl in Hlen; lia).
  fold text. rewrite Hs. cbn [result_bind]. fold labels. split.
  - intros Hl. rewrite Hl. reflexivity.
  - intros Hn. now rewrite label_of_threshold.
Qed.

Lemma garbled_label_threshold_witness :
  let plain := fun _ : list Z => list_ascii_of_string "abcdefghijklmn" in
  let fifth := fun _ : list (list ascii) =>
    ["bad"; "good"; "good"; "good"; "good"]%string in
  let more := fun _ : list (list ascii) =>
    ["bad"; "good"; "bad"; "good"; "good"]%string in
  ocr_errors plain fifth 1 4 3 15
  = Ok ("PDF has good text."%string, fifth []) /\
  ocr_errors plain more 1 4 3 15
  = Ok ("PDF may have garbled OCR text."%string, more []) /\
  ocr_errors plain (fun _ => []) 1 4 3 15
  = Raise (ZeroDivisionError "division by zero").
Proof.
  intros plain fifth more.
  assert (Hlen : 3 <= Z.of_nat (List.length (plain (page_range 1 15))))
    by (simpl; lia).
  split; [|split].
  - destruct (garbled_label_threshold plain fifth 1 4 3 15 ltac:(lia) Hlen)
      as (samples & _ & _ & H).
    apply H. simpl. lia.
  - destruct (garbled_label_threshold plain more 1 4 3 15 ltac:(lia) Hlen)
      as (samples & _ & _ & H).
    apply H. simpl. lia.
  - destruct (garbled_label_threshold plain (fun _ => []) 1 4 3 15
                ltac:(lia) Hlen) as (samples & _ & H & _).
    apply H. reflexivity.
Defined.
End PdfQualityFacts.

(** ** A layout image of the size of the page *)

Lemma div_self (s : bool) (m : positive) (e : Z) :
  Float64.div (S754_finite s m e) (S754_finite s m e) = Float64.one.
Proof.
  unfold Float64.div, Float64.prec, Float64.emax. cbn [SFdiv].
  unfold SFdiv_core_binary.
  rewrite !Z.sub_diag.
  change (Z.min (fexp 53 1024 0) 0) with (-53).
  change (0 - -53) with 53. cbv iota.
  assert (Hd : Z.div_eucl (Z.shiftl (Zpos m) 53) (Zpos m) = (2 ^ 53, 0)).
  { rewrite Z.shiftl_mul_pow2 by lia.
    pose proof (Z_div_mod (Zpos m * 2 ^ 53) (Zpos m) ltac:(lia)) as H.
    destruct (Z.div_eucl (Zpos m * 2 ^ 53) (Zpos m)) as [q r].
    destruct H as [H1 H2].
    assert (Hq : q = 2 ^ 53).
    { set (k := 2 ^ 53) in *. clearbody k.
      assert (Zpos m * (k - q) = r) by lia.
      assert (Hcmp : k - q < 1) by nia.
      assert (Hcmp' : -1 < k - q) by nia. lia. }
    subst q. f_equal. lia. }
  rewrite Hd, xorb_nilpotent. unfold new_location.
  destruct (Z.even (Zpos m)); reflexivity.
Qed.

Lemma of_Z_pos_shape (m : positive) :
  Zpos m < 2 ^ 53 ->
  exists mz ez, Float64.of_Z (Zpos m) = S754_finite false mz ez.
Proof.
  intros Hm. unfold Float64.of_Z, Float64.prec, Float64.emax.
  cbn [binary_normalize]. unfold binary_round. rewrite fexp64.
  pose proof (digits2_le m 53 Hm) as Hd.
  set (d := Zpos (digits2_pos m)) in *.
  assert (Hd1 : 1 <= d) by (unfold d; lia).
  rewrite Z.add_0_r, Z.max_l by lia.
  destruct (shl_align m 0 (d - 53)) as [mz ez] eqn:Hsh.
  assert (Hmz : Zpos (digits2_pos mz) = 53 /\ ez = d - 53).
  { unfold shl_align in Hsh.
    destruct (d - 53 - 0) as [|p|p] eqn:Hs;
      apply pair_equal_spec in Hsh; destruct Hsh as [<- <-].
    - split; [fold d|]; lia.
    - lia.
    - rewrite iter_xO_digits. fold d. lia. }
  destruct Hmz as [Hdz ->].
  unfold binary_round_aux, shr_fexp. cbn [Zdigits2]. rewrite Hdz, fexp64.
  replace (Z.max (53 + (d - 53) - 53) (-1074) - (d - 53)) with 0 by lia.
  cbn [shr shr_record_of_loc shr_m loc_of_shr_record round_nearest_even
       Zdigits2].
  rewrite Hdz, fexp64.
  replace (Z.max (53 + (d - 53) - 53) (-1074) - (d - 53)) with 0 by lia.
  cbn [shr shr_m].
  destruct (Z.leb_spec (d - 53) (1024 - 53)); [eauto|lia].
Qed.

Lemma py_truediv_self (w : Z) :
  0 < w < 2 ^ 53 -> py_truediv w w = Ok Float64.one.
Proof.
  intros Hw. unfold py_truediv. destruct (Z.eqb_spec w 0); [lia|].
  destruct w as [|m|m]; try lia.
  destruct (of_Z_pos_shape m) as (mz & ez & ->); [lia|].
  now rewrite div_self.
Qed.

Lemma scale_box_one (b : Pipeline.box) :
  valid_box b -> Pipeline.scale_box Float64.one Float64.one b = b.
Proof.
  destruct b as [[[x1 y1] x2] y2]. intros (V1 & V2 & V3 & V4).
  unfold Pipeline.scale_box. now rewrite !mul_one.
Qed.

Lemma for_each_same_crops {A} (l : list A) (f g : A -> run unit) :
  (forall a, In a l ->
     ImagePipeline.crops_of (fst (f a)) = ImagePipeline.crops_of (fst (g a))
     /\ snd (f a) = snd (g a)) ->
  ImagePipeline.crops_of (fst (for_each l f))
  = ImagePipeline.crops_of (fst (for_each l g))
  /\ snd (for_each l f) = snd (for_each l g).
Proof.
  induction l as [|a l IH]; intros H; [auto|].
  destruct (H a (or_introl eq_refl)) as [Hc Hs].
  destruct IH as [IHc IHs]; [intros x Hx; apply H; now right|].
  cbn [for_each]. unfold bind.
  destruct (f a) as [t1 r1], (g a) as [t2 r2]. cbn [fst snd] in *. subst r2.
  destruct r1 as [[]|e]; [|auto].
  destruct (for_each l f) as [t1' r1'], (for_each l g) as [t2' r2'].
  cbn [fst snd] in *. subst r2'. split; [|reflexivity].
  unfold ImagePipeline.crops_of in *. rewrite !flat_map_app. congruence.
Qed.

(** X9. When the layout image of a page has the size of the page render,
    both below [2 ^ 53], the two scales are exactly [1.0] and scaling
    leaves every box as it is: with one margin ratio for both axes,
    document mode crops the page exactly as direct mode crops the render,
    box for box, and ends the same way. *)
Theorem same_size_layout_crops_as_direct
    (original_images : list image) (listing : list string)
    (open_layout : string -> image) (margin_ratio : Float64.float)
    (doc_key : string) (pd : Pipeline.page_data) (img : image)
    (fname : string) :
  py_index original_images (Pipeline.page pd - 1) = Ok img ->
  Pipeline.match_layout listing (Pipeline.page pd) = Some fname ->
  width (open_layout fname) = width img ->
  height (open_layout fname) = height img ->
  0 < width img < 2 ^ 53 -> 0 < height img < 2 ^ 53 ->
  Forall valid_box (Pipeline.bboxes pd) ->
  let document :=
    Pipeline.crop_page original_images listing open_layout
      margin_ratio margin_ratio doc_key pd in
  let direct :=
    Pipeline.crop_segments_from_image img (Pipeline.bboxes pd) margin_ratio in
  py_truediv (width img) (width (open_layout fname)) = Ok Float64.one /\
  py_truediv (height img) (height (open_layout fname)) = Ok Float64.one /\
  ImagePipeline.crops_of (fst document) = ImagePipeline.crops_of (fst direct)
  /\ snd document = snd direct.
Proof.
  intros Hidx Hmatch Hw Hh Hwb Hhb Hvalid document direct.
  rewrite Hw, Hh, !py_truediv_self by assumption.
  split; [reflexivity|]. split; [reflexivity|].
  subst document direct.
  unfold Pipeline.crop_page, Pipeline.crop_segments_from_image.
  rewrite Hidx. change (lift (Ok img)) with (ret img). rewrite bind_ret_l.
  rewrite Hmatch, Hw, Hh, !py_truediv_self by assumption.
  change (lift (Ok Float64.one)) with (ret Float64.one).
  rewrite !bind_ret_l.
  apply for_each_same_crops. intros [idx b] Hin.
  apply in_enumerate in Hin. destruct Hin as (n & _ & Hn).
  apply nth_error_In in Hn. rewrite Forall_forall in Hvalid.
  unfold Pipeline.crop_page_box, Pipeline.crop_image_box.
  rewrite scale_box_one by auto.
  unfold lift, bind. destruct (Pipeline.truncate _) as [r|e]; [|auto].
  destruct (Pipeline.degenerate r); auto.
Qed.

Lemma same_size_layout_crops_as_direct_witness :
  let img := {| width := 400; height := 200 |} in
  let pd := {| Pipeline.page := 1;
               Pipeline.bboxes := [box_of_Z 10 10 110 60;
                                   box_of_Z 300 150 500 260] |} in
  let document :=
    Pipeline.crop_page [img] ["doc_0_layout.png"%string] (fun _ => img)
      Float64.lit_0_05 Float64.lit_0_05 "doc" pd in
  let direct :=
    Pipeline.crop_segments_from_image img (Pipeline.bboxes pd)
      Float64.lit_0_05 in
  ImagePipeline.crops_of (fst direct)
  = [(img, (5, 7, 115, 62)); (img, (290, 144, 400, 200))] /\
  py_truediv 400 400 = Ok Float64.one /\
  py_truediv 200 200 = Ok Float64.one /\
  ImagePipeline.crops_of (fst document) = ImagePipeline.crops_of (fst direct)
  /\ snd document = snd direct.
Proof.
  intros img pd document direct. split; [vm_compute; reflexivity|].
  apply (same_size_layout_crops_as_direct [img] ["doc_0_layout.png"%string]
           (fun _ => img) Float64.lit_0_05 "doc" pd img
           "doc_0_layout.png");
    try reflexivity; try (simpl; lia).
  repeat constructor.
Defined.

(** ** The two tests of a layout file name *)

(** X10. The second test of line 63 never decides: a name that ends with
    the tag of the page followed by [layout.png] holds the tag, so a file
    matches a page exactly when its name holds the tag of the page. *)
Theorem second_page_test_is_redundant (page_num : Z) (fname : string) :
  Pipeline.page_matches page_num fname
  = PyStr.contains (Pipeline.page_tag page_num) fname.
Proof.
  unfold Pipeline.page_matches.
  destruct (PyStr.contains _ fname) eqn:Hc; [reflexivity|]. cbn [orb].
  destruct (PyStr.endswith _ _) eqn:He; [|reflexivity].
  apply endswith_spec in He. destruct He as [pre ->].
  rewrite <- Hc. symmetry. apply contains_spec.
  exists pre, "layout.png"%string. reflexivity.
Qed.

(** ** The names of direct mode *)

Lemma direct_mode_saved_indices (img : image) (mr : Float64.float)
    (l : list Pipeline.box) (start : Z) :
  exists idxs,
    ImagePipeline.saved_names
      (fst (for_each (enumerate start l) (Pipeline.crop_image_box img mr)))
    = map Pipeline.image_box_name idxs /\
    Forall (fun i => start <= i < start + Z.of_nat (List.length l)) idxs /\
    StronglySorted Z.lt idxs.
Proof.
  revert start. induction l as [|b l IH]; intros start.
  - exists []. repeat constructor.
  - destruct (IH (start + 1)) as (idxs & Hn & Hr & Hs).
    assert (Hr' : Forall (fun i => start <= i
                            < start + Z.of_nat (List.length (b :: l))) idxs).
    { eapply Forall_impl; [|exact Hr]. cbn [List.length]. intros; lia. }
    cbn [enumerate for_each]. unfold Pipeline.crop_image_box at 1.
    unfold lift, bind at 1 2.
    destruct (Pipeline.truncate _) as [r|e].
    2:{ exists []. repeat constructor. }
    destruct (Pipeline.degenerate r).
    + cbn [ret fst snd]. destruct (for_each _ _) as [t res].
      cbn [fst app] in *. exists idxs. auto.
    + cbn [emit fst snd]. destruct (for_each _ _) as [t res].
      cbn [fst] in *. exists (start :: idxs). split; [|split].
      * cbn [app ImagePipeline.saved_names flat_map map].
        unfold ImagePipeline.saved_names in Hn. now rewrite Hn.
      * constructor; [cbn [List.length]; lia|exact Hr'].
      * constructor; [exact Hs|].
        eapply Forall_impl; [|exact Hr]. cbn beta. intros; lia.
Qed.

(** X11. Direct mode never overwrites a crop of its own.  Whatever the
    boxes, and whether the run ends or raises, the files it saves are
    named after an increasing list of positions of boxes: their names are
    pairwise distinct and their sort keys, the positions plus one,
    increase. *)
Theorem direct_mode_never_overwrites (img : image)
    (bboxes : list Pipeline.box) (margin_ratio : Float64.float) :
  let names :=
    ImagePipeline.saved_names
      (fst (Pipeline.crop_segments_from_image img bboxes margin_ratio)) in
  NoDup names /\
  exists idxs,
    names = map Pipeline.image_box_name idxs /\
    map PyStr.extract_box_number names
    = map (fun i => PyStr.KInt (i + 1)) idxs /\
    StronglySorted Z.lt idxs /\
    Forall (fun i => 0 <= i < Z.of_nat (List.length bboxes)) idxs.
Proof.
  intros names. subst names. unfold Pipeline.crop_segments_from_image.
  destruct (direct_mode_saved_indices img margin_ratio bboxes 0)
    as (idxs & -> & Hr & Hs).
  assert (Hge : Forall (fun i => 0 <= i) idxs)
    by (eapply Forall_impl; [|exact Hr]; cbn beta; intros; lia).
  destruct (image_box_names_sorted idxs Hge Hs) as [_ Hkeys].
  split; [exact (NoDup_of_keys _ _ Hkeys)|].
  exists idxs. repeat split; auto.
  rewrite map_map. apply map_ext_in. intros i Hi.
  rewrite Forall_forall in Hge. now apply extract_image_box_name, Hge.
Qed.
